(** * Agent runtime demo: the task engine of [server.py] and its client

    A shallow embedding of the FastAPI server of the repository
    ([src/server.py]) and the properties of its two capabilities,
    [code_quality] and [summarize_code], of task submission
    ([create_task]) and of polling ([task_status]); and of the client
    ([src/agent.py]) run against that server.

    Python text ([str]) is a sequence of Unicode code points; it is
    modelled as a list of code points ([N]), surrogates included, which
    [text.encode("utf-8")] refuses.  The two regular expressions of
    [run_task] are terms of a small pattern language whose matcher
    follows the backtracking order of Python's [re]. *)

From Stdlib Require Import NArith ZArith List String Ascii Bool Lia.
From Stdlib Require Import Decimal DecimalString Sorted.
From stdpp Require Import base option list gmap.

(** ** Text *)

Abbreviation str := (list N).

Module Text.

(** A literal of the source, as code points. *)
Definition lit (s : string) : str :=
  List.map N_of_ascii (list_ascii_of_string s).
Arguments lit _%_string.

Definition LF : N := 10.
Definition CR : N := 13.
Definition QUOTE : N := 34.
Definition UNDERSCORE : N := 95.

Definition between (lo hi c : N) : bool := (lo <=? c)%N && (c <=? hi)%N.

(** [\s] of a [str] pattern: the characters for which [str.isspace] holds. *)
Definition is_space (c : N) : bool :=
  between 9 13 c || between 28 32 c || (c =? 133)%N || (c =? 160)%N
  || (c =? 5760)%N || between 8192 8202 c || (c =? 8232)%N || (c =? 8233)%N
  || (c =? 8239)%N || (c =? 8287)%N || (c =? 12288)%N.

(** The line boundaries of [str.splitlines]. *)
Definition is_linebreak (c : N) : bool :=
  between 10 13 c || between 28 30 c || (c =? 133)%N
  || (c =? 8232)%N || (c =? 8233)%N.

Definition ascii_alnum (c : N) : bool :=
  between 48 57 c || between 65 90 c || between 97 122 c.

(** [.] without [re.S]: any character but the newline. *)
Definition not_newline (c : N) : bool := negb (c =? LF)%N.

(** [needle in hay] *)
Fixpoint starts_with (needle hay : str) : bool :=
  match needle, hay with
  | [], _ => true
  | a :: needle', b :: hay' => (a =? b)%N && starts_with needle' hay'
  | _ :: _, [] => false
  end.

Fixpoint contains (needle hay : str) : bool :=
  starts_with needle hay ||
  match hay with
  | [] => false
  | _ :: hay' => contains needle hay'
  end.

(** [sep.join(parts)] *)
Fixpoint join (sep : str) (parts : list str) : str :=
  match parts with
  | [] => []
  | [p] => p
  | p :: rest => p ++ sep ++ join sep rest
  end.

(** [str.splitlines()]: the text is cut at every line boundary, [\r\n]
    counts as one boundary, and no empty last line is produced.  [cur] is
    the line being read, in reverse. *)
Fixpoint splitlines_from (cur : str) (s : str) : list str :=
  match s with
  | [] => match cur with [] => [] | _ => [rev cur] end
  | c :: s' =>
      if is_linebreak c then
        rev cur ::
          match s' with
          | c' :: s'' =>
              if (c =? CR)%N && (c' =? LF)%N then splitlines_from [] s''
              else splitlines_from [] s'
          | [] => splitlines_from [] s'
          end
      else splitlines_from (c :: cur) s'
  end.

Definition splitlines (s : str) : list str := splitlines_from [] s.

(** [str(z)] of an [int]. *)
Definition of_Z (z : Z) : str := lit (NilEmpty.string_of_int (Z.to_int z)).

(** [str(n)] of a non-negative [int]. *)
Definition of_nat (n : nat) : str := of_Z (Z.of_nat n).

(** [enumerate(xs, start)] *)
Fixpoint enumerate {A} (start : nat) (xs : list A) : list (nat * A) :=
  match xs with
  | [] => []
  | x :: xs' => (start, x) :: enumerate (S start) xs'
  end.

End Text.
Import Text.

(** ** Regular expressions *)

Module Re.

(** The fragment of Python's pattern syntax that [server.py] uses.  A
    pattern is a sequence of atoms; every repetition in the source is a
    greedy repetition of a one-character class, and a pattern has at most
    one capture group, delimited by [GOpen] and [GClose]. *)
Inductive atom : Type :=
| Bol                     (* ^ under re.M *)
| Lit (c : N)             (* a literal character *)
| Cls (f : N -> bool)     (* \s \w . *)
| Star (f : N -> bool)    (* X* for a one-character X, greedy *)
| GOpen                   (* ( *)
| GClose.                 (* ) *)

Abbreviation regex := (list atom).

(** X+ is XX*. *)
Definition plus (f : N -> bool) : regex := [Cls f; Star f].

Definition lits (s : str) : regex := List.map Lit s.

(** [^] under [re.M]: at the start of the text and right after a newline.
    [prev] is the character before the current position. *)
Definition at_bol (prev : option N) : bool :=
  match prev with
  | None => true
  | Some c => (c =? LF)%N
  end.

(** The result of a match at a position: the text consumed by each atom of
    the pattern, in order, and the rest of the input. *)
Definition found : Type := list str * str.

Definition push (seg : str) (r : found) : found := (seg :: fst r, snd r).

(** Greedy repetition: take one more character first, and give it back
    when the rest of the pattern, [k], fails after it. *)
Fixpoint star_loop (f : N -> bool) (k : option N -> str -> option found)
    (prev : option N) (s : str) : option (str * found) :=
  match s with
  | x :: s' =>
      if f x then
        match star_loop f k (Some x) s' with
        | Some (seg, r) => Some (x :: seg, r)
        | None => pair [] <$> k prev s
        end
      else pair [] <$> k prev s
  | [] => pair [] <$> k prev s
  end.

Fixpoint match_here (p : regex) (prev : option N) (s : str) : option found :=
  match p with
  | [] => Some ([], s)
  | Bol :: p' =>
      if at_bol prev then push [] <$> match_here p' prev s else None
  | Lit c :: p' =>
      match s with
      | x :: s' =>
          if (x =? c)%N then push [x] <$> match_here p' (Some x) s' else None
      | [] => None
      end
  | Cls f :: p' =>
      match s with
      | x :: s' =>
          if f x then push [x] <$> match_here p' (Some x) s' else None
      | [] => None
      end
  | Star f :: p' =>
      (fun sr : str * found => push (fst sr) (snd sr))
        <$> star_loop f (match_here p') prev s
  | GOpen :: p' => push [] <$> match_here p' prev s
  | GClose :: p' => push [] <$> match_here p' prev s
  end.

(** The text of the capture group, from the text consumed by each atom. *)
Fixpoint group_text (inside : bool) (p : regex) (segs : list str) : str :=
  match p, segs with
  | GOpen :: p', _ :: segs' => group_text true p' segs'
  | GClose :: _, _ => []
  | _ :: p', seg :: segs' =>
      (if inside then seg else []) ++ group_text inside p' segs'
  | _, _ => []
  end.

(** [re.search(p, s, flags=re.M)]: the match at the first position that
    has one.  The result is [None] exactly when Python's is. *)
Fixpoint search_from (p : regex) (prev : option N) (s : str) : option (list str) :=
  match match_here p prev s with
  | Some r => Some (fst r)
  | None =>
      match s with
      | [] => None
      | x :: s' => search_from p (Some x) s'
      end
  end.

Definition search (p : regex) (s : str) : option (list str) := search_from p None s.

(** [re.findall(p, s, flags=re.M)] for a pattern with one group: the group
    of every match, scanning from left to right; after a match the scan
    resumes where the match ended ([skip] counts the characters of the
    match that are still to be passed over). *)
Fixpoint findall_from (p : regex) (skip : nat) (prev : option N) (s : str)
    : list str :=
  match skip with
  | S skip' =>
      match s with
      | [] => []
      | x :: s' => findall_from p skip' (Some x) s'
      end
  | O =>
      match match_here p prev s with
      | Some r =>
          group_text false p (fst r) ::
            match s with
            | [] => []
            | x :: s' =>
                findall_from p (Nat.pred (length (concat (fst r)))) (Some x) s'
            end
      | None =>
          match s with
          | [] => []
          | x :: s' => findall_from p 0 (Some x) s'
          end
      end
  end.

Definition findall (p : regex) (s : str) : list str := findall_from p 0 None s.

(** The character before the position reached after reading [u] from a
    position preceded by [prev]. *)
Definition after (prev : option N) (u : str) : option N :=
  match last u with
  | Some c => Some c
  | None => prev
  end.

(** What a pattern denotes: [Matches p prev segs] when [p] matches, at a
    position preceded by [prev], the text [concat segs], of which each
    atom takes one segment. *)
Inductive Matches : regex -> option N -> list str -> Prop :=
| M_nil prev : Matches [] prev []
| M_bol p prev segs :
    at_bol prev = true -> Matches p prev segs ->
    Matches (Bol :: p) prev ([] :: segs)
| M_lit c p prev segs :
    Matches p (Some c) segs -> Matches (Lit c :: p) prev ([c] :: segs)
| M_cls f c p prev segs :
    f c = true -> Matches p (Some c) segs ->
    Matches (Cls f :: p) prev ([c] :: segs)
| M_star f p prev u segs :
    forallb f u = true -> Matches p (after prev u) segs ->
    Matches (Star f :: p) prev (u :: segs)
| M_open p prev segs :
    Matches p prev segs -> Matches (GOpen :: p) prev ([] :: segs)
| M_close p prev segs :
    Matches p prev segs -> Matches (GClose :: p) prev ([] :: segs).

(** The pattern matches somewhere in the text. *)
Definition Occurs (p : regex) (s : str) : Prop :=
  exists pre segs post,
    s = pre ++ concat segs ++ post /\ Matches p (last pre) segs.

End Re.
Import Re.

(** ** Values *)

(** What [Any] holds in a request body: a JSON value.  A [float] is
    carried as the text [json.dumps] prints for it, which is all that the
    server ever does with one. *)
Unset Elimination Schemes.
Inductive value : Type :=
| VNull
| VBool (b : bool)
| VInt (z : Z)
| VFloat (text : str)
| VStr (s : str)
| VList (xs : list value)
| VDict (kvs : list (str * value)).
Set Elimination Schemes.

(** A [Dict[str, Any]] built by the server, in insertion order. *)
Abbreviation dict := (list (str * value)).

Module Json.

Definition hex_digit (n : N) : N := if (n <? 10)%N then (48 + n)%N else (87 + n)%N.

(** The escapes of [json.encoder.encode_basestring] (what [json.dumps]
    uses under [ensure_ascii=False]): the quote, the backslash and the
    control characters below U+0020; every other character is left as it
    is. *)
Definition escape_char (c : N) : str :=
  if (c =? 34)%N then [92; 34]%N
  else if (c =? 92)%N then [92; 92]%N
  else if (c =? 10)%N then [92; 110]%N
  else if (c =? 13)%N then [92; 114]%N
  else if (c =? 9)%N then [92; 116]%N
  else if (c =? 8)%N then [92; 98]%N
  else if (c =? 12)%N then [92; 102]%N
  else if (c <? 32)%N then
    [92; 117; 48; 48; hex_digit (c / 16); hex_digit (c mod 16)]%N
  else [c].

Definition encode_basestring (s : str) : str :=
  [QUOTE] ++ flat_map escape_char s ++ [QUOTE].

(** A newline and the indentation of nesting depth [level]. *)
Definition newline_indent (indent level : nat) : str :=
  LF :: repeat 32%N (indent * level).

(** [json.dumps(v, ensure_ascii=False, indent=indent)] at nesting depth
    [level]: the items of a list or of an object each on a line of its
    own, one level deeper, with a comma between two of them. *)
Fixpoint encode (indent level : nat) (v : value) {struct v} : str :=
  match v with
  | VNull => lit "null"
  | VBool true => lit "true"
  | VBool false => lit "false"
  | VInt z => of_Z z
  | VFloat text => text
  | VStr s => encode_basestring s
  | VList [] => lit "[]"
  | VList xs =>
      lit "[" ++ newline_indent indent (S level)
      ++ join (lit "," ++ newline_indent indent (S level))
           (List.map (encode indent (S level)) xs)
      ++ newline_indent indent level ++ lit "]"
  | VDict [] => lit "{}"
  | VDict kvs =>
      lit "{" ++ newline_indent indent (S level)
      ++ join (lit "," ++ newline_indent indent (S level))
           (List.map (fun kv => encode_basestring (fst kv) ++ lit ": "
                                ++ encode indent (S level) (snd kv)) kvs)
      ++ newline_indent indent level ++ lit "}"
  end.

(** [json.dumps(v, ensure_ascii=False, indent=2)] *)
Definition dumps (v : value) : str := encode 2 0 v.

End Json.

(** ** UTF-8 *)

(** A surrogate code point, U+D800 to U+DFFF.  Python text can hold one
    on its own (a JSON body may spell it [\ud800], and a file name that
    is not valid UTF-8 is decoded with [surrogateescape]); no UTF-8
    sequence stands for it. *)
Definition is_surrogate (c : N) : bool := between 55296 57343 c.

(** The code points that the [utf-8] codec encodes: all those of a text,
    up to U+10FFFF, but the surrogates. *)
Definition scalar (c : N) : bool := negb (is_surrogate c) && (c <=? 1114111)%N.

(** The bytes of one character under [text.encode("utf-8")], and [None]
    where the codec raises [UnicodeEncodeError]. *)
Definition utf8_char (c : N) : option (list N) :=
  if negb (scalar c) then None
  else if (c <? 128)%N then Some [c]
  else if (c <? 2048)%N then Some [192 + c / 64; 128 + c mod 64]%N
  else if (c <? 65536)%N then
    Some [224 + c / 64 / 64; 128 + (c / 64) mod 64; 128 + c mod 64]%N
  else
    Some [240 + c / 64 / 64 / 64; 128 + (c / 64 / 64) mod 64;
          128 + (c / 64) mod 64; 128 + c mod 64]%N.

(** [text.encode("utf-8")]: the bytes, or [None] for
    [UnicodeEncodeError]. *)
Fixpoint utf8 (s : str) : option (list N) :=
  match s with
  | [] => Some []
  | c :: s' =>
      match utf8_char c, utf8 s' with
      | Some b, Some bs => Some (b ++ bs)
      | _, _ => None
      end
  end.

(** A continuation byte, [10xxxxxx]. *)
Definition continuation (b : N) : bool := between 128 191 b.

(** [content.decode("utf-8")]: the text that the bytes stand for, or
    [None] for [UnicodeDecodeError].  The decoder accepts the shortest
    sequence of a code point only, and no surrogate. *)
Fixpoint utf8_decode (bs : list N) : option str :=
  match bs with
  | [] => Some []
  | b0 :: rest =>
      if (b0 <? 128)%N then
        match utf8_decode rest with Some s => Some (b0 :: s) | None => None end
      else if between 194 223 b0 then
        match rest with
        | b1 :: rest' =>
            if continuation b1 then
              match utf8_decode rest' with
              | Some s => Some (((b0 - 192) * 64 + (b1 - 128))%N :: s)
              | None => None
              end
            else None
        | _ => None
        end
      else if between 224 239 b0 then
        match rest with
        | b1 :: b2 :: rest' =>
            let c := ((b0 - 224) * 4096 + (b1 - 128) * 64 + (b2 - 128))%N in
            if continuation b1 && continuation b2
               && (2048 <=? c)%N && negb (is_surrogate c) then
              match utf8_decode rest' with
              | Some s => Some (c :: s)
              | None => None
              end
            else None
        | _ => None
        end
      else if between 240 244 b0 then
        match rest with
        | b1 :: b2 :: b3 :: rest' =>
            let c := ((b0 - 240) * 262144 + (b1 - 128) * 4096
                      + (b2 - 128) * 64 + (b3 - 128))%N in
            if continuation b1 && continuation b2 && continuation b3
               && (65536 <=? c)%N && (c <=? 1114111)%N then
              match utf8_decode rest' with
              | Some s => Some (c :: s)
              | None => None
              end
            else None
        | _ => None
        end
      else None
  end.

(** The text can be encoded. *)
Definition encodable (s : str) : bool := forallb scalar s.

(** Every text of a JSON value can be encoded: its strings, the keys of
    its objects and, for a number that is a [float], the text printed for
    it when [float_ok] accepts it. *)
Fixpoint value_encodable (float_ok : str -> bool) (v : value) : bool :=
  match v with
  | VNull | VBool _ | VInt _ => true
  | VFloat text => float_ok text && encodable text
  | VStr s => encodable s
  | VList xs => forallb (value_encodable float_ok) xs
  | VDict kvs =>
      forallb (fun kv => encodable (fst kv) && value_encodable float_ok (snd kv)) kvs
  end.

(** ** Models *)

Module TaskRequest.
Record t : Type := mk {
  capability : str;
  inputs : gmap str value;
  context : option (gmap str value);
  policy : option str;
  callback_url : option str }.
End TaskRequest.

Module Artifact.
Record t : Type := mk {
  name : str;
  path : str;
  sha256 : option str }.
End Artifact.

Module Fact.
Record t : Type := mk {
  type : str;
  data : dict }.
End Fact.

Module TaskResult.
Record t : Type := mk {
  task_id : str;
  status : str;
  capability : str;
  facts : list Fact.t;
  artifacts : list Artifact.t;
  sources : list dict;
  timestamps : list (str * str);
  stable_id : str;
  message : option str }.
End TaskResult.

Module TaskStatus.
Record t : Type := mk {
  task_id : str;
  status : str;
  result : option TaskResult.t }.
End TaskStatus.

Module Capability.
Record t : Type := mk {
  name : str;
  description : str;
  inputs_schema : list (str * str);
  policy : str }.
End Capability.

Definition CAPABILITIES : list Capability.t :=
  [ Capability.mk (lit "code_quality")
      (lit "Analyze Python code for rough issues (TODOs, long lines, missing docstrings).")
      [(lit "code", lit "str"); (lit "filename", lit "str")]
      (lit "safe-readonly");
    Capability.mk (lit "summarize_code")
      (lit "Summarize the purpose of a Python file (heuristic).")
      [(lit "code", lit "str"); (lit "filename", lit "str")]
      (lit "safe-readonly") ].

(** ** Exceptions *)

Inductive exn : Type :=
| AttributeError
| TypeError
| UnicodeEncodeError
| HTTPException (status_code : nat) (detail : str).

Inductive outcome (A : Type) : Type :=
| Return (a : A)
| Raise (e : exn).
Arguments Return {A} a.
Arguments Raise {A} e.

(** ** Responses *)

(** [jsonable_encoder]: the JSON form of what a handler returns, from
    which the framework builds the body of the response.  The fields of a
    model come in the order of their declaration, and a field that is
    [None] comes as [null]. *)
Class Jsonable (A : Type) := to_json : A -> value.

Definition option_json (o : option str) : value :=
  match o with Some s => VStr s | None => VNull end.

Definition texts_json (d : list (str * str)) : value :=
  VDict (List.map (fun kv => (fst kv, VStr (snd kv))) d).

#[export] Instance dict_json : Jsonable dict := VDict.

#[export] Instance artifact_json : Jsonable Artifact.t := fun a =>
  VDict [(lit "name", VStr (Artifact.name a));
         (lit "path", VStr (Artifact.path a));
         (lit "sha256", option_json (Artifact.sha256 a))].

#[export] Instance fact_json : Jsonable Fact.t := fun f =>
  VDict [(lit "type", VStr (Fact.type f)); (lit "data", VDict (Fact.data f))].

#[export] Instance result_json : Jsonable TaskResult.t := fun r =>
  VDict [(lit "task_id", VStr (TaskResult.task_id r));
         (lit "status", VStr (TaskResult.status r));
         (lit "capability", VStr (TaskResult.capability r));
         (lit "facts", VList (List.map to_json (TaskResult.facts r)));
         (lit "artifacts", VList (List.map to_json (TaskResult.artifacts r)));
         (lit "sources", VList (List.map VDict (TaskResult.sources r)));
         (lit "timestamps", texts_json (TaskResult.timestamps r));
         (lit "stable_id", VStr (TaskResult.stable_id r));
         (lit "message", option_json (TaskResult.message r))].

#[export] Instance status_json : Jsonable TaskStatus.t := fun s =>
  VDict [(lit "task_id", VStr (TaskStatus.task_id s));
         (lit "status", VStr (TaskStatus.status s));
         (lit "result",
          match TaskStatus.result s with
          | Some r => to_json r
          | None => VNull
          end)].

#[export] Instance capability_json : Jsonable Capability.t := fun c =>
  VDict [(lit "name", VStr (Capability.name c));
         (lit "description", VStr (Capability.description c));
         (lit "inputs_schema", texts_json (Capability.inputs_schema c));
         (lit "policy", VStr (Capability.policy c))].

#[export] Instance capabilities_json : Jsonable (list Capability.t) := fun cs =>
  VList (List.map to_json cs).

(** The body of the response to a raised [HTTPException]. *)
Definition error_body (e : exn) : option dict :=
  match e with
  | HTTPException _ detail => Some [(lit "detail", VStr detail)]
  | _ => None
  end.

(** ** Storage *)

(** The process-wide task table and the files of the artifact directory
    (path to content, as bytes). *)
Record state : Type := mk_state {
  TASKS : gmap str TaskStatus.t;
  FILES : gmap str (list N) }.

(** [a == b] on text. *)
Fixpoint str_eqb (a b : str) : bool :=
  match a, b with
  | [], [] => true
  | x :: a', y :: b' => (x =? y)%N && str_eqb a' b'
  | _, _ => false
  end.

(** [os.path.join(a, b)] of [posixpath]. *)
Definition os_path_join (a b : str) : str :=
  if starts_with (lit "/") b then b
  else
    match last a with
    | None => b
    | Some c => if (c =? 47)%N then a ++ b else a ++ lit "/" ++ b
    end.

(** [uuid.hex], for the number [uuid] of a UUID (below 2^128): its 32
    hexadecimal digits, [CPython]'s ['%032x' % self.int]. *)
Fixpoint hex_digits (n : nat) (x : N) : str :=
  match n with
  | O => []
  | S n' => hex_digits n' (x / 16) ++ [Json.hex_digit (x mod 16)]
  end.

Definition hex (uuid : N) : str := hex_digits 32 uuid.

(** An environment to run the examples in.  The examples are ASCII text,
    for which [\w] never consults the table of the characters beyond
    ASCII; the digest of the examples is the decimal length of the
    content, in place of [hashlib]'s; the examples hold no [float]. *)
Definition ascii_table : N -> bool := fun _ => false.
Definition example_digest : list N -> str := fun content => of_nat (length content).
Definition example_dir : str := lit "/srv/app/artifacts".
Definition any_float : str -> bool := fun _ => true.

(** ** Engine *)

Section Server.

(** What the server takes from its environment: the interpreter's table of
    the alphanumeric characters beyond ASCII ([str.isalnum], which [\w]
    consults), [hashlib.sha256(b).hexdigest()], the absolute path of the
    [artifacts] directory next to [server.py], and whether the framework
    builds a response from a [float] held in an [Any] field, given the
    text printed for it ([json.dumps] with [allow_nan=False] refuses the
    ones that are not finite, unless the model layer has replaced them
    before, which depends on the version of pydantic installed). *)
Variable uni_alnum : N -> bool.
Variable sha256_hexdigest : list N -> str.
Variable ARTIFACT_DIR : str.
Variable float_renders : str -> bool.

(** Whether the framework can build the body of a response from a JSON
    form: [JSONResponse.render] is [json.dumps(content,
    ensure_ascii=False, allow_nan=False).encode("utf-8")], which raises
    on a text that cannot be encoded. *)
Definition renders (v : value) : bool := value_encodable float_renders v.

(** The status line of the response that the framework builds from what a
    handler returns or raises: 500 for an exception that is not an
    [HTTPException], and for a returned value that cannot be rendered. *)
Definition status_code_of {A} `{Jsonable A} (o : outcome A) : nat :=
  match o with
  | Return a => if renders (to_json a) then 200 else 500
  | Raise (HTTPException code _) => code
  | Raise _ => 500
  end.

(** [\w] of a [str] pattern. *)
Definition is_word (c : N) : bool :=
  (c =? UNDERSCORE)%N || (if (c <? 128)%N then ascii_alnum c else uni_alnum c).

(** The pattern [^\s*def\s+\w+\(.*\):\n\s+] followed by three double
    quotes. *)
Definition docstring_pattern : regex :=
  [Bol; Star is_space] ++ lits (lit "def") ++ plus is_space ++ plus is_word
  ++ [Lit 40%N; Star not_newline; Lit 41%N; Lit 58%N; Lit LF]
  ++ plus is_space ++ [Lit QUOTE; Lit QUOTE; Lit QUOTE].

(** [r'^\s*def\s+(\w+)\('] *)
Definition def_pattern : regex :=
  [Bol; Star is_space] ++ lits (lit "def") ++ plus is_space
  ++ [GOpen] ++ plus is_word ++ [GClose] ++ [Lit 40%N].

Definition artifact_path (name : str) : str := os_path_join ARTIFACT_DIR name.

(** [_sha256(text)], and [None] when [text.encode("utf-8")] raises. *)
Definition _sha256 (text : str) : option str :=
  match utf8 text with
  | Some content => Some (sha256_hexdigest content)
  | None => None
  end.

(** [req.inputs.get(key, fallback)] *)
Definition inputs_get (req : TaskRequest.t) (key : str) (fallback : value) : value :=
  default fallback (TaskRequest.inputs req !! key).

Definition lint_issue (line : nat) (message : str) : dict :=
  [(lit "line", VInt (Z.of_nat line)); (lit "message", VStr message)].

Definition TODO_FOUND : str := lit "TODO found".
Definition LINE_TOO_LONG : str := lit "Line longer than 100 chars".
Definition NO_DOCSTRING : str := lit "Functions may lack docstrings (heuristic)".

(** The body of the loop over the lines: [issues] is the list that the
    loop appends to. *)
Definition check_line (issues : list dict) (il : nat * str) : list dict :=
  let issues :=
    if contains (lit "TODO") (snd il)
    then issues ++ [lint_issue (fst il) TODO_FOUND] else issues in
  let issues :=
    if 100 <? length (snd il)
    then issues ++ [lint_issue (fst il) LINE_TOO_LONG] else issues in
  issues.

(** The list [issues] of the [code_quality] branch, once the loop and the
    docstring heuristic have run. *)
Definition lint (code : str) : list dict :=
  let issues := fold_left check_line (enumerate 1 (splitlines code)) [] in
  match search docstring_pattern code with
  | None => issues ++ [lint_issue 1 NO_DOCSTRING]
  | Some _ => issues
  end.

Definition lint_report (filename : value) (issues : list dict) : dict :=
  [(lit "filename", filename);
   (lit "issue_count", VInt (Z.of_nat (length issues)));
   (lit "issues", VList (List.map VDict issues))].

Definition in_memory_source (filename : value) : dict :=
  [(lit "type", VStr (lit "in_memory_code")); (lit "ref", filename)].

(** [run_task(task_id, req)].  [clock_queued] and [clock_ended] are
    [datetime.utcnow().isoformat()] at the two readings of the clock;
    [files] is the artifact directory.  In the [code_quality] branch
    [open] creates the report or empties it, and [f.write] encodes the
    text before anything goes to the file: when the text cannot be
    encoded, it raises and leaves the file empty. *)
Definition run_task (files : gmap str (list N)) (task_id : str)
    (req : TaskRequest.t) (clock_queued clock_ended : str)
    : gmap str (list N) * outcome TaskResult.t :=
  let queued := clock_queued ++ lit "Z" in
  let done files facts artifacts sources message :=
    let ended := clock_ended ++ lit "Z" in
    (files,
     Return (TaskResult.mk task_id (lit "SUCCEEDED") (TaskRequest.capability req)
               facts artifacts sources
               [(lit "queued", queued); (lit "ended", ended)]
               (lit "run_" ++ task_id) (Some message))) in
  if str_eqb (TaskRequest.capability req) (lit "code_quality") then
    let code := inputs_get req (lit "code") (VStr (lit "")) in
    let filename := inputs_get req (lit "filename") (VStr (lit "unknown.py")) in
    match code with
    | VStr code =>
        let issues := lint code in
        let report := lint_report filename issues in
        let report_json := Json.dumps (VDict report) in
        let name := task_id ++ lit "_lint_report.json" in
        let path := artifact_path name in
        let files := <[path := []]> files in         (* open(path, "w") *)
        match utf8 report_json with
        | None => (files, Raise UnicodeEncodeError)  (* f.write(report_json) *)
        | Some content =>
            let files := <[path := content]> files in
            match _sha256 report_json with
            | None => (files, Raise UnicodeEncodeError)
            | Some digest =>
                done files
                  (List.map (Fact.mk (lit "lint_issue")) issues)
                  [Artifact.mk name path (Some digest)]
                  [in_memory_source filename]
                  (of_nat (length issues) ++ lit " potential issues found.")
            end
        end
    | _ => (files, Raise AttributeError)   (* code.splitlines() *)
    end
  else if str_eqb (TaskRequest.capability req) (lit "summarize_code") then
    let code := inputs_get req (lit "code") (VStr (lit "")) in
    let filename := inputs_get req (lit "filename") (VStr (lit "unknown.py")) in
    match code with
    | VStr code =>
        let funcs := findall def_pattern code in
        done files
          [Fact.mk (lit "functions") [(lit "names", VList (List.map VStr funcs))]]
          []
          [in_memory_source filename]
          (lit "This file defines: " ++
             match funcs with
             | [] => lit "no functions detected"
             | _ => join (lit ", ") funcs
             end)
    | _ => (files, Raise TypeError)        (* re.findall(..., code) *)
    end
  else done files [] [] [] (lit "Unknown capability").

(** ** API *)

Definition capabilities (st : state) : state * outcome (list Capability.t) :=
  (st, Return CAPABILITIES).

(** [TASKS[task_id] = TaskStatus(task_id=task_id, status="SCHEDULED")] *)
Definition mark_scheduled (st : state) (task_id : str) : state :=
  mk_state (<[task_id := TaskStatus.mk task_id (lit "SCHEDULED") None]> (TASKS st))
           (FILES st).

(** [create_task(req)].  [uuid] is the number of [uuid4()]. *)
Definition create_task (st : state) (req : TaskRequest.t) (uuid : N)
    (clock_queued clock_ended : str) : state * outcome dict :=
  if negb (existsb (str_eqb (TaskRequest.capability req))
             (List.map Capability.name CAPABILITIES))
  then (st, Raise (HTTPException 400 (lit "Unknown capability")))
  else
    let task_id := lit "t-" ++ firstn 8 (hex uuid) in
    let st := mark_scheduled st task_id in
    match run_task (FILES st) task_id req clock_queued clock_ended with
    | (files, Return result) =>
        (mk_state
           (<[task_id := TaskStatus.mk task_id (lit "SUCCEEDED") (Some result)]>
              (TASKS st))
           files,
         Return [(lit "task_id", VStr task_id); (lit "status", VStr (lit "SCHEDULED"))])
    | (files, Raise e) => (mk_state (TASKS st) files, Raise e)
    end.

(** [task_status(task_id)] *)
Definition task_status (st : state) (task_id : str) : state * outcome TaskStatus.t :=
  match TASKS st !! task_id with
  | None => (st, Raise (HTTPException 404 (lit "Task not found")))
  | Some s => (st, Return s)
  end.

Definition root (st : state) : state * outcome dict :=
  (st, Return [(lit "ok", VBool true); (lit "hint", VStr (lit "Try /capabilities or /docs"))]).

(** The requests that the process serves, each with what it reads from
    its environment. *)
Inductive call : Type :=
| GetCapabilities
| PostTasks (req : TaskRequest.t) (uuid : N) (clock_queued clock_ended : str)
| GetTask (task_id : str)
| GetRoot.

Definition serve (st : state) (c : call) : state :=
  match c with
  | GetCapabilities => fst (capabilities st)
  | PostTasks req uuid cq ce => fst (create_task st req uuid cq ce)
  | GetTask task_id => fst (task_status st task_id)
  | GetRoot => fst (root st)
  end.

(** The process starts with an empty task table. *)
Definition startup (files : gmap str (list N)) : state := mk_state ∅ files.

Definition serve_all (st : state) (calls : list call) : state :=
  fold_left serve calls st.

(** The task ids that [create_task] has generated along a run. *)
Definition issued_by (c : call) : list str :=
  match c with
  | PostTasks req uuid _ _ =>
      if existsb (str_eqb (TaskRequest.capability req))
           (List.map Capability.name CAPABILITIES)
      then [lit "t-" ++ firstn 8 (hex uuid)] else []
  | _ => []
  end.

Definition issued (calls : list call) : list str := flat_map issued_by calls.

(** ** The properties, in the words of the specification *)

(** Every character of [s] is in the class [f]. *)
Definition all_in (f : N -> bool) (s : str) : Prop := forallb f s = true.

(** The position after [pre] starts a line: it is the start of the text
    or follows a newline. *)
Definition line_start (pre : str) : Prop := at_bol (last pre) = true.

Definition TRIPLE_QUOTE : str := [QUOTE; QUOTE; QUOTE].

(** The text holds, at the start of a line, optional whitespace, [def],
    whitespace, an identifier, [(], anything but a newline, [):], a
    newline, whitespace ([gap]) and three double quotes. *)
Definition def_with_docstring (code : str) : Prop :=
  exists pre ws ws' name args gap post,
    code = pre ++ ws ++ lit "def" ++ ws' ++ name ++ lit "(" ++ args
           ++ lit "):" ++ [LF] ++ gap ++ TRIPLE_QUOTE ++ post
    /\ line_start pre /\ all_in is_space ws
    /\ ws' <> [] /\ all_in is_space ws'
    /\ name <> [] /\ all_in is_word name
    /\ all_in not_newline args
    /\ gap <> [] /\ all_in is_space gap.

(** At a position preceded by [prev], which starts a line, [w] is optional
    whitespace, [def], whitespace, the identifier [name] and [(]. *)
Definition def_head (prev : option N) (w name : str) : Prop :=
  at_bol prev = true /\
  exists ws ws',
    w = ws ++ lit "def" ++ ws' ++ name ++ lit "("
    /\ all_in is_space ws
    /\ ws' <> [] /\ all_in is_space ws'
    /\ name <> [] /\ all_in is_word name.

(** No such head starts anywhere in [s]. *)
Definition no_def_head (prev : option N) (s : str) : Prop :=
  forall pre w name post,
    s = pre ++ w ++ post -> ~ def_head (after prev pre) w name.

(** No such head starts at a position of [pre], in [pre ++ rest]. *)
Definition no_def_head_within (prev : option N) (pre rest : str) : Prop :=
  forall pre1 pre2 w name post,
    pre = pre1 ++ pre2 -> pre2 <> [] -> pre2 ++ rest = w ++ post ->
    ~ def_head (after prev pre1) w name.

(** The identifiers of the function definitions of a text, in the order
    in which they appear: the identifier of the first head, then those of
    the text that follows it. *)
Inductive DefNames : option N -> str -> list str -> Prop :=
| DefNames_none prev s :
    no_def_head prev s -> DefNames prev s []
| DefNames_first prev pre w name post names :
    no_def_head_within prev pre (w ++ post) ->
    def_head (after prev pre) w name ->
    DefNames (Some 40%N) post names ->
    DefNames prev (pre ++ w ++ post) (name :: names).

(** The line holds the literal substring [TODO]. *)
Definition has_TODO (line : str) : Prop :=
  exists a b, line = a ++ lit "TODO" ++ b.

(** The fact [{type: lint_issue, data: {line, message}}]. *)
Definition lint_fact (line : nat) (message : str) : Fact.t :=
  Fact.mk (lit "lint_issue") (lint_issue line message).

(** [f] is the fact [{type: lint_issue, data: {line, message}}]. *)
Definition is_lint_fact (line : nat) (message : str) (f : Fact.t) : bool :=
  str_eqb (Fact.type f) (lit "lint_issue") &&
  match Fact.data f with
  | [(k1, VInt z); (k2, VStr m)] =>
      str_eqb k1 (lit "line") && (z =? Z.of_nat line)%Z
      && str_eqb k2 (lit "message") && str_eqb m message
  | _ => false
  end.

(** How many times the fact occurs in a list of facts. *)
Definition times (line : nat) (message : str) (facts : list Fact.t) : nat :=
  length (List.filter (is_lint_fact line message) facts).

(** The line number of a lint fact. *)
Definition line_of (f : Fact.t) : Z :=
  match Fact.data f with
  | (_, VInt z) :: _ => z
  | _ => 0%Z
  end.

(** The facts of one line, in the order in which the loop emits them. *)
Definition line_facts (il : nat * str) : list Fact.t :=
  (if contains (lit "TODO") (snd il) then [lint_fact (fst il) TODO_FOUND] else [])
  ++ (if 100 <? length (snd il) then [lint_fact (fst il) LINE_TOO_LONG] else []).

(** The [code] input of a request when it is text, with the default of
    [run_task] when the key is missing. *)
Definition code_text (req : TaskRequest.t) : option str :=
  match inputs_get req (lit "code") (VStr (lit "")) with
  | VStr code => Some code
  | _ => None
  end.

(** The capability of the request is in the registry. *)
Definition registered (req : TaskRequest.t) : Prop :=
  In (TaskRequest.capability req) (List.map Capability.name CAPABILITIES).

(** [req] with [inputs[key] = v]. *)
Definition with_input (req : TaskRequest.t) (key : str) (v : value)
    : TaskRequest.t :=
  TaskRequest.mk (TaskRequest.capability req)
    (<[key := v]> (TaskRequest.inputs req))
    (TaskRequest.context req) (TaskRequest.policy req)
    (TaskRequest.callback_url req).

(** A request as [agent.py] posts it. *)
Definition request (capability : str) (inputs : gmap str value) : TaskRequest.t :=
  TaskRequest.mk capability inputs None (Some (lit "safe-readonly")) None.

Definition code_inputs (code filename : str) : gmap str value :=
  <[lit "code" := VStr code]> (<[lit "filename" := VStr filename]> ∅).

(** A function whose docstring comes after a blank line. *)
Definition blank_line_example : str :=
  lit "def f():" ++ [LF] ++ [LF]
  ++ lit "    " ++ TRIPLE_QUOTE ++ lit "doc" ++ TRIPLE_QUOTE ++ [LF].

Definition todo_example : str := lit "x = 1  # TODO fix" ++ [LF].

Definition two_defs_example : str :=
  lit "def foo():" ++ [LF] ++ lit "    pass" ++ [LF]
  ++ lit "def bar():" ++ [LF] ++ lit "    pass" ++ [LF].

(** The [filename] input of the request, or its default, holds no text
    that UTF-8 cannot encode: the report of [code_quality] can be
    written. *)
Definition filename_encodable (req : TaskRequest.t) : Prop :=
  value_encodable (fun _ => true)
    (inputs_get req (lit "filename") (VStr (lit "unknown.py"))) = true.

(** The line has no line boundary in it. *)
Definition unbroken (line : str) : Prop :=
  forallb (fun c => negb (is_linebreak c)) line = true.

(** [brk] ends a line before [rest]: it is CR LF, or one line boundary
    character, which is not a CR that [rest] completes to CR LF. *)
Definition line_break (brk rest : str) : Prop :=
  brk = [CR; LF]
  \/ exists c, brk = [c] /\ is_linebreak c = true
               /\ ~ (c = CR /\ exists rest', rest = LF :: rest').

(** The lines of a text: what stands between its line boundaries, with no
    empty line after the last boundary. *)
Inductive Lines : str -> list str -> Prop :=
| Lines_none : Lines [] []
| Lines_last line :
    line <> [] -> unbroken line -> Lines line [line]
| Lines_next line brk rest lines :
    unbroken line -> line_break brk rest -> Lines rest lines ->
    Lines (line ++ brk ++ rest) (line :: lines).

(** The message of a lint fact. *)
Definition message_of (f : Fact.t) : str :=
  match Fact.data f with
  | [_; (_, VStr m)] => m
  | _ => []
  end.

(** The text needs no escape in a JSON string: it has no quote, no
    backslash and no control character. *)
Definition plain (s : str) : Prop :=
  forallb (fun c => (32 <=? c)%N && negb (c =? 34)%N && negb (c =? 92)%N) s = true.

(** [s] between double quotes. *)
Definition quoted (s : str) : str := [QUOTE] ++ s ++ [QUOTE].

(** A new line that starts with [n] spaces. *)
Definition indented (n : nat) : str := LF :: repeat 32%N n.

(** The report of [code_quality] as the file has it, pretty-printed with
    an indent of two: the file name (as JSON text), the count and the
    issues, each with its line and its message. *)
Definition issue_text (f : Fact.t) : str :=
  lit "{" ++ indented 6 ++ quoted (lit "line") ++ lit ": " ++ of_Z (line_of f)
  ++ lit "," ++ indented 6 ++ quoted (lit "message") ++ lit ": "
  ++ quoted (message_of f) ++ indented 4 ++ lit "}".

Definition issues_text (facts : list Fact.t) : str :=
  match facts with
  | [] => lit "[]"
  | _ => lit "[" ++ indented 4
         ++ join (lit "," ++ indented 4) (List.map issue_text facts)
         ++ indented 2 ++ lit "]"
  end.

Definition report_text (filename_json : str) (facts : list Fact.t) : str :=
  lit "{" ++ indented 2 ++ quoted (lit "filename") ++ lit ": " ++ filename_json
  ++ lit "," ++ indented 2 ++ quoted (lit "issue_count") ++ lit ": "
  ++ of_nat (length facts)
  ++ lit "," ++ indented 2 ++ quoted (lit "issues") ++ lit ": "
  ++ issues_text facts ++ indented 0 ++ lit "}".

(** ** The client, [agent.py] *)

(** [os.path.basename(p)] of [posixpath]: what follows the last slash.
    [cur] is the component being read, in reverse. *)
Fixpoint basename_from (cur : str) (p : str) : str :=
  match p with
  | [] => rev cur
  | c :: p' =>
      if (c =? 47)%N then basename_from [] p' else basename_from (c :: cur) p'
  end.

Definition os_path_basename (p : str) : str := basename_from [] p.

(** [d[key]] of a JSON object. *)
Fixpoint dict_get (d : dict) (key : str) : option value :=
  match d with
  | [] => None
  | (k, v) :: d' => if str_eqb k key then Some v else dict_get d' key
  end.

(** What stops [main]. *)
Inductive agent_exn : Type :=
| SystemExit (code : nat)          (* argparse: a value outside [choices] *)
| ReadError                        (* read_file: an OSError, or UnicodeDecodeError *)
| HTTPError (status_code : nat)    (* r.raise_for_status() *)
| KeyError (key : str)
| JSONDecodeError.

(** What [main] prints. *)
Inductive printed : Type :=
| Submitted (task_id : str)
| Result (result : option TaskResult.t).

(** How a run of [main] ends: it returns, it raises, or it is still in
    its loop when the polls allowed to it are used up.  [OtherBody] stands
    for a response to the submit that the server never sends: an error
    below 400, or a body whose [task_id] is not text. *)
Inductive ending : Type :=
| Exits
| Raises (e : agent_exn)
| StillPolling
| OtherBody.

(** The [choices] of [--capability]. *)
Definition CHOICES : list str := [lit "code_quality"; lit "summarize_code"].

(** The loop of [main]: poll until the status is [SUCCEEDED].  The server
    serves no other client meanwhile; [fuel] bounds the number of polls.
    The body of a 500 is not JSON, and that of a 404 has no [status]. *)
Fixpoint poll (fuel : nat) (st : state) (task_id : str)
    : state * option (agent_exn + option TaskResult.t) :=
  match fuel with
  | O => (st, None)
  | S fuel' =>
      match task_status st task_id with
      | (st', Return s) =>
          if negb (renders (to_json s))
          then (st', Some (inl JSONDecodeError))          (* .json() of a 500 *)
          else if str_eqb (TaskStatus.status s) (lit "SUCCEEDED")
          then (st', Some (inr (TaskStatus.result s)))
          else poll fuel' st' task_id                     (* time.sleep(0.5) *)
      | (st', Raise (HTTPException _ _)) =>
          (st', Some (inl (KeyError (lit "status"))))     (* s["status"] *)
      | (st', Raise _) => (st', Some (inl JSONDecodeError))
      end
  end.

(** [main()], against the server in state [st].  [disk] holds the text of
    the files that [read_file] can read, decoded from UTF-8; on any other
    path [read_file] raises.  [capability] and [file] are the
    command-line arguments. *)
Definition main (disk : gmap str str) (st : state) (capability file : str)
    (uuid : N) (clock_queued clock_ended : str) (fuel : nat)
    : state * list printed * ending :=
  if negb (existsb (str_eqb capability) CHOICES)
  then (st, [], Raises (SystemExit 2))
  else
    match disk !! file with
    | None => (st, [], Raises ReadError)
    | Some code =>
        let payload :=
          TaskRequest.mk capability
            (<[lit "code" := VStr code]>
               (<[lit "filename" := VStr (os_path_basename file)]> ∅))
            None (Some (lit "safe-readonly")) None in
        match create_task st payload uuid clock_queued clock_ended with
        | (st', r) =>
            if 400 <=? status_code_of r                  (* r.raise_for_status() *)
            then (st', [], Raises (HTTPError (status_code_of r)))
            else
              match r with
              | Raise _ => (st', [], OtherBody)
              | Return body =>
                  match dict_get body (lit "task_id") with
                  | None => (st', [], Raises (KeyError (lit "task_id")))
                  | Some (VStr task_id) =>
                      match poll fuel st' task_id with
                      | (st'', None) => (st'', [Submitted task_id], StillPolling)
                      | (st'', Some (inl e)) => (st'', [Submitted task_id], Raises e)
                      | (st'', Some (inr result)) =>
                          (st'', [Submitted task_id; Result result], Exits)
                      end
                  | Some _ => (st', [], OtherBody)
                  end
              end
        end
    end.

(** ** Further properties, in words *)

(** Every newline of the text follows a carriage return, as in a file
    with CRLF line endings.  [prev] is the character before [s]. *)
Fixpoint every_newline_after_cr (prev : option N) (s : str) : bool :=
  match s with
  | [] => true
  | c :: s' =>
      (if (c =? LF)%N
       then match prev with Some p => (p =? CR)%N | None => false end
       else true)
      && every_newline_after_cr (Some c) s'
  end.

(** The environment gives text that can be encoded: the path of the
    artifact directory, the digests (hexadecimal digits) and the readings
    of the clock ([isoformat]). *)
Definition plain_environment (cq ce : str) : Prop :=
  encodable ARTIFACT_DIR = true
  /\ (forall content, encodable (sha256_hexdigest content) = true)
  /\ encodable cq = true /\ encodable ce = true.

(** A record of the task table under the key [k], as [create_task] leaves
    it: scheduled without a result, or succeeded with the result of a
    registered capability. *)
Definition well_formed_record (k : str) (rec : TaskStatus.t) : Prop :=
  TaskStatus.task_id rec = k
  /\ (exists u, k = lit "t-" ++ u /\ length u <= 8)
  /\ ((TaskStatus.status rec = lit "SCHEDULED" /\ TaskStatus.result rec = None)
      \/ (TaskStatus.status rec = lit "SUCCEEDED"
          /\ exists r,
               TaskStatus.result rec = Some r
               /\ TaskResult.task_id r = k
               /\ TaskResult.status r = lit "SUCCEEDED"
               /\ TaskResult.stable_id r = lit "run_" ++ k
               /\ In (TaskResult.capability r)
                    (List.map Capability.name CAPABILITIES)
               /\ TaskResult.message r <> Some (lit "Unknown capability"))).

(** Inputs for the examples of the further properties. *)
Definition number_code_request : TaskRequest.t :=
  request (lit "code_quality") (<[lit "code" := VInt 5]> ∅).

Definition example_request : TaskRequest.t :=
  request (lit "code_quality") (code_inputs todo_example (lit "demo.py")).

Definition example_uuid : N := 0x0a1b2c3d4e5f60718293a4b5c6d7e8f9.
Definition example_queued : str := lit "2026-01-01T00:00:00".
Definition example_ended : str := lit "2026-01-01T00:00:01".

Definition example_uuid' : N := 0x0a1b2c3dffffffffffffffffffffffff.
Definition other_uuid : N := 0xffffffff000000000000000000000000.

(** Two lines, with [TODO] twice on the second. *)
Definition two_lines_example : str :=
  lit "a = 1" ++ [LF] ++ lit "b = 2  # TODO TODO" ++ [LF].

(** A request whose file name is a lone surrogate. *)
Definition surrogate_name_request : TaskRequest.t :=
  request (lit "summarize_code") (code_inputs two_defs_example [55296%N]).

(** A function with its docstring, in a file with CRLF line endings. *)
Definition crlf_example : str :=
  lit "def f():" ++ [CR; LF]
  ++ lit "    " ++ TRIPLE_QUOTE ++ lit "doc" ++ TRIPLE_QUOTE ++ [CR; LF].

(** ** Text: lemmas *)

Lemma str_eqb_eq (a b : str) : str_eqb a b = true <-> a = b.
Proof.
  revert b. induction a as [|x a IH]; intros [|y b]; simpl; try (split; congruence).
  rewrite andb_true_iff, N.eqb_eq, IH. split.
  - intros [-> ->]. reflexivity.
  - intros [= -> ->]. auto.
Qed.

Lemma str_eqb_refl (a : str) : str_eqb a a = true.
Proof. apply str_eqb_eq. reflexivity. Qed.

Lemma starts_with_spec (needle hay : str) :
  starts_with needle hay = true <-> exists b, hay = needle ++ b.
Proof.
  revert hay. induction needle as [|x n IH]; intros hay; simpl.
  - split; eauto.
  - destruct hay as [|y hay].
    + split; [congruence | intros [b Hb]; discriminate].
    + rewrite andb_true_iff, N.eqb_eq, IH. split.
      * intros [-> [b ->]]. eauto.
      * intros [b [= -> ->]]. eauto.
Qed.

Lemma contains_spec (needle hay : str) :
  contains needle hay = true <-> exists a b, hay = a ++ needle ++ b.
Proof.
  induction hay as [|y hay IH]; simpl.
  - rewrite orb_false_r, starts_with_spec. split.
    + intros [b Hb]. exists [], b. exact Hb.
    + intros (a & b & Hab). destruct a as [|? a]; [eauto|discriminate].
  - rewrite orb_true_iff, starts_with_spec, IH. split.
    + intros [[b Hb] | (a & b & ->)].
      * exists [], b. exact Hb.
      * exists (y :: a), b. reflexivity.
    + intros (a & b & Hab). destruct a as [|x a].
      * left. eauto.
      * right. injection Hab as -> ->. eauto.
Qed.

(** ** Regular expressions: the matcher against what a pattern denotes *)

Lemma after_cons prev c u : after prev (c :: u) = after (Some c) u.
Proof.
  unfold after. destruct u as [|d u]; [reflexivity|].
  change (last (c :: d :: u)) with (last (d :: u)).
  destruct (last (d :: u)) eqn:E; [reflexivity|].
  apply last_None in E. discriminate.
Qed.

Lemma after_app prev u v : after prev (u ++ v) = after (after prev u) v.
Proof.
  revert prev. induction u as [|c u IH]; intros prev; [reflexivity|].
  simpl app. rewrite !after_cons. apply IH.
Qed.

Lemma after_None u : after None u = last u.
Proof. unfold after. destruct (last u); reflexivity. Qed.

Lemma star_loop_stop f k prev s :
  is_Some (k prev s) -> is_Some (star_loop f k prev s).
Proof.
  intros Hk. destruct s as [|x s]; simpl.
  - apply fmap_is_Some, Hk.
  - destruct (f x); [|apply fmap_is_Some, Hk].
    destruct (star_loop f k (Some x) s) as [[seg r]|]; [eauto|].
    apply fmap_is_Some, Hk.
Qed.

Lemma star_loop_sound f k prev s seg r :
  star_loop f k prev s = Some (seg, r) ->
  exists rest, s = seg ++ rest /\ forallb f seg = true
               /\ k (after prev seg) rest = Some r.
Proof.
  revert prev seg. induction s as [|x s IH]; intros prev seg; simpl.
  - intros H. apply fmap_Some in H as (r' & Hk & [= -> ->]). exists []. auto.
  - assert (Hstop : pair [] <$> k prev (x :: s) = Some (seg, r) ->
              exists rest, x :: s = seg ++ rest /\ forallb f seg = true
                           /\ k (after prev seg) rest = Some r).
    { intros H. apply fmap_Some in H as (r' & Hk & [= -> ->]).
      exists (x :: s). auto. }
    destruct (f x) eqn:Hfx; [|exact Hstop].
    destruct (star_loop f k (Some x) s) as [[seg' r']|] eqn:Hloop; [|exact Hstop].
    intros [= <- <-]. destruct (IH _ _ Hloop) as (rest & -> & Hall & Hk).
    exists rest. simpl. rewrite Hfx, after_cons. auto.
Qed.

Lemma star_loop_complete f k prev u v :
  forallb f u = true -> is_Some (k (after prev u) v) ->
  is_Some (star_loop f k prev (u ++ v)).
Proof.
  revert prev. induction u as [|c u IH]; intros prev Hu Hk.
  - apply star_loop_stop, Hk.
  - simpl in Hu. apply andb_true_iff in Hu as [Hc Hu].
    rewrite after_cons in Hk. simpl. rewrite Hc.
    destruct (IH (Some c) Hu Hk) as [[seg r] ->]. eauto.
Qed.

Lemma match_here_sound p prev s segs rest :
  match_here p prev s = Some (segs, rest) ->
  s = concat segs ++ rest /\ Matches p prev segs.
Proof.
  revert prev s segs rest.
  induction p as [|a p IH]; intros prev s segs rest; simpl.
  - intros [= <- <-]. split; [reflexivity | constructor].
  - destruct a.
    + destruct (at_bol prev) eqn:Hb; [|discriminate].
      intros H. apply fmap_Some in H as ([segs' rest'] & H & [= -> ->]).
      apply IH in H as [-> H]. split; [reflexivity | constructor; auto].
    + destruct s as [|x s]; [discriminate|].
      destruct (N.eqb_spec x c) as [->|]; [|discriminate].
      intros H. apply fmap_Some in H as ([segs' rest'] & H & [= -> ->]).
      apply IH in H as [-> H]. split; [reflexivity | constructor; auto].
    + destruct s as [|x s]; [discriminate|].
      destruct (f x) eqn:Hfx; [|discriminate].
      intros H. apply fmap_Some in H as ([segs' rest'] & H & [= -> ->]).
      apply IH in H as [-> H]. split; [reflexivity | constructor; auto].
    + intros H. apply fmap_Some in H as ([seg [segs' rest']] & H & [= -> ->]).
      apply star_loop_sound in H as (rest'' & -> & Hall & H).
      apply IH in H as [-> H]. simpl. split.
      * rewrite app_assoc. reflexivity.
      * constructor; auto.
    + intros H. apply fmap_Some in H as ([segs' rest'] & H & [= -> ->]).
      apply IH in H as [-> H]. split; [reflexivity | constructor; auto].
    + intros H. apply fmap_Some in H as ([segs' rest'] & H & [= -> ->]).
      apply IH in H as [-> H]. split; [reflexivity | constructor; auto].
Qed.

Lemma match_here_complete p prev segs :
  Matches p prev segs ->
  forall rest, is_Some (match_here p prev (concat segs ++ rest)).
Proof.
  induction 1 as [prev | p prev segs Hb _ IH | c p prev segs _ IH
                  | f c p prev segs Hc _ IH | f p prev u segs Hu _ IH
                  | p prev segs _ IH | p prev segs _ IH];
    intros rest; simpl.
  - eauto.
  - rewrite Hb. apply fmap_is_Some, IH.
  - rewrite N.eqb_refl. apply fmap_is_Some, IH.
  - rewrite Hc. apply fmap_is_Some, IH.
  - apply fmap_is_Some. rewrite <- app_assoc.
    apply star_loop_complete; [exact Hu | apply IH].
  - apply fmap_is_Some, IH.
  - apply fmap_is_Some, IH.
Qed.

Lemma match_here_None p prev s :
  match_here p prev s = None ->
  forall segs rest, s = concat segs ++ rest -> ~ Matches p prev segs.
Proof.
  intros Hnone segs rest -> Hm.
  destruct (match_here_complete _ _ _ Hm rest) as [r Hr]. congruence.
Qed.

Lemma search_from_spec p prev s :
  is_Some (search_from p prev s) <->
  exists pre segs post,
    s = pre ++ concat segs ++ post /\ Matches p (after prev pre) segs.
Proof.
  revert prev. induction s as [|x s IH]; intros prev; simpl.
  - destruct (match_here p prev []) as [[segs rest]|] eqn:Hm.
    + split; [intros _ | eauto].
      apply match_here_sound in Hm as [Hs Hm].
      exists [], segs, rest. auto.
    + split; [intros [? [=]]|].
      intros (pre & segs & post & Hs & Hw).
      destruct pre; [|discriminate].
      destruct (match_here_None _ _ _ Hm _ _ Hs Hw).
  - destruct (match_here p prev (x :: s)) as [[segs rest]|] eqn:Hm.
    + split; [intros _ | eauto].
      apply match_here_sound in Hm as [Hs Hm].
      exists [], segs, rest. auto.
    + rewrite IH. split.
      * intros (pre & segs & post & -> & Hw).
        exists (x :: pre), segs, post. rewrite after_cons. auto.
      * intros (pre & segs & post & Hs & Hw). destruct pre as [|y pre].
        -- destruct (match_here_None _ _ _ Hm _ _ Hs Hw).
        -- injection Hs as <- ->. rewrite after_cons in Hw. eauto.
Qed.

Lemma search_spec p s : is_Some (search p s) <-> Occurs p s.
Proof.
  unfold search, Occurs. rewrite search_from_spec.
  split; intros (pre & segs & post & Hs & Hw); exists pre, segs, post;
    [rewrite <- after_None | rewrite after_None]; auto.
Qed.

Lemma Matches_bol_inv p prev segs :
  Matches (Bol :: p) prev segs ->
  exists segs', segs = [] :: segs' /\ at_bol prev = true /\ Matches p prev segs'.
Proof. inversion 1; subst; eauto. Qed.

Lemma Matches_lit_inv c p prev segs :
  Matches (Lit c :: p) prev segs ->
  exists segs', segs = [c] :: segs' /\ Matches p (Some c) segs'.
Proof. inversion 1; subst; eauto. Qed.

Lemma Matches_cls_inv f p prev segs :
  Matches (Cls f :: p) prev segs ->
  exists c segs', segs = [c] :: segs' /\ f c = true /\ Matches p (Some c) segs'.
Proof. inversion 1; subst; eauto. Qed.

Lemma Matches_star_inv f p prev segs :
  Matches (Star f :: p) prev segs ->
  exists u segs', segs = u :: segs' /\ forallb f u = true
                  /\ Matches p (after prev u) segs'.
Proof. inversion 1; subst; eauto. Qed.

Lemma Matches_open_inv p prev segs :
  Matches (GOpen :: p) prev segs ->
  exists segs', segs = [] :: segs' /\ Matches p prev segs'.
Proof. inversion 1; subst; eauto. Qed.

Lemma Matches_close_inv p prev segs :
  Matches (GClose :: p) prev segs ->
  exists segs', segs = [] :: segs' /\ Matches p prev segs'.
Proof. inversion 1; subst; eauto. Qed.

Lemma Matches_nil_inv prev segs : Matches [] prev segs -> segs = [].
Proof. inversion 1; subst; auto. Qed.

Lemma nonempty_all_in f (u : str) :
  u <> [] -> forallb f u = true ->
  exists c u', u = c :: u' /\ f c = true /\ forallb f u' = true.
Proof.
  intros Hne Hu. destruct u as [|c u']; [contradiction|].
  simpl in Hu. apply andb_true_iff in Hu as [Hc Hu']. eauto.
Qed.

Ltac build_match :=
  repeat first
    [ apply M_nil
    | apply M_bol; [assumption|]
    | apply M_lit
    | apply M_cls; [assumption|]
    | apply M_star; [assumption|]
    | apply M_open
    | apply M_close ].

(** What [docstring_pattern] matches, spelled out. *)
Lemma docstring_pattern_matches prev w :
  (exists segs, w = concat segs /\ Matches docstring_pattern prev segs) <->
  at_bol prev = true /\
  exists ws ws' name args gap,
    w = ws ++ lit "def" ++ ws' ++ name ++ lit "(" ++ args
        ++ lit "):" ++ [LF] ++ gap ++ TRIPLE_QUOTE
    /\ all_in is_space ws
    /\ ws' <> [] /\ all_in is_space ws'
    /\ name <> [] /\ all_in is_word name
    /\ all_in not_newline args
    /\ gap <> [] /\ all_in is_space gap.
Proof.
  unfold docstring_pattern, plus, all_in. simpl app. split.
  - intros (segs & -> & H).
    apply Matches_bol_inv in H as (s0 & -> & Hb & H). split; [exact Hb|].
    apply Matches_star_inv in H as (ws & s1 & -> & Hws & H).
    apply Matches_lit_inv in H as (s2 & -> & H).
    apply Matches_lit_inv in H as (s3 & -> & H).
    apply Matches_lit_inv in H as (s4 & -> & H).
    apply Matches_cls_inv in H as (c1 & s5 & -> & Hc1 & H).
    apply Matches_star_inv in H as (u1 & s6 & -> & Hu1 & H).
    apply Matches_cls_inv in H as (c2 & s7 & -> & Hc2 & H).
    apply Matches_star_inv in H as (u2 & s8 & -> & Hu2 & H).
    apply Matches_lit_inv in H as (s9 & -> & H).
    apply Matches_star_inv in H as (args & s10 & -> & Hargs & H).
    apply Matches_lit_inv in H as (s11 & -> & H).
    apply Matches_lit_inv in H as (s12 & -> & H).
    apply Matches_lit_inv in H as (s13 & -> & H).
    apply Matches_cls_inv in H as (c3 & s14 & -> & Hc3 & H).
    apply Matches_star_inv in H as (u3 & s15 & -> & Hu3 & H).
    apply Matches_lit_inv in H as (s16 & -> & H).
    apply Matches_lit_inv in H as (s17 & -> & H).
    apply Matches_lit_inv in H as (s18 & -> & H).
    apply Matches_nil_inv in H as ->.
    exists ws, (c1 :: u1), (c2 :: u2), args, (c3 :: u3). simpl.
    rewrite Hc1, Hu1, Hc2, Hu2, Hc3, Hu3, ?app_nil_r.
    repeat split; auto; discriminate.
  - intros (Hb & ws & ws' & name & args & gap & -> & Hws & Hne1 & Hws'
            & Hne2 & Hname & Hargs & Hne3 & Hgap).
    apply nonempty_all_in in Hws' as (c1 & u1 & -> & Hc1 & Hu1); [|exact Hne1].
    apply nonempty_all_in in Hname as (c2 & u2 & -> & Hc2 & Hu2); [|exact Hne2].
    apply nonempty_all_in in Hgap as (c3 & u3 & -> & Hc3 & Hu3); [|exact Hne3].
    exists [[]; ws; [100%N]; [101%N]; [102%N]; [c1]; u1; [c2]; u2; [40%N];
            args; [41%N]; [58%N]; [LF]; [c3]; u3; [QUOTE]; [QUOTE]; [QUOTE]].
    split.
    + simpl. rewrite ?app_nil_r. reflexivity.
    + build_match.
Qed.

Lemma docstring_pattern_occurs code :
  Occurs docstring_pattern code <-> def_with_docstring code.
Proof.
  clear float_renders.
  unfold Occurs, def_with_docstring, line_start. split.
  - intros (pre & segs & post & -> & H).
    destruct (proj1 (docstring_pattern_matches (last pre) (concat segs)))
      as (Hb & ws & ws' & name & args & gap & Hw & H'); [eauto|].
    rewrite Hw.
    exists pre, ws, ws', name, args, gap, post. split; [|tauto].
    repeat rewrite <- app_assoc. reflexivity.
  - intros (pre & ws & ws' & name & args & gap & post & -> & Hb & H).
    destruct (proj2 (docstring_pattern_matches (last pre)
                (ws ++ lit "def" ++ ws' ++ name ++ lit "(" ++ args
                 ++ lit "):" ++ [LF] ++ gap ++ TRIPLE_QUOTE)))
      as (segs & Hw & Hm).
    { split; [exact Hb|]. exists ws, ws', name, args, gap. tauto. }
    exists pre, segs, post. split; [|exact Hm].
    rewrite <- Hw. repeat rewrite <- app_assoc. reflexivity.
Qed.

(** ** UTF-8 and JSON text: lemmas *)

Lemma encodable_app (a b : str) :
  encodable (a ++ b) = encodable a && encodable b.
Proof. apply forallb_app. Qed.

Lemma utf8_char_scalar c : is_Some (utf8_char c) <-> scalar c = true.
Proof.
  unfold utf8_char. destruct (scalar c); cbn [negb].
  - destruct (c <? 128)%N, (c <? 2048)%N, (c <? 65536)%N; split; eauto.
  - split; [intros [? [=]] | discriminate].
Qed.

(** [encode] raises exactly on a text that holds a character outside the
    scalar values. *)
Lemma utf8_encodable (s : str) : is_Some (utf8 s) <-> encodable s = true.
Proof.
  induction s as [|c s IH]; simpl.
  - split; eauto.
  - rewrite andb_true_iff, <- IH, <- utf8_char_scalar.
    destruct (utf8_char c), (utf8 s); split;
      try (intros [? [=]]); try (intros [[? [=]] [? [=]]]); eauto.
Qed.

Lemma utf8_not_encodable (s : str) : encodable s = false -> utf8 s = None.
Proof.
  intros H. destruct (utf8 s) eqn:E; [|reflexivity].
  assert (Hs : is_Some (utf8 s)) by eauto.
  apply utf8_encodable in Hs. congruence.
Qed.

Ltac bool_N :=
  repeat match goal with
         | |- context [(?a <? ?b)%N] =>
             destruct (N.ltb_spec a b); try (exfalso; lia)
         | |- context [(?a <=? ?b)%N] =>
             destruct (N.leb_spec a b); try (exfalso; lia)
         end.

Ltac split_64 c q r :=
  pose proof (N.div_mod' c 64);
  pose proof (N.mod_lt c 64 ltac:(discriminate));
  set (q := (c / 64)%N) in *; set (r := (c mod 64)%N) in *;
  clearbody q r.

(** Decoding the bytes of a character gives the character back. *)
Lemma utf8_decode_char c b rest :
  utf8_char c = Some b ->
  utf8_decode (b ++ rest)
  = match utf8_decode rest with Some s => Some (c :: s) | None => None end.
Proof.
  unfold utf8_char. destruct (scalar c) eqn:Hs; cbn [negb]; [|discriminate].
  unfold scalar, is_surrogate, between in Hs.
  apply andb_true_iff in Hs as [Hsur Hmax]. apply N.leb_le in Hmax.
  assert (Hc : (c < 55296 \/ 57343 < c)%N).
  { revert Hsur. bool_N; simpl; try discriminate; lia. }
  clear Hsur.
  destruct (N.ltb_spec c 128).
  { intros [= <-]. cbn [app utf8_decode]. bool_N. reflexivity. }
  destruct (N.ltb_spec c 2048).
  { intros [= <-]. split_64 c q0 r0.
    cbn [app utf8_decode]. unfold between, continuation, between.
    bool_N; cbn [andb];
      (destruct (utf8_decode rest); [|reflexivity]); do 2 f_equal; lia. }
  destruct (N.ltb_spec c 65536).
  { intros [= <-]. split_64 c q0 r0. split_64 q0 q1 r1.
    cbn [app utf8_decode]. cbv zeta. unfold is_surrogate, between, continuation, between.
    bool_N; cbn [andb negb];
      (destruct (utf8_decode rest); [|reflexivity]); do 2 f_equal; lia. }
  intros [= <-]. split_64 c q0 r0. split_64 q0 q1 r1. split_64 q1 q2 r2.
  cbn [app utf8_decode]. cbv zeta. unfold is_surrogate, between, continuation, between.
  bool_N; cbn [andb negb];
    (destruct (utf8_decode rest); [|reflexivity]); do 2 f_equal; lia.
Qed.

(** Reading back what was written: [text.encode("utf-8")] decodes to
    [text]. *)
Lemma utf8_round_trip (s : str) content :
  utf8 s = Some content -> utf8_decode content = Some s.
Proof.
  revert content. induction s as [|c s IH]; simpl; intros content.
  - intros [= <-]. reflexivity.
  - destruct (utf8_char c) as [b|] eqn:Hc; [|discriminate].
    destruct (utf8 s) as [bs|]; [|discriminate].
    intros [= <-]. rewrite (utf8_decode_char _ _ _ Hc), (IH _ eq_refl).
    reflexivity.
Qed.

Lemma encodable_digits d : encodable (lit (NilEmpty.string_of_uint d)) = true.
Proof. induction d; simpl; auto. Qed.

Lemma encodable_of_Z z : encodable (of_Z z) = true.
Proof. unfold of_Z. destruct (Z.to_int z); simpl; apply encodable_digits. Qed.

Lemma encodable_of_nat n : encodable (of_nat n) = true.
Proof. apply encodable_of_Z. Qed.

Lemma encodable_newline_indent i l : encodable (Json.newline_indent i l) = true.
Proof.
  unfold Json.newline_indent. simpl.
  induction (i * l) as [|n IH]; [reflexivity | exact IH].
Qed.

Lemma encodable_firstn (k : nat) (s : str) :
  encodable s = true -> encodable (firstn k s) = true.
Proof.
  revert k. induction s as [|c s IH]; intros [|k]; simpl; auto.
  intros H. apply andb_true_iff in H as [-> H]. simpl. auto.
Qed.

Lemma scalar_hex_digit x : (x < 16)%N -> scalar (Json.hex_digit x) = true.
Proof.
  intros Hx. unfold Json.hex_digit, scalar, is_surrogate, between.
  destruct (N.ltb_spec x 10); bool_N; reflexivity.
Qed.

Lemma encodable_hex uuid : encodable (hex uuid) = true.
Proof.
  unfold hex. generalize 32. intros n. revert uuid.
  induction n as [|n IH]; intros x; [reflexivity|].
  simpl. rewrite encodable_app, IH. simpl.
  rewrite scalar_hex_digit; [reflexivity|].
  apply N.mod_lt. discriminate.
Qed.

Lemma encodable_escape_char c : encodable (Json.escape_char c) = scalar c.
Proof.
  unfold Json.escape_char.
  repeat match goal with
         | |- context [(c =? ?k)%N] =>
             destruct (N.eqb_spec c k); [subst c; reflexivity|]
         end.
  destruct (N.ltb_spec c 32).
  - cbn [encodable forallb].
    rewrite !scalar_hex_digit.
    + unfold scalar, is_surrogate, between. bool_N; reflexivity.
    + apply N.mod_lt. discriminate.
    + apply N.Div0.div_lt_upper_bound. lia.
  - simpl. apply andb_true_r.
Qed.

Lemma encodable_basestring (s : str) :
  encodable (Json.encode_basestring s) = encodable s.
Proof.
  unfold Json.encode_basestring. rewrite !encodable_app. simpl.
  rewrite andb_true_r.
  induction s as [|c s IH]; [reflexivity|].
  simpl. rewrite encodable_app, encodable_escape_char, IH. reflexivity.
Qed.

Lemma encodable_join sep (parts : list str) :
  encodable sep = true ->
  encodable (join sep parts) = forallb encodable parts.
Proof.
  intros Hsep. induction parts as [|p parts IH]; [reflexivity|].
  destruct parts as [|p' parts].
  - simpl. rewrite andb_true_r. reflexivity.
  - change (join sep (p :: p' :: parts)) with (p ++ sep ++ join sep (p' :: parts)).
    rewrite !encodable_app, Hsep, IH. reflexivity.
Qed.

Lemma forallb_map_ext {A B} (f : A -> B) (g : B -> bool) (h : A -> bool) xs :
  Forall (fun x => g (f x) = h x) xs -> forallb g (List.map f xs) = forallb h xs.
Proof.
  induction 1 as [|x xs Hx _ IH]; [reflexivity|]. simpl. rewrite Hx, IH. reflexivity.
Qed.

(** Induction on a JSON value, with the property for the items of a list
    and for the values of an object. *)
Lemma value_induction (P : value -> Prop) :
  P VNull -> (forall b, P (VBool b)) -> (forall z, P (VInt z)) ->
  (forall text, P (VFloat text)) -> (forall s, P (VStr s)) ->
  (forall xs, Forall P xs -> P (VList xs)) ->
  (forall kvs, Forall (fun kv => P (snd kv)) kvs -> P (VDict kvs)) ->
  forall v, P v.
Proof.
  intros Hnull Hbool Hint Hfloat Hstr Hlist Hdict.
  fix IH 1.
  intros [| b | z | text | s | xs | kvs];
    [exact Hnull | apply Hbool | apply Hint | apply Hfloat | apply Hstr | |].
  - apply Hlist. induction xs as [|x xs IHxs]; constructor; [apply IH | exact IHxs].
  - apply Hdict. induction kvs as [|[k x] kvs IHkvs]; constructor;
      [apply IH | exact IHkvs].
Qed.

(** The text that [json.dumps] prints can be encoded exactly when every
    text of the value can. *)
Lemma encodable_encode v :
  forall i l, encodable (Json.encode i l v) = value_encodable (fun _ => true) v.
Proof.
  induction v as [| b | z | text | s | xs IH | kvs IH] using value_induction;
    intros i l.
  - reflexivity.
  - destruct b; reflexivity.
  - apply encodable_of_Z.
  - reflexivity.
  - apply encodable_basestring.
  - destruct xs as [|x xs]; [reflexivity|].
    cbn [Json.encode value_encodable]. rewrite !encodable_app.
    rewrite encodable_join
      by (rewrite encodable_app; apply encodable_newline_indent).
    rewrite !encodable_newline_indent.
    rewrite (forallb_map_ext _ _ (value_encodable (fun _ => true))).
    + cbn [andb]. rewrite andb_true_r. reflexivity.
    + eapply List.Forall_impl; [|exact IH]. intros y Hy. apply Hy.
  - destruct kvs as [|kv kvs]; [reflexivity|].
    cbn [Json.encode value_encodable]. rewrite !encodable_app.
    rewrite encodable_join
      by (rewrite encodable_app; apply encodable_newline_indent).
    rewrite !encodable_newline_indent.
    rewrite (forallb_map_ext _ _
               (fun kv => encodable (fst kv)
                          && value_encodable (fun _ => true) (snd kv))).
    + cbn [andb]. rewrite andb_true_r. reflexivity.
    + eapply List.Forall_impl; [|exact IH]. intros y Hy. cbv beta.
      rewrite !encodable_app, encodable_basestring, Hy. reflexivity.
Qed.

(** *** The text of the report *)

Lemma check_line_issues (P : dict -> Prop) acc il :
  (forall n m, m = TODO_FOUND \/ m = LINE_TOO_LONG \/ m = NO_DOCSTRING ->
               P (lint_issue n m)) ->
  Forall P acc -> Forall P (check_line acc il).
Proof.
  intros HP Hacc. unfold check_line.
  destruct (contains (lit "TODO") (snd il)), (100 <? length (snd il));
    repeat (apply Forall_app; split); auto;
    apply List.Forall_cons; auto using List.Forall_nil.
Qed.

(** Every issue of [code_quality] has a line number and one of the three
    messages. *)
Lemma lint_issues (P : dict -> Prop) code :
  (forall n m, m = TODO_FOUND \/ m = LINE_TOO_LONG \/ m = NO_DOCSTRING ->
               P (lint_issue n m)) ->
  Forall P (lint code).
Proof.
  intros HP. unfold lint.
  assert (Hfold : forall xs acc,
             Forall P acc -> Forall P (fold_left check_line xs acc)).
  { induction xs as [|x xs IH]; intros acc Hacc; [exact Hacc|].
    simpl. apply IH, check_line_issues; assumption. }
  specialize (Hfold (enumerate 1 (splitlines code)) [] (List.Forall_nil _)).
  destruct (search docstring_pattern code); [exact Hfold|].
  apply Forall_app. split; [exact Hfold|].
  apply List.Forall_cons; auto using List.Forall_nil.
Qed.

(** The report can be encoded exactly when the file name can. *)
Lemma report_encodable filename code :
  encodable (Json.dumps (VDict (lint_report filename (lint code))))
  = value_encodable (fun _ => true) filename.
Proof.
  unfold Json.dumps. rewrite encodable_encode.
  unfold lint_report. cbn [value_encodable forallb fst snd].
  replace (forallb (value_encodable (fun _ => true))
             (List.map VDict (lint code))) with true.
  - change (encodable (lit "filename")) with true.
    change (encodable (lit "issue_count")) with true.
    change (encodable (lit "issues")) with true.
    cbn [andb]. rewrite !andb_true_r. reflexivity.
  - symmetry. apply forallb_forall. apply List.Forall_forall.
    apply Forall_map. apply lint_issues.
    intros n m [-> | [-> | ->]]; reflexivity.
Qed.

Lemma escape_plain (s : str) : plain s -> flat_map Json.escape_char s = s.
Proof.
  unfold plain. induction s as [|c s IH]; [reflexivity|].
  simpl. intros H. apply andb_true_iff in H as [Hc Hs].
  rewrite (IH Hs).
  apply andb_true_iff in Hc as [Hc H92]. apply andb_true_iff in Hc as [H32 H34].
  apply N.leb_le in H32. apply negb_true_iff in H34, H92.
  unfold Json.escape_char. rewrite H34, H92.
  repeat match goal with
         | |- context [(c =? ?k)%N] => destruct (N.eqb_spec c k); [lia|]
         end.
  destruct (N.ltb_spec c 32); [lia | reflexivity].
Qed.

(** A text without quote, backslash or control character is printed as it
    is, between quotes, whatever characters beyond ASCII it holds. *)
Lemma encode_plain indent level (s : str) :
  plain s -> Json.encode indent level (VStr s) = quoted s.
Proof.
  intros H. cbn [Json.encode]. unfold Json.encode_basestring, quoted.
  rewrite (escape_plain s H). reflexivity.
Qed.

Lemma encode_issue n m :
  m = TODO_FOUND \/ m = LINE_TOO_LONG \/ m = NO_DOCSTRING ->
  Json.encode 2 2 (VDict (lint_issue n m)) = issue_text (lint_fact n m).
Proof.
  intros Hm. unfold lint_issue, issue_text.
  cbn [Json.encode List.map join fst snd].
  repeat rewrite <- app_assoc.
  destruct Hm as [-> | [-> | ->]]; reflexivity.
Qed.

Lemma encode_issues code :
  Json.encode 2 1 (VList (List.map VDict (lint code)))
  = issues_text (List.map (Fact.mk (lit "lint_issue")) (lint code)).
Proof.
  pose proof (lint_issues
                (fun d => Json.encode 2 2 (VDict d)
                          = issue_text (Fact.mk (lit "lint_issue") d))
                code encode_issue) as Hissues.
  destruct (lint code) as [|d ds]; [reflexivity|].
  cbn [List.map Json.encode issues_text].
  do 2 f_equal.
  change (Json.newline_indent 2 2) with (indented 4).
  f_equal.
  change (join (lit "," ++ indented 4)
            (List.map (Json.encode 2 2) (List.map VDict (d :: ds)))
          = join (lit "," ++ indented 4)
              (List.map issue_text
                 (List.map (Fact.mk (lit "lint_issue")) (d :: ds)))).
  f_equal. rewrite !List.map_map.
  apply Forall_fmap_ext_1. exact Hissues.
Qed.

(** The text that [code_quality] writes: the pretty-printed report, with
    the count and the issues of the facts that the run returns. *)
Lemma report_layout filename code :
  Json.dumps (VDict (lint_report filename (lint code)))
  = report_text (Json.encode 2 1 filename)
      (List.map (Fact.mk (lit "lint_issue")) (lint code)).
Proof.
  unfold Json.dumps, lint_report, report_text.
  rewrite length_map, <- encode_issues.
  set (issues := VList (List.map VDict (lint code))).
  cbn [Json.encode List.map join fst snd].
  repeat rewrite <- app_assoc. reflexivity.
Qed.

(** ** The [code_quality] branch *)

Lemma is_lint_fact_spec line message f :
  is_lint_fact line message f = true <-> f = lint_fact line message.
Proof.
  unfold is_lint_fact, lint_fact, lint_issue. destruct f as [ty d]. simpl. split.
  - intros H. apply andb_true_iff in H as [Hty H]. apply str_eqb_eq in Hty as ->.
    destruct d as [|[k1 [| | z | | | |]] [|[k2 [| | | | m | |]] [|]]]; try discriminate.
    repeat (apply andb_true_iff in H as [H ?]).
    apply str_eqb_eq in H as ->.
    match goal with H : (_ =? _)%Z = true |- _ => apply Z.eqb_eq in H as -> end.
    repeat match goal with H : str_eqb _ _ = true |- _ => apply str_eqb_eq in H as -> end.
    reflexivity.
  - intros [= -> ->].
    repeat match goal with
    | |- str_eqb _ _ = true => apply str_eqb_refl
    | |- (_ =? _)%Z = true => apply Z.eqb_refl
    | |- _ && _ = true => apply andb_true_iff; split
    end.
Qed.

Lemma is_lint_fact_lint_fact k m i msg :
  is_lint_fact k m (lint_fact i msg) = (i =? k) && str_eqb msg m.
Proof.
  unfold is_lint_fact, lint_fact, lint_issue. simpl.
  rewrite andb_true_r. f_equal.
  destruct (Nat.eqb_spec i k) as [->|Hne].
  - apply Z.eqb_refl.
  - apply Z.eqb_neq. lia.
Qed.

Lemma times_app k m (xs ys : list Fact.t) :
  times k m (xs ++ ys) = times k m xs + times k m ys.
Proof. unfold times. rewrite List.filter_app, length_app. reflexivity. Qed.

Lemma times_nil k m : times k m [] = 0.
Proof. reflexivity. Qed.

Lemma times_one k m i msg :
  times k m [lint_fact i msg] = if (i =? k) && str_eqb msg m then 1 else 0.
Proof.
  unfold times. cbn [List.filter]. rewrite is_lint_fact_lint_fact.
  destruct ((i =? k) && str_eqb msg m); reflexivity.
Qed.

Lemma times_line_facts k m i line :
  times k m (line_facts (i, line)) =
  if i =? k then
    (if contains (lit "TODO") line && str_eqb TODO_FOUND m then 1 else 0)
    + (if (100 <? length line) && str_eqb LINE_TOO_LONG m then 1 else 0)
  else 0.
Proof.
  unfold line_facts. cbn [fst snd]. rewrite times_app.
  destruct (contains (lit "TODO") line), (100 <? length line);
    rewrite ?times_one, ?times_nil; destruct (i =? k); reflexivity.
Qed.

Lemma times_enumerate_before (k : nat) m lines (start : nat) :
  k < start -> times k m (flat_map line_facts (enumerate start lines)) = 0.
Proof.
  revert start. induction lines as [|x lines IH]; intros start Hlt; [reflexivity|].
  simpl. rewrite times_app, times_line_facts, IH by lia.
  destruct (Nat.eqb_spec start k); [lia | reflexivity].
Qed.

Lemma times_enumerate m (lines : list str) (start n : nat) line :
  lines !! n = Some line ->
  times (start + n) m (flat_map line_facts (enumerate start lines)) =
  times (start + n) m (line_facts (start + n, line)).
Proof.
  revert start n. induction lines as [|x lines IH]; intros start [|n]; simpl;
    try discriminate.
  - intros [= ->]. rewrite times_app, Nat.add_0_r.
    rewrite times_enumerate_before by lia. lia.
  - intros H. rewrite times_app.
    replace (start + S n) with (S start + n) by lia.
    rewrite (IH (S start) n H).
    rewrite (times_line_facts _ _ start).
    destruct (Nat.eqb_spec start (S start + n)); [lia | reflexivity].
Qed.

Lemma fold_check_line xs acc :
  List.map (Fact.mk (lit "lint_issue")) (fold_left check_line xs acc) =
  List.map (Fact.mk (lit "lint_issue")) acc ++ flat_map line_facts xs.
Proof.
  revert acc. induction xs as [|[i line] xs IH]; intros acc; simpl.
  - rewrite app_nil_r. reflexivity.
  - rewrite IH. unfold check_line, line_facts. simpl fst; simpl snd.
    destruct (contains (lit "TODO") line), (100 <? length line);
      rewrite ?List.map_app, <- ?app_assoc; reflexivity.
Qed.

(** The facts of a [code_quality] run: those of the lines, then the
    docstring fact when the pattern is not found. *)
Lemma lint_facts code :
  List.map (Fact.mk (lit "lint_issue")) (lint code) =
  flat_map line_facts (enumerate 1 (splitlines code))
  ++ match search docstring_pattern code with
     | None => [lint_fact 1 NO_DOCSTRING]
     | Some _ => []
     end.
Proof.
  unfold lint. destruct (search docstring_pattern code).
  - rewrite fold_check_line, app_nil_r. reflexivity.
  - rewrite List.map_app, fold_check_line. reflexivity.
Qed.

Lemma code_text_get req code :
  code_text req = Some code ->
  inputs_get req (lit "code") (VStr (lit "")) = VStr code.
Proof.
  unfold code_text. destruct (inputs_get req _ _); try discriminate.
  intros [= ->]. reflexivity.
Qed.

(** What [run_task] computes for [code_quality] on text, when the report
    can be encoded: the file is written, and the digest is that of its
    content. *)
Lemma run_task_code_quality files task_id req cq ce code :
  TaskRequest.capability req = lit "code_quality" ->
  code_text req = Some code ->
  filename_encodable req ->
  let filename := inputs_get req (lit "filename") (VStr (lit "unknown.py")) in
  let issues := lint code in
  let report_json := Json.dumps (VDict (lint_report filename issues)) in
  let name := task_id ++ lit "_lint_report.json" in
  exists content,
    utf8 report_json = Some content
    /\ run_task files task_id req cq ce =
       (<[artifact_path name := content]> files,
        Return (TaskResult.mk task_id (lit "SUCCEEDED") (lit "code_quality")
                  (List.map (Fact.mk (lit "lint_issue")) issues)
                  [Artifact.mk name (artifact_path name)
                     (Some (sha256_hexdigest content))]
                  [in_memory_source filename]
                  [(lit "queued", cq ++ lit "Z"); (lit "ended", ce ++ lit "Z")]
                  (lit "run_" ++ task_id)
                  (Some (of_nat (length issues) ++ lit " potential issues found.")))).
Proof.
  intros Hcap Hcode Hname filename issues report_json name.
  assert (Hsome : is_Some (utf8 report_json)).
  { apply utf8_encodable. unfold report_json, issues.
    rewrite report_encodable. exact Hname. }
  destruct Hsome as [content Hcontent]. exists content.
  split; [exact Hcontent|]. unfold run_task.
  rewrite Hcap, (code_text_get _ _ Hcode).
  change (str_eqb (lit "code_quality") (lit "code_quality")) with true.
  cbv iota. fold filename. fold issues. fold report_json. fold name.
  unfold _sha256. rewrite Hcontent, insert_insert_eq. reflexivity.
Qed.

(** When the report cannot be encoded, [f.write] raises: the run fails,
    and leaves the report empty. *)
Lemma run_task_code_quality_raises files task_id req cq ce code :
  TaskRequest.capability req = lit "code_quality" ->
  code_text req = Some code ->
  ~ filename_encodable req ->
  run_task files task_id req cq ce
  = (<[artifact_path (task_id ++ lit "_lint_report.json") := []]> files,
     Raise UnicodeEncodeError).
Proof.
  intros Hcap Hcode Hname. unfold run_task.
  rewrite Hcap, (code_text_get _ _ Hcode).
  change (str_eqb (lit "code_quality") (lit "code_quality")) with true.
  cbv iota. rewrite utf8_not_encodable; [reflexivity|].
  rewrite report_encodable. unfold filename_encodable in Hname.
  destruct (value_encodable _ _); [contradiction | reflexivity].
Qed.

Lemma lint_fact_inj i m j m' : lint_fact i m = lint_fact j m' -> i = j /\ m = m'.
Proof. unfold lint_fact, lint_issue. intros [= H1 H2]. split; [lia | exact H2]. Qed.

Lemma no_docstring_fact_in_lines xs :
  ~ In (lint_fact 1 NO_DOCSTRING) (flat_map line_facts xs).
Proof.
  intros H. apply in_flat_map in H as ([i line] & _ & H).
  unfold line_facts in H. cbn [fst snd] in H. apply in_app_or in H.
  assert (Hone : forall msg, msg <> NO_DOCSTRING ->
            ~ In (lint_fact 1 NO_DOCSTRING) [lint_fact i msg]).
  { intros msg Hmsg [Heq|[]]. apply lint_fact_inj in Heq as [_ Heq]. auto. }
  destruct H as [H|H];
    [destruct (contains (lit "TODO") line) | destruct (100 <? length line)];
    try (destruct H; fail); revert H; apply Hone; discriminate.
Qed.

Lemma no_def_no_docstring code :
  ~ (exists a b, code = a ++ lit "def" ++ b) -> ~ def_with_docstring code.
Proof.
  intros Hno (pre & ws & ws' & name & args & gap & post & -> & _).
  apply Hno. exists (pre ++ ws). eexists. rewrite <- app_assoc. reflexivity.
Qed.

(** The facts of a [code_quality] run, by whether the docstring pattern is
    found. *)
Lemma lint_facts_cases code :
  let per_line := flat_map line_facts (enumerate 1 (splitlines code)) in
  (def_with_docstring code /\
   List.map (Fact.mk (lit "lint_issue")) (lint code) = per_line)
  \/ (~ def_with_docstring code /\
      List.map (Fact.mk (lit "lint_issue")) (lint code)
      = per_line ++ [lint_fact 1 NO_DOCSTRING]).
Proof.
  intros per_line. rewrite lint_facts. fold per_line.
  rewrite <- docstring_pattern_occurs, <- search_spec.
  destruct (search docstring_pattern code) as [m|].
  - left. split; [eauto | apply app_nil_r].
  - right. split; [intros [? [=]] | reflexivity].
Qed.

(** C1 (as amended).  When a [def] line ends with a line feed right after
    its colon and is followed by one or more blank lines and then by the
    line of its docstring ([gap] is the whitespace from that line feed to
    the three quotes, and holds a line feed of its own), the docstring
    pattern is found all the same: its whitespace runs over the blank
    lines.  The run, which completes when the report can be written,
    emits the facts of the lines only, and no docstring fact. *)
Theorem blank_lines_before_docstring_do_not_warn
    req files task_id cq ce pre ws ws' name args gap post :
  TaskRequest.capability req = lit "code_quality" ->
  filename_encodable req ->
  line_start pre -> all_in is_space ws ->
  ws' <> [] -> all_in is_space ws' ->
  name <> [] -> all_in is_word name ->
  all_in not_newline args ->
  all_in is_space gap -> In LF gap ->
  code_text req =
    Some (pre ++ ws ++ lit "def" ++ ws' ++ name ++ lit "(" ++ args
          ++ lit "):" ++ [LF] ++ gap ++ TRIPLE_QUOTE ++ post) ->
  exists files' r,
    run_task files task_id req cq ce = (files', Return r)
    /\ is_Some (search docstring_pattern
                  (pre ++ ws ++ lit "def" ++ ws' ++ name ++ lit "(" ++ args
                   ++ lit "):" ++ [LF] ++ gap ++ TRIPLE_QUOTE ++ post))
    /\ TaskResult.facts r =
         flat_map line_facts
           (enumerate 1
              (splitlines
                 (pre ++ ws ++ lit "def" ++ ws' ++ name ++ lit "(" ++ args
                  ++ lit "):" ++ [LF] ++ gap ++ TRIPLE_QUOTE ++ post)))
    /\ ~ In (lint_fact 1 NO_DOCSTRING) (TaskResult.facts r).
Proof.
  intros Hcap Hfile Hpre Hws Hne1 Hws' Hne2 Hname Hargs Hgap Hblank Hcode.
  set (code := pre ++ _) in *.
  assert (Hdoc : def_with_docstring code).
  { exists pre, ws, ws', name, args, gap, post.
    repeat split; auto. intros ->. destruct Hblank. }
  destruct (run_task_code_quality files task_id req cq ce code Hcap Hcode Hfile)
    as (content & _ & Hrun).
  eexists _, _. split; [exact Hrun|].
  cbn [TaskResult.facts].
  split; [apply search_spec, docstring_pattern_occurs, Hdoc|].
  destruct (lint_facts_cases code) as [[_ ->] | [Hno _]]; [|contradiction].
  split; [reflexivity | apply no_docstring_fact_in_lines].
Qed.

(** C2.  A [code_quality] run, which completes when the report can be
    written, emits the facts of the lines and then exactly one more fact,
    the docstring fact, if and only if the docstring pattern is found
    nowhere in the text; so it does when the text has no [def] at all,
    and the text [x = 1  # TODO fix] gives two facts and the message
    [2 potential issues found.] *)
Theorem docstring_fact_iff_pattern_absent req files task_id cq ce code :
  TaskRequest.capability req = lit "code_quality" ->
  code_text req = Some code ->
  filename_encodable req ->
  exists files' r extra,
    run_task files task_id req cq ce = (files', Return r)
    /\ TaskResult.facts r =
         flat_map line_facts (enumerate 1 (splitlines code)) ++ extra
    /\ ~ In (lint_fact 1 NO_DOCSTRING)
           (flat_map line_facts (enumerate 1 (splitlines code)))
    /\ (extra = [lint_fact 1 NO_DOCSTRING] <-> ~ def_with_docstring code)
    /\ (extra = [] <-> def_with_docstring code)
    /\ (times 1 NO_DOCSTRING (TaskResult.facts r) = 1
        <-> ~ def_with_docstring code)
    /\ (~ (exists a b, code = a ++ lit "def" ++ b) ->
        extra = [lint_fact 1 NO_DOCSTRING])
    /\ (code = todo_example ->
        TaskResult.facts r = [lint_fact 1 TODO_FOUND; lint_fact 1 NO_DOCSTRING]
        /\ TaskResult.message r = Some (lit "2 potential issues found.")).
Proof.
  clear float_renders.
  intros Hcap Hcode Hfile.
  destruct (run_task_code_quality files task_id req cq ce code Hcap Hcode Hfile)
    as (content & _ & Hrun).
  pose proof (no_docstring_fact_in_lines (enumerate 1 (splitlines code))) as Hnot.
  assert (Hzero : times 1 NO_DOCSTRING
                    (flat_map line_facts (enumerate 1 (splitlines code))) = 0).
  { destruct (times 1 NO_DOCSTRING _) eqn:E; [reflexivity|].
    exfalso. unfold times in E.
    destruct (List.filter _ _) as [|f l] eqn:F; [discriminate|].
    assert (Hin : In f (f :: l)) by (left; reflexivity).
    rewrite <- F in Hin. apply List.filter_In in Hin as [Hin Hf].
    apply is_lint_fact_spec in Hf as ->. exact (Hnot Hin). }
  destruct (lint_facts_cases code) as [[Hdoc Hfacts] | [Hno Hfacts]];
    eexists _, _, _;
    (split; [exact Hrun|]);
    cbn [TaskResult.facts TaskResult.message]; rewrite Hfacts.
  - split; [symmetry; apply app_nil_r|]. split; [exact Hnot|].
    split; [split; [discriminate | contradiction]|].
    split; [tauto|]. rewrite Hzero.
    split; [split; [discriminate | contradiction]|].
    split; [intros H; destruct (no_def_no_docstring _ H Hdoc)|].
    intros ->. exfalso. revert Hfacts. vm_compute. discriminate.
  - split; [reflexivity|]. split; [exact Hnot|].
    split; [tauto|]. split; [split; [discriminate | contradiction]|].
    rewrite times_app, Hzero. split; [split; [auto | reflexivity]|].
    split; [reflexivity|].
    intros ->. split; vm_compute; reflexivity.
Qed.

Lemma times_todo (n : nat) line (lines : list str) :
  lines !! n = Some line ->
  times (S n) TODO_FOUND (flat_map line_facts (enumerate 1 lines))
  = if contains (lit "TODO") line then 1 else 0.
Proof.
  intros H. change (S n) with (1 + n).
  rewrite (times_enumerate _ _ 1 n line H), times_line_facts, Nat.eqb_refl.
  change (str_eqb TODO_FOUND TODO_FOUND) with true.
  change (str_eqb LINE_TOO_LONG TODO_FOUND) with false.
  rewrite andb_true_r, andb_false_r.
  destruct (contains (lit "TODO") line); reflexivity.
Qed.

Lemma times_long (n : nat) line (lines : list str) :
  lines !! n = Some line ->
  times (S n) LINE_TOO_LONG (flat_map line_facts (enumerate 1 lines))
  = if 100 <? length line then 1 else 0.
Proof.
  intros H. change (S n) with (1 + n).
  rewrite (times_enumerate _ _ 1 n line H), times_line_facts, Nat.eqb_refl.
  change (str_eqb TODO_FOUND LINE_TOO_LONG) with false.
  change (str_eqb LINE_TOO_LONG LINE_TOO_LONG) with true.
  rewrite andb_true_r, andb_false_r.
  destruct (100 <? length line); reflexivity.
Qed.

Lemma line_facts_from (start : nat) (lines : list str) :
  Forall (fun f => (Z.of_nat start <= line_of f)%Z)
    (flat_map line_facts (enumerate start lines)).
Proof.
  revert start. induction lines as [|x lines IH]; intros start; simpl.
  - constructor.
  - apply Forall_app. split.
    + unfold line_facts. cbn [fst snd].
      destruct (contains (lit "TODO") x), (100 <? length x); simpl;
        repeat (apply List.Forall_cons; [cbv [line_of lint_fact lint_issue Fact.data]; lia|]);
        apply List.Forall_nil.
    + eapply Forall_impl; [apply (IH (S start))|]. simpl. intros f Hf. lia.
Qed.

(** The facts of the lines come by increasing line number. *)
Lemma line_facts_sorted (start : nat) (lines : list str) :
  StronglySorted Z.le
    (List.map line_of (flat_map line_facts (enumerate start lines))).
Proof.
  revert start. induction lines as [|x lines IH]; intros start; simpl.
  - constructor.
  - rewrite List.map_app.
    pose proof (line_facts_from (S start) lines) as Hfrom.
    assert (Hrest : Forall (Z.le (Z.of_nat start))
              (List.map line_of (flat_map line_facts (enumerate (S start) lines)))).
    { apply Forall_map. eapply Forall_impl; [exact Hfrom|].
      simpl. intros f Hf. lia. }
    unfold line_facts at 1. cbn [fst snd].
    destruct (contains (lit "TODO") x), (100 <? length x); simpl;
      repeat (apply SSorted_cons;
              [|repeat (apply List.Forall_cons; [cbv [line_of lint_fact lint_issue Fact.data]; lia|]);
                exact Hrest]);
      apply IH.
Qed.

(** *** The lines of a text *)

Lemma splitlines_from_lf cur (a b : str) :
  unbroken a ->
  splitlines_from cur (a ++ LF :: b) = (rev cur ++ a) :: splitlines b.
Proof.
  unfold unbroken. revert cur. induction a as [|x a IH]; intros cur Ha.
  - simpl. rewrite app_nil_r. destruct b; reflexivity.
  - simpl in Ha. apply andb_true_iff in Ha as [Hx Ha].
    apply negb_true_iff in Hx. simpl. rewrite Hx, (IH (x :: cur) Ha).
    simpl. rewrite <- app_assoc. reflexivity.
Qed.

Lemma splitlines_from_crlf cur (a b : str) :
  unbroken a ->
  splitlines_from cur (a ++ CR :: LF :: b) = (rev cur ++ a) :: splitlines b.
Proof.
  unfold unbroken. revert cur. induction a as [|x a IH]; intros cur Ha.
  - simpl. rewrite app_nil_r. reflexivity.
  - simpl in Ha. apply andb_true_iff in Ha as [Hx Ha].
    apply negb_true_iff in Hx. simpl. rewrite Hx, (IH (x :: cur) Ha).
    simpl. rewrite <- app_assoc. reflexivity.
Qed.

Lemma splitlines_from_break cur (a : str) c (rest : str) :
  unbroken a -> is_linebreak c = true ->
  ~ (c = CR /\ exists rest', rest = LF :: rest') ->
  splitlines_from cur (a ++ c :: rest) = (rev cur ++ a) :: splitlines rest.
Proof.
  unfold unbroken. intros Ha Hc Hno. revert cur Ha.
  induction a as [|x a IH]; intros cur Ha.
  - cbn [app splitlines_from]. rewrite Hc, app_nil_r.
    destruct rest as [|c' rest']; [reflexivity|].
    destruct ((c =? CR)%N && (c' =? LF)%N) eqn:E; [|reflexivity].
    apply andb_true_iff in E as [E1 E2].
    apply N.eqb_eq in E1, E2. subst. exfalso. apply Hno. eauto.
  - simpl in Ha. apply andb_true_iff in Ha as [Hx Ha].
    apply negb_true_iff in Hx. cbn [app splitlines_from].
    rewrite Hx, (IH (x :: cur) Ha).
    simpl. rewrite <- app_assoc. reflexivity.
Qed.

Lemma splitlines_from_unbroken cur (a : str) :
  unbroken a ->
  splitlines_from cur a = match rev cur ++ a with [] => [] | l => [l] end.
Proof.
  unfold unbroken. revert cur. induction a as [|x a IH]; intros cur Ha.
  - rewrite app_nil_r. destruct cur as [|c cur]; [reflexivity|].
    cbn [splitlines_from]. destruct (rev (c :: cur)) eqn:E; [|reflexivity].
    apply (f_equal (@length N)) in E. rewrite length_rev in E. discriminate.
  - simpl in Ha. apply andb_true_iff in Ha as [Hx Ha].
    apply negb_true_iff in Hx. cbn [splitlines_from].
    rewrite Hx, (IH (x :: cur) Ha). simpl. rewrite <- app_assoc. reflexivity.
Qed.

(** [splitlines] gives the lines of the text. *)
Lemma splitlines_from_Lines (n : nat) (code cur : str) :
  length code <= n -> unbroken (rev cur) ->
  Lines (rev cur ++ code) (splitlines_from cur code).
Proof.
  revert code cur. induction n as [|n IH]; intros code cur Hn Hcur.
  - destruct code; [|simpl in Hn; lia]. rewrite app_nil_r.
    destruct cur as [|c cur]; [constructor|].
    cbn [splitlines_from]. apply Lines_last; [|exact Hcur].
    intros E. apply (f_equal (@length N)) in E. rewrite length_rev in E.
    discriminate.
  - destruct code as [|c s].
    { apply (IH [] cur); [simpl; lia | exact Hcur]. }
    simpl in Hn. cbn [splitlines_from].
    destruct (is_linebreak c) eqn:Hc.
    + destruct s as [|c' s'].
      * change [c] with ([c] ++ []). apply Lines_next; [exact Hcur| |constructor].
        right. exists c. split; [reflexivity|]. split; [exact Hc|].
        intros (_ & rest' & [=]).
      * destruct ((c =? CR)%N && (c' =? LF)%N) eqn:E.
        -- apply andb_true_iff in E as [E1 E2].
           apply N.eqb_eq in E1, E2. subst.
           change (CR :: LF :: s') with ([CR; LF] ++ s').
           apply Lines_next; [exact Hcur | left; reflexivity|].
           apply (IH s' []); [simpl in Hn; lia | reflexivity].
        -- change (c :: c' :: s') with ([c] ++ c' :: s').
           apply Lines_next; [exact Hcur| |].
           ++ right. exists c. split; [reflexivity|]. split; [exact Hc|].
              intros (-> & rest' & [= -> _]). discriminate E.
           ++ apply (IH (c' :: s') []); [lia | reflexivity].
    + replace (rev cur ++ c :: s) with (rev (c :: cur) ++ s)
        by (simpl; rewrite <- app_assoc; reflexivity).
      apply IH; [lia|]. simpl. unfold unbroken in *.
      rewrite forallb_app, Hcur. simpl. rewrite Hc. reflexivity.
Qed.

Lemma splitlines_Lines (code : str) : Lines code (splitlines code).
Proof.
  apply (splitlines_from_Lines (length code) code []); [lia | reflexivity].
Qed.

(** A text has one list of lines. *)
Lemma Lines_splitlines (code : str) lines :
  Lines code lines -> lines = splitlines code.
Proof.
  induction 1 as [| line Hne Hline | line brk rest lines Hline Hbrk _ IH].
  - reflexivity.
  - unfold splitlines. rewrite (splitlines_from_unbroken [] line Hline).
    simpl. destruct line; [contradiction | reflexivity].
  - unfold splitlines. rewrite IH.
    destruct Hbrk as [-> | (c & -> & Hc & Hno)].
    + apply (eq_sym (splitlines_from_crlf [] line rest Hline)).
    + apply (eq_sym (splitlines_from_break [] line c rest Hline Hc Hno)).
Qed.

(** C3.  A [code_quality] run, which completes when the report can be
    written, emits for each line of the text in turn (the lines are what
    stands between the line boundaries of the text, numbered from 1) one
    [TODO found] fact when the line holds [TODO] (however many times)
    and then one [Line longer than 100 chars] fact when the line has more
    than 100 characters; a line can give both, the first before the
    second, and these facts come by increasing line number. *)
Theorem one_fact_per_line_and_kind req files task_id cq ce code :
  TaskRequest.capability req = lit "code_quality" ->
  code_text req = Some code ->
  filename_encodable req ->
  exists files' r extra lines,
    run_task files task_id req cq ce = (files', Return r)
    /\ Lines code lines
    /\ (forall lines', Lines code lines' -> lines' = lines)
    /\ TaskResult.facts r = flat_map line_facts (enumerate 1 lines) ++ extra
    /\ (extra = [] \/ extra = [lint_fact 1 NO_DOCSTRING])
    /\ StronglySorted Z.le
         (List.map line_of (flat_map line_facts (enumerate 1 lines)))
    /\ (forall (n : nat) (line : str),
          lines !! n = Some line ->
          (has_TODO line -> times (S n) TODO_FOUND (TaskResult.facts r) = 1)
          /\ (~ has_TODO line -> times (S n) TODO_FOUND (TaskResult.facts r) = 0)
          /\ (100 < length line ->
              times (S n) LINE_TOO_LONG (TaskResult.facts r) = 1)
          /\ (length line <= 100 ->
              times (S n) LINE_TOO_LONG (TaskResult.facts r) = 0)
          /\ (has_TODO line -> 100 < length line ->
              line_facts (S n, line)
              = [lint_fact (S n) TODO_FOUND; lint_fact (S n) LINE_TOO_LONG]))
    /\ (code = lit "TODO TODO" ->
        TaskResult.facts r = [lint_fact 1 TODO_FOUND; lint_fact 1 NO_DOCSTRING]).
Proof.
  clear float_renders.
  intros Hcap Hcode Hfile.
  destruct (run_task_code_quality files task_id req cq ce code Hcap Hcode Hfile)
    as (content & _ & Hrun).
  assert (Hex : exists extra,
             List.map (Fact.mk (lit "lint_issue")) (lint code)
             = flat_map line_facts (enumerate 1 (splitlines code)) ++ extra
             /\ (extra = [] \/ extra = [lint_fact 1 NO_DOCSTRING])).
  { destruct (lint_facts_cases code) as [[_ ->] | [_ ->]].
    - exists []. rewrite app_nil_r. auto.
    - eexists. split; [reflexivity | auto]. }
  destruct Hex as (extra & Hfacts & Hextra).
  assert (Hx : forall n m, m <> NO_DOCSTRING -> times n m extra = 0).
  { intros n m Hm. destruct Hextra as [-> | ->]; [reflexivity|].
    rewrite times_one.
    destruct (str_eqb NO_DOCSTRING m) eqn:E.
    - apply str_eqb_eq in E. congruence.
    - rewrite andb_false_r. reflexivity. }
  eexists _, _, extra, (splitlines code).
  split; [exact Hrun|].
  split; [apply splitlines_Lines|].
  split; [apply Lines_splitlines|].
  cbn [TaskResult.facts]. split; [exact Hfacts|]. split; [exact Hextra|].
  split; [apply line_facts_sorted|]. split.
  - intros n line Hline. rewrite Hfacts, !times_app.
    rewrite (times_todo _ _ _ Hline), (times_long _ _ _ Hline).
    rewrite !Hx by discriminate.
    assert (Htodo : contains (lit "TODO") line = true <-> has_TODO line)
      by apply contains_spec.
    unfold line_facts. cbn [fst snd].
    destruct (contains (lit "TODO") line);
      destruct (Nat.ltb_spec 100 (length line));
      repeat split; intros; try reflexivity; try lia;
      try (exfalso; tauto);
      try (assert (true = true) by reflexivity; exfalso; tauto);
      try (assert (false = true) by tauto; discriminate).
  - intros ->. vm_compute. reflexivity.
Qed.

(** C5.  The report that a [code_quality] run writes, read back from the
    file, is the pretty-printed object with the file name, an
    [issue_count] equal to the number of facts and the [issues] of the
    facts, line and message, in the same order; the facts carry the
    issues of the report, and the message is that count followed by
    [potential issues found.] *)
Theorem report_counts_agree req files task_id cq ce code :
  TaskRequest.capability req = lit "code_quality" ->
  code_text req = Some code ->
  filename_encodable req ->
  exists files' r issues content,
    run_task files task_id req cq ce = (files', Return r)
    /\ files' !! artifact_path (task_id ++ lit "_lint_report.json") = Some content
    /\ utf8 (Json.dumps (VDict
         [(lit "filename", inputs_get req (lit "filename") (VStr (lit "unknown.py")));
          (lit "issue_count", VInt (Z.of_nat (length issues)));
          (lit "issues", VList (List.map VDict issues))]))
       = Some content
    /\ utf8_decode content
       = Some (report_text
                 (Json.encode 2 1
                    (inputs_get req (lit "filename") (VStr (lit "unknown.py"))))
                 (TaskResult.facts r))
    /\ length issues = length (TaskResult.facts r)
    /\ List.map Fact.data (TaskResult.facts r) = issues
    /\ Forall (fun f => Fact.type f = lit "lint_issue"
                        /\ Fact.data f = lint_issue (Z.to_nat (line_of f)) (message_of f))
         (TaskResult.facts r)
    /\ TaskResult.message r
       = Some (of_nat (length (TaskResult.facts r)) ++ lit " potential issues found.").
Proof.
  intros Hcap Hcode Hfile.
  destruct (run_task_code_quality files task_id req cq ce code Hcap Hcode Hfile)
    as (content & Hcontent & Hrun).
  eexists _, _, (lint code), content.
  split; [exact Hrun|].
  cbn [TaskResult.facts TaskResult.message].
  split; [apply lookup_insert_eq|].
  split; [exact Hcontent|].
  split; [rewrite <- report_layout; apply utf8_round_trip, Hcontent|].
  split; [symmetry; apply length_map|].
  split; [rewrite List.map_map; apply List.map_id|].
  split; [|rewrite length_map; reflexivity].
  apply Forall_map. apply lint_issues.
  intros n m _. split; [reflexivity|].
  cbv [line_of message_of Fact.data lint_issue]. rewrite Nat2Z.id. reflexivity.
Qed.

Lemma os_path_join_under (a b : str) :
  starts_with (lit "/") b = false ->
  exists sep, (sep = [] \/ sep = lit "/") /\ os_path_join a b = a ++ sep ++ b.
Proof.
  intros Hb. unfold os_path_join. rewrite Hb.
  destruct (last a) as [c|] eqn:Hlast.
  - destruct (c =? 47)%N; [exists [] | exists (lit "/")]; auto.
  - apply last_None in Hlast as ->. exists []. auto.
Qed.

(** C6.  A [code_quality] run, when the report can be written, produces
    exactly one artifact, named after the task id, under the artifact
    directory; the file holds the UTF-8 bytes of the report, which read
    back as the report pretty-printed with an indent of two, the file
    name between quotes as it is when it needs no escape, with its
    characters beyond ASCII; and the recorded digest is the digest of the
    content of the file. *)
Theorem artifact_digest_of_written_content req files task_id cq ce code :
  TaskRequest.capability req = lit "code_quality" ->
  code_text req = Some code ->
  filename_encodable req ->
  exists files' r a content,
    run_task files task_id req cq ce = (files', Return r)
    /\ TaskResult.artifacts r = [a]
    /\ Artifact.name a = task_id ++ lit "_lint_report.json"
    /\ Artifact.path a = artifact_path (Artifact.name a)
    /\ (starts_with (lit "/") task_id = false ->
        exists sep, (sep = [] \/ sep = lit "/")
                    /\ Artifact.path a = ARTIFACT_DIR ++ sep ++ Artifact.name a)
    /\ files' = <[Artifact.path a := content]> files
    /\ files' !! Artifact.path a = Some content
    /\ utf8 (Json.dumps (VDict (lint_report
               (inputs_get req (lit "filename") (VStr (lit "unknown.py")))
               (lint code))))
       = Some content
    /\ utf8_decode content
       = Some (report_text
                 (Json.encode 2 1
                    (inputs_get req (lit "filename") (VStr (lit "unknown.py"))))
                 (TaskResult.facts r))
    /\ (forall name,
          inputs_get req (lit "filename") (VStr (lit "unknown.py")) = VStr name ->
          plain name ->
          utf8_decode content = Some (report_text (quoted name) (TaskResult.facts r)))
    /\ Artifact.sha256 a = Some (sha256_hexdigest content)
    /\ _sha256 (report_text
                  (Json.encode 2 1
                     (inputs_get req (lit "filename") (VStr (lit "unknown.py"))))
                  (TaskResult.facts r))
       = Some (sha256_hexdigest content).
Proof.
  intros Hcap Hcode Hfile.
  destruct (run_task_code_quality files task_id req cq ce code Hcap Hcode Hfile)
    as (content & Hcontent & Hrun).
  eexists _, _, _, content.
  split; [exact Hrun|].
  cbn [TaskResult.artifacts TaskResult.facts Artifact.name Artifact.path
       Artifact.sha256].
  split; [reflexivity|]. split; [reflexivity|]. split; [reflexivity|].
  split.
  { intros Hid. apply os_path_join_under.
    destruct task_id as [|c t]; [reflexivity | exact Hid]. }
  split; [reflexivity|]. split; [apply lookup_insert_eq|].
  split; [exact Hcontent|].
  assert (Hback : utf8_decode content
                  = Some (report_text
                            (Json.encode 2 1
                               (inputs_get req (lit "filename")
                                  (VStr (lit "unknown.py"))))
                            (List.map (Fact.mk (lit "lint_issue")) (lint code)))).
  { rewrite <- report_layout. apply utf8_round_trip, Hcontent. }
  split; [exact Hback|].
  split.
  { intros name Hname Hplain. rewrite Hback, Hname, (encode_plain 2 1 name Hplain).
    reflexivity. }
  split; [reflexivity|].
  unfold _sha256. rewrite <- report_layout, Hcontent. reflexivity.
Qed.

(** ** The [summarize_code] branch *)

(** What [run_task] computes for [summarize_code] on text. *)
Lemma run_task_summarize_code files task_id req cq ce code :
  TaskRequest.capability req = lit "summarize_code" ->
  code_text req = Some code ->
  let filename := inputs_get req (lit "filename") (VStr (lit "unknown.py")) in
  let funcs := findall def_pattern code in
  run_task files task_id req cq ce =
  (files,
   Return (TaskResult.mk task_id (lit "SUCCEEDED") (lit "summarize_code")
             [Fact.mk (lit "functions") [(lit "names", VList (List.map VStr funcs))]]
             []
             [in_memory_source filename]
             [(lit "queued", cq ++ lit "Z"); (lit "ended", ce ++ lit "Z")]
             (lit "run_" ++ task_id)
             (Some (lit "This file defines: " ++
                      match funcs with
                      | [] => lit "no functions detected"
                      | _ => join (lit ", ") funcs
                      end)))).
Proof.
  intros Hcap Hcode. unfold run_task.
  rewrite Hcap, (code_text_get _ _ Hcode).
  change (str_eqb (lit "summarize_code") (lit "code_quality")) with false.
  change (str_eqb (lit "summarize_code") (lit "summarize_code")) with true.
  reflexivity.
Qed.

(** ** The API *)

Lemma registered_existsb req :
  existsb (str_eqb (TaskRequest.capability req))
    (List.map Capability.name CAPABILITIES) = true <-> registered req.
Proof.
  unfold registered. rewrite existsb_exists. split.
  - intros (x & Hin & Heq). apply str_eqb_eq in Heq as ->. exact Hin.
  - intros Hin. exists (TaskRequest.capability req). split; [exact Hin|].
    apply str_eqb_refl.
Qed.

(** The six ways of [run_task]: [code_quality] on text, with the report
    written or not; [code_quality] on a code that is not text;
    [summarize_code] on text, and on a code that is not text; and a
    capability that is not registered. *)
Lemma run_task_cases files task_id req cq ce :
  (exists code content,
     TaskRequest.capability req = lit "code_quality"
     /\ code_text req = Some code /\ filename_encodable req
     /\ utf8 (Json.dumps (VDict (lint_report
                (inputs_get req (lit "filename") (VStr (lit "unknown.py")))
                (lint code)))) = Some content
     /\ run_task files task_id req cq ce =
        (<[artifact_path (task_id ++ lit "_lint_report.json") := content]> files,
         Return (TaskResult.mk task_id (lit "SUCCEEDED") (lit "code_quality")
                   (List.map (Fact.mk (lit "lint_issue")) (lint code))
                   [Artifact.mk (task_id ++ lit "_lint_report.json")
                      (artifact_path (task_id ++ lit "_lint_report.json"))
                      (Some (sha256_hexdigest content))]
                   [in_memory_source
                      (inputs_get req (lit "filename") (VStr (lit "unknown.py")))]
                   [(lit "queued", cq ++ lit "Z"); (lit "ended", ce ++ lit "Z")]
                   (lit "run_" ++ task_id)
                   (Some (of_nat (length (lint code))
                          ++ lit " potential issues found.")))))
  \/ (exists code,
        TaskRequest.capability req = lit "code_quality"
        /\ code_text req = Some code /\ ~ filename_encodable req
        /\ run_task files task_id req cq ce
           = (<[artifact_path (task_id ++ lit "_lint_report.json") := []]> files,
              Raise UnicodeEncodeError))
  \/ (TaskRequest.capability req = lit "code_quality"
      /\ code_text req = None
      /\ run_task files task_id req cq ce = (files, Raise AttributeError))
  \/ (exists code,
        TaskRequest.capability req = lit "summarize_code"
        /\ code_text req = Some code
        /\ run_task files task_id req cq ce =
           (files,
            Return (TaskResult.mk task_id (lit "SUCCEEDED") (lit "summarize_code")
                      [Fact.mk (lit "functions")
                         [(lit "names",
                           VList (List.map VStr (findall def_pattern code)))]]
                      []
                      [in_memory_source
                         (inputs_get req (lit "filename") (VStr (lit "unknown.py")))]
                      [(lit "queued", cq ++ lit "Z"); (lit "ended", ce ++ lit "Z")]
                      (lit "run_" ++ task_id)
                      (Some (lit "This file defines: " ++
                               match findall def_pattern code with
                               | [] => lit "no functions detected"
                               | _ => join (lit ", ") (findall def_pattern code)
                               end)))))
  \/ (TaskRequest.capability req = lit "summarize_code"
      /\ code_text req = None
      /\ run_task files task_id req cq ce = (files, Raise TypeError))
  \/ (~ registered req
      /\ run_task files task_id req cq ce =
         (files,
          Return (TaskResult.mk task_id (lit "SUCCEEDED") (TaskRequest.capability req)
                    [] [] []
                    [(lit "queued", cq ++ lit "Z"); (lit "ended", ce ++ lit "Z")]
                    (lit "run_" ++ task_id)
                    (Some (lit "Unknown capability"))))).
Proof.
  destruct (str_eqb (TaskRequest.capability req) (lit "code_quality")) eqn:E1.
  { apply str_eqb_eq in E1. destruct (code_text req) as [code|] eqn:Hcode.
    - destruct (value_encodable (fun _ => true)
                  (inputs_get req (lit "filename") (VStr (lit "unknown.py"))))
        eqn:Hfile.
      + left.
        destruct (run_task_code_quality files task_id req cq ce code E1 Hcode Hfile)
          as (content & Hcontent & Hrun).
        exists code, content. auto.
      + right. left. exists code.
        assert (Hno : ~ filename_encodable req).
        { unfold filename_encodable. rewrite Hfile. discriminate. }
        split; [exact E1|]. split; [reflexivity|]. split; [exact Hno|].
        apply (run_task_code_quality_raises _ _ _ _ _ code); assumption.
    - right. right. left. split; [exact E1|]. split; [reflexivity|].
      unfold run_task, code_text in *. rewrite E1.
      change (str_eqb (lit "code_quality") (lit "code_quality")) with true.
      cbv iota.
      destruct (inputs_get req (lit "code") _); try discriminate; reflexivity. }
  destruct (str_eqb (TaskRequest.capability req) (lit "summarize_code")) eqn:E2.
  { apply str_eqb_eq in E2. do 3 right.
    destruct (code_text req) as [code|] eqn:Hcode.
    - left. exists code. split; [exact E2|]. split; [reflexivity|].
      apply run_task_summarize_code; assumption.
    - right. left. split; [exact E2|]. split; [reflexivity|].
      unfold run_task, code_text in *. rewrite E2.
      change (str_eqb (lit "summarize_code") (lit "code_quality")) with false.
      change (str_eqb (lit "summarize_code") (lit "summarize_code")) with true.
      cbv iota.
      destruct (inputs_get req (lit "code") _); try discriminate; reflexivity. }
  do 5 right. split.
  - intros [H | [H | []]]; rewrite <- H in *;
      [discriminate E1 | discriminate E2].
  - unfold run_task. rewrite E1, E2. reflexivity.
Qed.

Ltac run_task_by_cases files task_id req cq ce :=
  destruct (run_task_cases files task_id req cq ce)
    as [(code & content & Hcap & Hcode & Hfile & Hcontent & Hrun)
       |[(code & Hcap & Hcode & Hfile & Hrun)
        |[(Hcap & Hcode & Hrun)
         |[(code & Hcap & Hcode & Hrun)
          |[(Hcap & Hcode & Hrun)
           |(Hcap & Hrun)]]]]].

(** A registered capability run on text returns a result, when the
    report of [code_quality] can be written. *)
Lemma run_task_returns files task_id req cq ce :
  registered req -> is_Some (code_text req) ->
  (TaskRequest.capability req = lit "code_quality" -> filename_encodable req) ->
  exists files' r,
    run_task files task_id req cq ce = (files', Return r)
    /\ TaskResult.task_id r = task_id
    /\ TaskResult.status r = lit "SUCCEEDED"
    /\ TaskResult.stable_id r = lit "run_" ++ task_id.
Proof.
  intros Hreg [c Hc] Hname.
  run_task_by_cases files task_id req cq ce;
    try (rewrite Hrun; eexists _, _; split; [reflexivity | auto]; fail);
    try congruence.
  destruct (Hfile (Hname Hcap)).
Qed.

(** Whatever [run_task] returns carries the task id, [SUCCEEDED] and the
    stable id. *)
Lemma run_task_result files task_id req cq ce files' r :
  run_task files task_id req cq ce = (files', Return r) ->
  TaskResult.task_id r = task_id
  /\ TaskResult.status r = lit "SUCCEEDED"
  /\ TaskResult.stable_id r = lit "run_" ++ task_id.
Proof.
  run_task_by_cases files task_id req cq ce; rewrite Hrun;
    intros [= <- <-]; auto.
Qed.

(** [run_task] raises under a registered capability only: on a code that
    is not text, before it writes anything, or on a report of
    [code_quality] that cannot be encoded, and then it leaves the report
    empty. *)
Lemma run_task_raises files task_id req cq ce files' e :
  run_task files task_id req cq ce = (files', Raise e) ->
  registered req
  /\ ((code_text req = None /\ files' = files
       /\ (e = AttributeError \/ e = TypeError))
      \/ (TaskRequest.capability req = lit "code_quality"
          /\ is_Some (code_text req) /\ ~ filename_encodable req
          /\ files' = <[artifact_path (task_id ++ lit "_lint_report.json") := []]> files
          /\ e = UnicodeEncodeError)).
Proof.
  unfold registered.
  run_task_by_cases files task_id req cq ce; rewrite Hrun, ?Hcap;
    intros [= <- <-]; (split; [simpl; auto|]); eauto 10.
Qed.

Lemma create_task_unknown st req uuid cq ce :
  ~ registered req ->
  create_task st req uuid cq ce
  = (st, Raise (HTTPException 400 (lit "Unknown capability"))).
Proof.
  intros Hno. unfold create_task.
  destruct (existsb _ _) eqn:E; [|reflexivity].
  apply registered_existsb in E. contradiction.
Qed.

(** The keys of the task table after a call: those before, and the id
    that the call generated, if any. *)
Lemma serve_keys st c (k : str) :
  is_Some (TASKS (serve st c) !! k) <->
  is_Some (TASKS st !! k) \/ In k (issued_by c).
Proof.
  clear float_renders.
  destruct c as [| req uuid cq ce | task_id |]; cbn [serve issued_by].
  - simpl. tauto.
  - unfold create_task.
    destruct (existsb (str_eqb (TaskRequest.capability req))
                (List.map Capability.name CAPABILITIES)); cbn [negb In fst].
    + set (task_id := lit "t-" ++ firstn 8 (hex uuid)).
      assert (Hkey : forall rec, is_Some (<[task_id := rec]> (TASKS st) !! k)
                       <-> is_Some (TASKS st !! k) \/ task_id = k \/ False).
      { intros rec. rewrite lookup_insert_is_Some.
        destruct (decide (task_id = k)); tauto. }
      destruct (run_task _ _ _ _ _) as [files [r | e]]; cbn [fst TASKS mark_scheduled].
      * rewrite lookup_insert_is_Some, Hkey.
        destruct (decide (task_id = k)); tauto.
      * apply Hkey.
    + tauto.
  - unfold task_status. destruct (TASKS st !! task_id); simpl; tauto.
  - simpl. tauto.
Qed.

Lemma serve_all_keys st calls (k : str) :
  is_Some (TASKS (serve_all st calls) !! k) <->
  is_Some (TASKS st !! k) \/ In k (issued calls).
Proof.
  clear float_renders.
  revert st. induction calls as [|c calls IH]; intros st; simpl.
  - tauto.
  - unfold serve_all in *. simpl. rewrite IH, serve_keys, in_app_iff. tauto.
Qed.

Lemma inputs_get_with_input req key v fallback :
  inputs_get (with_input req key v) key fallback = v.
Proof. unfold inputs_get, with_input. simpl. rewrite lookup_insert_eq. reflexivity. Qed.

Lemma inputs_get_with_input_ne req key key' v fallback :
  key <> key' ->
  inputs_get (with_input req key v) key' fallback = inputs_get req key' fallback.
Proof.
  intros Hne. unfold inputs_get, with_input. simpl.
  rewrite lookup_insert_ne by exact Hne. reflexivity.
Qed.

Lemma inputs_get_missing req key fallback :
  TaskRequest.inputs req !! key = None -> inputs_get req key fallback = fallback.
Proof. unfold inputs_get. intros ->. reflexivity. Qed.

(** [run_task] reads the request through its capability and the two
    inputs only. *)
Lemma run_task_reads files task_id req req' cq ce :
  TaskRequest.capability req = TaskRequest.capability req' ->
  inputs_get req (lit "code") (VStr (lit ""))
    = inputs_get req' (lit "code") (VStr (lit "")) ->
  inputs_get req (lit "filename") (VStr (lit "unknown.py"))
    = inputs_get req' (lit "filename") (VStr (lit "unknown.py")) ->
  run_task files task_id req cq ce = run_task files task_id req' cq ce.
Proof. intros Hc Hcode Hname. unfold run_task. rewrite Hc, Hcode, Hname. reflexivity. Qed.

(** When the [code] input is there and is not text, a registered
    capability raises and nothing is written. *)
Lemma run_task_code_not_text files task_id req cq ce :
  registered req -> code_text req = None ->
  exists e, run_task files task_id req cq ce = (files, Raise e)
            /\ (e = AttributeError \/ e = TypeError).
Proof.
  intros Hreg Hnone.
  run_task_by_cases files task_id req cq ce; try congruence; eauto.
Qed.

(** What [create_task] does under a registered capability. *)
Lemma create_task_registered st req uuid cq ce :
  registered req ->
  let task_id := lit "t-" ++ firstn 8 (hex uuid) in
  create_task st req uuid cq ce
  = match run_task (FILES st) task_id req cq ce with
    | (files, Return result) =>
        (mk_state
           (<[task_id := TaskStatus.mk task_id (lit "SUCCEEDED") (Some result)]>
              (<[task_id := TaskStatus.mk task_id (lit "SCHEDULED") None]>
                 (TASKS st)))
           files,
         Return [(lit "task_id", VStr task_id);
                 (lit "status", VStr (lit "SCHEDULED"))])
    | (files, Raise e) =>
        (mk_state
           (<[task_id := TaskStatus.mk task_id (lit "SCHEDULED") None]> (TASKS st))
           files,
         Raise e)
    end.
Proof.
  intros Hreg task_id. unfold create_task.
  rewrite (proj2 (registered_existsb req) Hreg). reflexivity.
Qed.

(** The ids that [create_task] makes can be encoded, and so can its answer
    and the record it writes first. *)
Lemma task_id_encodable uuid : encodable (lit "t-" ++ firstn 8 (hex uuid)) = true.
Proof.
  rewrite encodable_app, encodable_firstn by apply encodable_hex. reflexivity.
Qed.

Lemma renders_submit_body uuid :
  renders (to_json [(lit "task_id", VStr (lit "t-" ++ firstn 8 (hex uuid)));
                    (lit "status", VStr (lit "SCHEDULED"))]) = true.
Proof.
  unfold renders, to_json, dict_json. cbn [value_encodable forallb fst snd].
  rewrite task_id_encodable. reflexivity.
Qed.

Lemma renders_scheduled uuid :
  renders (to_json (TaskStatus.mk (lit "t-" ++ firstn 8 (hex uuid))
                      (lit "SCHEDULED") None)) = true.
Proof.
  unfold renders, to_json, status_json.
  cbn [value_encodable forallb fst snd TaskStatus.task_id TaskStatus.status
       TaskStatus.result].
  rewrite task_id_encodable. reflexivity.
Qed.

(** C7 (as amended).  A request whose capability is not in the registry
    is answered 400 with the detail [Unknown capability], and leaves the
    task table and the artifact files as they were.  A request with a
    registered capability is answered 200 or 500: 200 exactly when its
    code is text (or missing) and, under [code_quality], its report can
    be written; a request answered 500 has left its [SCHEDULED] record in
    the task table. *)
Theorem unknown_capability_rejected_before_any_write st req uuid cq ce :
  (~ registered req ->
   create_task st req uuid cq ce
   = (st, Raise (HTTPException 400 (lit "Unknown capability")))
   /\ status_code_of (snd (create_task st req uuid cq ce)) = 400
   /\ error_body (HTTPException 400 (lit "Unknown capability"))
      = Some [(lit "detail", VStr (lit "Unknown capability"))]
   /\ TASKS (fst (create_task st req uuid cq ce)) = TASKS st
   /\ FILES (fst (create_task st req uuid cq ce)) = FILES st)
  /\ (registered req ->
      let task_id := lit "t-" ++ firstn 8 (hex uuid) in
      (status_code_of (snd (create_task st req uuid cq ce)) = 200
       \/ status_code_of (snd (create_task st req uuid cq ce)) = 500)
      /\ (status_code_of (snd (create_task st req uuid cq ce)) = 200
          <-> is_Some (code_text req)
              /\ (TaskRequest.capability req = lit "code_quality" ->
                  filename_encodable req))
      /\ (status_code_of (snd (create_task st req uuid cq ce)) = 500 ->
          TASKS (fst (create_task st req uuid cq ce))
          = <[task_id := TaskStatus.mk task_id (lit "SCHEDULED") None]> (TASKS st))).
Proof.
  split.
  - intros Hno. rewrite (create_task_unknown _ _ _ _ _ Hno). auto.
  - intros Hreg task_id.
    rewrite (create_task_registered _ _ _ _ _ Hreg). fold task_id.
    run_task_by_cases (FILES st) task_id req cq ce; rewrite Hrun;
      cbn [fst snd TASKS status_code_of]; unfold task_id;
      rewrite ?renders_submit_body.
    + split; [auto|]. split; [|discriminate]. split; eauto.
    + split; [auto|]. split; [|reflexivity].
      split; [discriminate|]. intros [_ H]. destruct (Hfile (H Hcap)).
    + split; [auto|]. split; [|reflexivity].
      split; [discriminate|]. intros [[c Hc] _]. congruence.
    + split; [auto|]. split; [|discriminate]. split; [|reflexivity].
      intros _. split; [eauto|]. rewrite Hcap. discriminate.
    + split; [auto|]. split; [|reflexivity].
      split; [discriminate|]. intros [[c Hc] _]. congruence.
    + contradiction.
Qed.

(** C8.  A submit that succeeds answers with the new task id and the
    status [SCHEDULED], without the result; by then the record stored
    under that id, first written as [SCHEDULED], has been replaced under
    the same key by a [SUCCEEDED] record whose result is there, is
    [SUCCEEDED] and has the stable id [run_] followed by the task id.  No
    call ever removes a record from the table. *)
Theorem submit_answers_scheduled_and_stores_succeeded
    st st' req uuid cq ce resp :
  create_task st req uuid cq ce = (st', Return resp) ->
  let task_id := lit "t-" ++ firstn 8 (hex uuid) in
  resp = [(lit "task_id", VStr task_id); (lit "status", VStr (lit "SCHEDULED"))]
  /\ (forall v, ~ In (lit "result", v) resp)
  /\ TASKS (mark_scheduled st task_id) !! task_id
     = Some (TaskStatus.mk task_id (lit "SCHEDULED") None)
  /\ (exists r,
        TASKS st' = <[task_id := TaskStatus.mk task_id (lit "SUCCEEDED") (Some r)]>
                      (TASKS (mark_scheduled st task_id))
        /\ TASKS st' !! task_id
           = Some (TaskStatus.mk task_id (lit "SUCCEEDED") (Some r))
        /\ TaskResult.status r = lit "SUCCEEDED"
        /\ TaskResult.task_id r = task_id
        /\ TaskResult.stable_id r = lit "run_" ++ task_id)
  /\ (forall k : str, k <> task_id -> TASKS st' !! k = TASKS st !! k)
  /\ (forall (s : state) (c : call) (k : str),
        is_Some (TASKS s !! k) -> is_Some (TASKS (serve s c) !! k)).
Proof.
  intros Hcreate task_id. unfold create_task in Hcreate.
  destruct (existsb _ _); cbn [negb] in Hcreate; [|discriminate].
  fold task_id in Hcreate.
  destruct (run_task _ _ _ _ _) as [files [r | e]] eqn:Hrun; [|discriminate].
  injection Hcreate as <- <-.
  apply run_task_result in Hrun as (Hid & Hstatus & Hstable).
  split; [reflexivity|]. split.
  { intros v [H | [H | []]]; discriminate H. }
  split; [apply lookup_insert_eq|]. split.
  { exists r. cbn [TASKS]. split; [reflexivity|].
    split; [apply lookup_insert_eq | auto]. }
  split.
  { intros k Hk. cbn [TASKS mark_scheduled].
    rewrite !lookup_insert_ne by congruence. reflexivity. }
  intros s c k Hk. apply serve_keys. left. exact Hk.
Qed.


(** C10 (as amended).  A request with a registered capability that lacks
    the [code] key or the [filename] key is run as the same request with
    the empty text for the missing code and [unknown.py] for the missing
    file name.  It runs to [SUCCEEDED] when the input that is there is
    fine: with the file name missing, exactly when the code is text (or
    missing too); with the code missing, exactly when, under
    [code_quality], the report can be written.  With no inputs at all,
    [code_quality] gives the docstring fact alone and a report for
    [unknown.py]. *)
Theorem missing_inputs_take_defaults req files task_id cq ce :
  registered req ->
  (TaskRequest.inputs req !! lit "code" = None ->
   run_task files task_id req cq ce
   = run_task files task_id (with_input req (lit "code") (VStr (lit ""))) cq ce)
  /\ (TaskRequest.inputs req !! lit "filename" = None ->
      run_task files task_id req cq ce
      = run_task files task_id
          (with_input req (lit "filename") (VStr (lit "unknown.py"))) cq ce)
  /\ (TaskRequest.inputs req !! lit "filename" = None ->
      (is_Some (code_text req) <->
       exists files' r,
         run_task files task_id req cq ce = (files', Return r)
         /\ TaskResult.status r = lit "SUCCEEDED"))
  /\ (TaskRequest.inputs req !! lit "code" = None ->
      ((TaskRequest.capability req = lit "code_quality" -> filename_encodable req)
       <->
       exists files' r,
         run_task files task_id req cq ce = (files', Return r)
         /\ TaskResult.status r = lit "SUCCEEDED"))
  /\ (TaskRequest.capability req = lit "code_quality" ->
      TaskRequest.inputs req = ∅ ->
      exists files' r content,
        run_task files task_id req cq ce = (files', Return r)
        /\ TaskResult.status r = lit "SUCCEEDED"
        /\ TaskResult.facts r = [lint_fact 1 NO_DOCSTRING]
        /\ files' !! artifact_path (task_id ++ lit "_lint_report.json")
           = Some content
        /\ utf8_decode content
           = Some (report_text (quoted (lit "unknown.py"))
                     [lint_fact 1 NO_DOCSTRING]))
  /\ (TaskRequest.capability req = lit "summarize_code" ->
      TaskRequest.inputs req !! lit "code" = None ->
      exists r,
        run_task files task_id req cq ce = (files, Return r)
        /\ TaskResult.status r = lit "SUCCEEDED"
        /\ TaskResult.message r
           = Some (lit "This file defines: no functions detected")).
Proof.
  clear float_renders.
  intros Hreg.
  assert (Hiff : (exists files' r,
                    run_task files task_id req cq ce = (files', Return r)
                    /\ TaskResult.status r = lit "SUCCEEDED")
                 <-> is_Some (code_text req)
                     /\ (TaskRequest.capability req = lit "code_quality" ->
                         filename_encodable req)).
  { split.
    - intros (files' & r & Hr & _).
      run_task_by_cases files task_id req cq ce; try congruence.
      + split; eauto.
      + split; [eauto|]. rewrite Hcap. discriminate.
    - intros [Hcode Hname].
      destruct (run_task_returns files task_id req cq ce Hreg Hcode Hname)
        as (files' & r & Hrun & _ & Hstatus & _).
      eauto. }
  split; [|split; [|split; [|split; [|split]]]].
  - intros Hnone. apply run_task_reads; [reflexivity| |].
    + rewrite inputs_get_with_input. apply inputs_get_missing, Hnone.
    + rewrite inputs_get_with_input_ne by discriminate. reflexivity.
  - intros Hnone. apply run_task_reads; [reflexivity| |].
    + rewrite inputs_get_with_input_ne by discriminate. reflexivity.
    + rewrite inputs_get_with_input. apply inputs_get_missing, Hnone.
  - intros Hnone. rewrite Hiff.
    assert (Hname : filename_encodable req).
    { unfold filename_encodable, inputs_get. rewrite Hnone. reflexivity. }
    tauto.
  - intros Hnone. rewrite Hiff.
    assert (Hc : is_Some (code_text req)).
    { unfold code_text, inputs_get. rewrite Hnone. eauto. }
    tauto.
  - intros Hcap Hempty.
    assert (Hc : code_text req = Some (lit "")).
    { unfold code_text, inputs_get. rewrite Hempty, lookup_empty. reflexivity. }
    assert (Hget : inputs_get req (lit "filename") (VStr (lit "unknown.py"))
                   = VStr (lit "unknown.py")).
    { unfold inputs_get. rewrite Hempty, lookup_empty. reflexivity. }
    assert (Hname : filename_encodable req).
    { unfold filename_encodable. rewrite Hget. reflexivity. }
    destruct (run_task_code_quality files task_id req cq ce _ Hcap Hc Hname)
      as (content & Hcontent & Hrun).
    eexists _, _, content. split; [exact Hrun|].
    cbn [TaskResult.status TaskResult.facts].
    split; [reflexivity|]. split; [reflexivity|].
    split; [apply lookup_insert_eq|].
    apply utf8_round_trip in Hcontent. rewrite Hcontent, report_layout, Hget.
    reflexivity.
  - intros Hcap Hnone.
    assert (Hc : code_text req = Some (lit "")).
    { unfold code_text, inputs_get. rewrite Hnone. reflexivity. }
    eexists. split; [apply (run_task_summarize_code _ _ _ _ _ _ Hcap Hc)|].
    split; reflexivity.
Qed.

(** *** [re.findall]: the scan resumes where a match ended *)

Lemma findall_from_skip p (k : nat) prev (s : str) :
  k <= length s ->
  findall_from p k prev s
  = findall_from p 0 (after prev (firstn k s)) (skipn k s).
Proof.
  revert prev s. induction k as [|k IH]; intros prev s Hk.
  - destruct s; reflexivity.
  - destruct s as [|x s]; [simpl in Hk; lia|].
    simpl in Hk. cbn [firstn skipn]. rewrite (after_cons prev x).
    change (findall_from p (S k) prev (x :: s)) with (findall_from p k (Some x) s).
    apply IH. lia.
Qed.

Lemma findall_from_match p prev (s : str) segs rest :
  match_here p prev s = Some (segs, rest) -> concat segs <> [] ->
  findall_from p 0 prev s
  = group_text false p segs :: findall_from p 0 (after prev (concat segs)) rest.
Proof.
  intros Hm Hne. pose proof (match_here_sound _ _ _ _ _ Hm) as [Hs _].
  destruct (concat segs) as [|x w] eqn:Hw; [contradiction|].
  subst s. simpl app in *. cbn [findall_from]. rewrite Hm. cbn [fst].
  rewrite Hw. cbn [length Nat.pred]. f_equal.
  rewrite findall_from_skip by (rewrite length_app; lia).
  rewrite firstn_app, Nat.sub_diag, firstn_all, skipn_app, Nat.sub_diag, skipn_all.
  simpl. rewrite app_nil_r, after_cons. reflexivity.
Qed.

Lemma findall_from_no_match_here p prev x (s : str) :
  match_here p prev (x :: s) = None ->
  findall_from p 0 prev (x :: s) = findall_from p 0 (Some x) s.
Proof. intros Hm. cbn [findall_from]. rewrite Hm. reflexivity. Qed.

Lemma findall_from_search_None p prev (s : str) :
  search_from p prev s = None -> findall_from p 0 prev s = [].
Proof.
  revert prev. induction s as [|x s IH]; intros prev; simpl.
  - destruct (match_here p prev []); [discriminate | reflexivity].
  - destruct (match_here p prev (x :: s)); [discriminate | apply IH].
Qed.

(** A prefix in which no match starts is passed over. *)
Lemma findall_from_pass p prev (pre s : str) :
  (forall pre1 pre2, pre = pre1 ++ pre2 -> pre2 <> [] ->
     match_here p (after prev pre1) (pre2 ++ s) = None) ->
  findall_from p 0 prev (pre ++ s) = findall_from p 0 (after prev pre) s.
Proof.
  revert prev. induction pre as [|x pre IH]; intros prev Hnone; [reflexivity|].
  simpl app. rewrite findall_from_no_match_here.
  - rewrite after_cons. apply IH. intros pre1 pre2 -> Hne.
    rewrite <- (after_cons prev). apply (Hnone (x :: pre1) pre2); auto.
  - apply (Hnone [] (x :: pre)); [reflexivity | discriminate].
Qed.

(** The first position at which the pattern matches, if any. *)
Lemma first_match p prev (s : str) :
  search_from p prev s = None
  \/ exists pre s2 segs rest,
       s = pre ++ s2
       /\ match_here p (after prev pre) s2 = Some (segs, rest)
       /\ (forall pre1 pre2, pre = pre1 ++ pre2 -> pre2 <> [] ->
             match_here p (after prev pre1) (pre2 ++ s2) = None).
Proof.
  revert prev. induction s as [|x s IH]; intros prev; simpl.
  - destruct (match_here p prev []) as [[segs rest]|] eqn:Hm; [right | left; auto].
    exists [], [], segs, rest. repeat split; auto.
    intros [|] pre2 H; [simpl in H; subst; congruence | discriminate].
  - destruct (match_here p prev (x :: s)) as [[segs rest]|] eqn:Hm.
    + right. exists [], (x :: s), segs, rest. repeat split; auto.
      intros [|] pre2 H; [simpl in H; subst; congruence | discriminate].
    + destruct (IH (Some x)) as [Hnone | (pre & s2 & segs & rest & -> & Hs2 & Hpre)];
        [left; exact Hnone | right].
      exists (x :: pre), s2, segs, rest. rewrite after_cons.
      repeat split; auto.
      intros [|y pre1] pre2 Heq Hne.
      * simpl in Heq. subst pre2. exact Hm.
      * injection Heq as <- ->. rewrite after_cons. apply Hpre; auto.
Qed.

(** *** What [def_pattern] matches *)

Lemma def_pattern_head prev segs :
  Matches def_pattern prev segs ->
  def_head prev (concat segs) (group_text false def_pattern segs).
Proof.
  unfold def_pattern, plus, def_head, all_in. simpl app. intros H.
  apply Matches_bol_inv in H as (s0 & -> & Hb & H). split; [exact Hb|].
  apply Matches_star_inv in H as (ws & s1 & -> & Hws & H).
  apply Matches_lit_inv in H as (s2 & -> & H).
  apply Matches_lit_inv in H as (s3 & -> & H).
  apply Matches_lit_inv in H as (s4 & -> & H).
  apply Matches_cls_inv in H as (c1 & s5 & -> & Hc1 & H).
  apply Matches_star_inv in H as (u1 & s6 & -> & Hu1 & H).
  apply Matches_open_inv in H as (s7 & -> & H).
  apply Matches_cls_inv in H as (c2 & s8 & -> & Hc2 & H).
  apply Matches_star_inv in H as (u2 & s9 & -> & Hu2 & H).
  apply Matches_close_inv in H as (s10 & -> & H).
  apply Matches_lit_inv in H as (s11 & -> & H).
  apply Matches_nil_inv in H as ->.
  exists ws, (c1 :: u1). simpl. rewrite ?app_nil_r. simpl.
  rewrite Hc1, Hu1, Hc2, Hu2.
  repeat split; auto; discriminate.
Qed.

Lemma def_head_matches prev w name :
  def_head prev w name ->
  exists segs, w = concat segs /\ Matches def_pattern prev segs.
Proof.
  unfold def_pattern, plus, def_head, all_in. simpl app.
  intros (Hb & ws & ws' & -> & Hws & Hne1 & Hws' & Hne2 & Hname).
  apply nonempty_all_in in Hws' as (c1 & u1 & -> & Hc1 & Hu1); [|exact Hne1].
  apply nonempty_all_in in Hname as (c2 & u2 & -> & Hc2 & Hu2); [|exact Hne2].
  exists [[]; ws; [100%N]; [101%N]; [102%N]; [c1]; u1; []; [c2]; u2; []; [40%N]].
  split.
  - simpl. rewrite ?app_nil_r. reflexivity.
  - build_match.
Qed.

Lemma def_head_nonempty prev w name : def_head prev w name -> w <> [].
Proof.
  intros (_ & ws & ws' & -> & _) H.
  apply app_eq_nil in H as [_ H]. discriminate.
Qed.

Lemma def_head_after prev prev' w name :
  def_head prev w name -> after prev' w = Some 40%N.
Proof.
  intros (_ & ws & ws' & -> & _).
  rewrite !app_assoc, after_app. reflexivity.
Qed.

(** A run of characters of a class, followed by a character that is not
    in it, is read in one way only. *)
Lemma span_unique f (u u' : str) x x' (r r' : str) :
  forallb f u = true -> forallb f u' = true ->
  f x = false -> f x' = false ->
  u ++ x :: r = u' ++ x' :: r' -> u = u' /\ x :: r = x' :: r'.
Proof.
  revert u'. induction u as [|c u IH]; intros [|c' u'] Hu Hu' Hx Hx' Heq;
    simpl in *.
  - auto.
  - injection Heq as -> _. apply andb_true_iff in Hu' as [Hc _]. congruence.
  - injection Heq as -> _. apply andb_true_iff in Hu as [Hc _]. congruence.
  - injection Heq as -> Heq.
    apply andb_true_iff in Hu as [_ Hu]. apply andb_true_iff in Hu' as [_ Hu'].
    destruct (IH u' Hu Hu' Hx Hx' Heq) as [-> ?]. auto.
Qed.

(** When no character is both whitespace and a word character, as in
    Unicode, a head is read in one way only. *)
Lemma def_head_determined prev w name w' name' post post' :
  (forall c, is_word c = true -> is_space c = false) ->
  def_head prev w name -> def_head prev w' name' ->
  w ++ post = w' ++ post' ->
  w = w' /\ name = name' /\ post = post'.
Proof.
  intros Htable (_ & ws & ws1 & -> & Hws & Hne1 & Hws1 & Hne2 & Hname)
         (_ & ws0 & ws2 & -> & Hws0 & Hne3 & Hws2 & Hne4 & Hname') Heq.
  unfold all_in in *.
  apply nonempty_all_in in Hname as (c & n & -> & Hc & Hn); [|exact Hne2].
  apply nonempty_all_in in Hname' as (c' & n' & -> & Hc' & Hn'); [|exact Hne4].
  repeat rewrite <- app_assoc in Heq. simpl in Heq.
  apply (span_unique is_space) in Heq as [-> Heq]; auto.
  injection Heq as Heq.
  apply (span_unique is_space) in Heq as [-> Heq]; auto.
  injection Heq as -> Heq.
  apply (span_unique is_word) in Heq as [-> Heq]; auto.
  injection Heq as ->. auto.
Qed.

(** *** The names that [summarize_code] reports *)

Lemma findall_def_names (n : nat) (s : str) prev :
  length s <= n -> DefNames prev s (findall_from def_pattern 0 prev s).
Proof.
  revert s prev. induction n as [|n IH]; intros s prev Hlen;
    (destruct (first_match def_pattern prev s)
      as [Hnone | (pre & s2 & segs & rest & -> & Hm & Hpre)];
     [ rewrite (findall_from_search_None _ _ _ Hnone);
       apply DefNames_none; intros pre w name post -> Hw;
       apply def_head_matches in Hw as (segs & -> & Hw);
       assert (Hs : is_Some (search_from def_pattern prev
                               (pre ++ concat segs ++ post)))
         by (apply search_from_spec; eauto);
       rewrite Hnone in Hs; destruct Hs as [? [=]]
     | ]).
  all: rewrite (findall_from_pass _ _ _ _ Hpre);
    pose proof (match_here_sound _ _ _ _ _ Hm) as [-> Hmatch];
    pose proof (def_pattern_head _ _ Hmatch) as Hhead;
    pose proof (def_head_nonempty _ _ _ Hhead) as Hne;
    rewrite (findall_from_match _ _ _ _ _ Hm Hne);
    rewrite (def_head_after _ (after prev pre) _ _ Hhead).
  - exfalso. rewrite !length_app in Hlen.
    destruct (concat segs); [contradiction | simpl in Hlen; lia].
  - apply DefNames_first; [|exact Hhead|].
    + intros pre1 pre2 w name post Hp Hne2 Heq Hw.
      apply def_head_matches in Hw as (segs' & -> & Hw).
      exact (match_here_None _ _ _ (Hpre pre1 pre2 Hp Hne2) _ _ Heq Hw).
    + apply IH. rewrite !length_app in Hlen.
      destruct (concat segs); [contradiction | simpl in Hlen; lia].
Qed.

Lemma def_names_unique prev (s : str) names :
  (forall c, is_word c = true -> is_space c = false) ->
  DefNames prev s names -> names = findall_from def_pattern 0 prev s.
Proof.
  intros Htable H.
  induction H as [prev s Hnone | prev pre w name post names Hpre Hhead _ IH].
  - symmetry. apply findall_from_search_None.
    destruct (search_from def_pattern prev s) eqn:Hs; [|reflexivity].
    exfalso. assert (Hsome : is_Some (search_from def_pattern prev s)) by eauto.
    apply search_from_spec in Hsome as (pre & segs & post & -> & Hm).
    exact (Hnone _ _ _ _ eq_refl (def_pattern_head _ _ Hm)).
  - rewrite findall_from_pass.
    + destruct (def_head_matches _ _ _ Hhead) as (segs0 & Hw0 & Hm0).
      destruct (match_here_complete _ _ _ Hm0 post) as [[segs rest] Hm].
      rewrite <- Hw0 in Hm.
      pose proof (match_here_sound _ _ _ _ _ Hm) as [Hs Hmatch].
      pose proof (def_pattern_head _ _ Hmatch) as Hhead'.
      destruct (def_head_determined _ _ _ _ _ _ _ Htable Hhead Hhead' Hs)
        as (Hw & Hname & Hpost).
      rewrite (findall_from_match _ _ _ _ _ Hm (def_head_nonempty _ _ _ Hhead')).
      rewrite (def_head_after _ (after prev pre) _ _ Hhead').
      rewrite <- Hname, <- Hpost, <- IH. reflexivity.
    + intros pre1 pre2 Hp Hne.
      destruct (match_here def_pattern (after prev pre1) (pre2 ++ w ++ post))
        as [[segs rest]|] eqn:Hm; [exfalso | reflexivity].
      apply match_here_sound in Hm as [Hs Hm].
      exact (Hpre _ _ _ _ _ Hp Hne Hs (def_pattern_head _ _ Hm)).
Qed.

(** C4.  A [summarize_code] run gives one fact, of type [functions], with
    the identifiers of the function definitions of the text in their
    order of appearance, duplicates included, no artifact, and the
    message [This file defines: ] followed by the names joined by a comma
    and a space, or by [no functions detected] when there is none. *)
Theorem summarize_code_lists_def_names req files task_id cq ce code :
  TaskRequest.capability req = lit "summarize_code" ->
  code_text req = Some code ->
  exists r names,
    run_task files task_id req cq ce = (files, Return r)
    /\ names = findall def_pattern code
    /\ DefNames None code names
    /\ ((forall c, is_word c = true -> is_space c = false) ->
        forall names', DefNames None code names' -> names' = names)
    /\ TaskResult.facts r
       = [Fact.mk (lit "functions") [(lit "names", VList (List.map VStr names))]]
    /\ TaskResult.artifacts r = []
    /\ (names <> [] ->
        TaskResult.message r
        = Some (lit "This file defines: " ++ join (lit ", ") names))
    /\ (names = [] ->
        TaskResult.message r = Some (lit "This file defines: no functions detected"))
    /\ (code = two_defs_example ->
        names = [lit "foo"; lit "bar"]
        /\ TaskResult.message r = Some (lit "This file defines: foo, bar"))
    /\ (code = lit "def f(" ++ [LF] ++ lit "def f(" ->
        names = [lit "f"; lit "f"]).
Proof.
  intros Hcap Hcode. eexists _, (findall def_pattern code).
  split; [apply run_task_summarize_code; eassumption|].
  cbn [TaskResult.facts TaskResult.artifacts TaskResult.message].
  split; [reflexivity|].
  split; [apply (findall_def_names (length code)); lia|].
  split; [intros Htable names' H; apply def_names_unique; assumption|].
  split; [reflexivity|]. split; [reflexivity|].
  split; [destruct (findall def_pattern code); [contradiction | reflexivity]|].
  split; [intros ->; reflexivity|].
  split; intros ->; vm_compute; auto.
Qed.

(** ** Further properties of the engine *)

Lemma str_eqb_false (a b : str) : a <> b -> str_eqb a b = false.
Proof.
  intros Hne. destruct (str_eqb a b) eqn:E; [|reflexivity].
  apply str_eqb_eq in E. contradiction.
Qed.

Lemma not_registered_neither req :
  ~ registered req ->
  str_eqb (TaskRequest.capability req) (lit "code_quality") = false
  /\ str_eqb (TaskRequest.capability req) (lit "summarize_code") = false.
Proof.
  intros Hno. split; apply str_eqb_false; intros Heq; apply Hno;
    unfold registered; rewrite Heq; simpl; auto.
Qed.

(** [run_task] leaves the files as they are or writes the one report. *)
Lemma run_task_files files task_id req cq ce files' o :
  run_task files task_id req cq ce = (files', o) ->
  files' = files
  \/ (TaskRequest.capability req = lit "code_quality"
      /\ exists content,
           files' = <[artifact_path (task_id ++ lit "_lint_report.json") := content]>
                      files).
Proof.
  run_task_by_cases files task_id req cq ce; rewrite Hrun;
    intros [= <- <-]; eauto.
Qed.

(** X1.  Under a registered capability, a [code] input that is there and
    is not text makes [run_task] raise before it writes anything:
    [AttributeError] from [code.splitlines()] under [code_quality],
    [TypeError] from [re.findall] under [summarize_code]. *)
Theorem non_text_code_raises files task_id req cq ce :
  code_text req = None ->
  (TaskRequest.capability req = lit "code_quality" ->
   run_task files task_id req cq ce = (files, Raise AttributeError))
  /\ (TaskRequest.capability req = lit "summarize_code" ->
      run_task files task_id req cq ce = (files, Raise TypeError)).
Proof.
  intros Hnone. split; intros Hc;
    run_task_by_cases files task_id req cq ce; try congruence;
    try (rewrite Hc in Hcap; discriminate Hcap);
    exfalso; apply Hcap; unfold registered; rewrite Hc; simpl; auto.
Qed.

Lemma poll_unfinished (fuel : nat) st task_id rec :
  TASKS st !! task_id = Some rec ->
  renders (to_json rec) = true ->
  TaskStatus.status rec <> lit "SUCCEEDED" ->
  poll fuel st task_id = (st, None).
Proof.
  intros Hrec Hrenders Hstatus. induction fuel as [|fuel IH]; [reflexivity|].
  simpl. unfold task_status. rewrite Hrec, Hrenders.
  rewrite (str_eqb_false _ _ Hstatus). exact IH.
Qed.

(** X2.  A submit under a registered capability whose [code] input is not
    text is answered 500 after the [SCHEDULED] record has been written:
    the record stays in the table, without a result, the files are
    untouched, a poll of the id is answered with that record, and a
    client that polls for [SUCCEEDED] never gets it. *)
Theorem failed_submit_leaves_scheduled_record st req uuid cq ce :
  registered req -> code_text req = None ->
  let task_id := lit "t-" ++ firstn 8 (hex uuid) in
  let st' := fst (create_task st req uuid cq ce) in
  status_code_of (snd (create_task st req uuid cq ce)) = 500
  /\ FILES st' = FILES st
  /\ TASKS st' = <[task_id := TaskStatus.mk task_id (lit "SCHEDULED") None]> (TASKS st)
  /\ task_status st' task_id
     = (st', Return (TaskStatus.mk task_id (lit "SCHEDULED") None))
  /\ forall fuel, poll fuel st' task_id = (st', None).
Proof.
  intros Hreg Hcode task_id st'. subst st'.
  rewrite (create_task_registered _ _ _ _ _ Hreg). fold task_id.
  destruct (run_task_code_not_text (FILES st) task_id req cq ce Hreg Hcode)
    as (e & -> & He).
  cbn [fst snd TASKS FILES].
  assert (Hrec : <[task_id := TaskStatus.mk task_id (lit "SCHEDULED") None]> (TASKS st)
                 !! task_id = Some (TaskStatus.mk task_id (lit "SCHEDULED") None))
    by apply lookup_insert_eq.
  split; [destruct He as [-> | ->]; reflexivity|].
  split; [reflexivity|]. split; [reflexivity|]. split.
  - unfold task_status. cbn [TASKS]. rewrite Hrec. reflexivity.
  - intros fuel. eapply poll_unfinished;
      [exact Hrec | apply renders_scheduled | discriminate].
Qed.

(** X3.  A capability that is not in the registry, when it reaches
    [run_task], neither raises nor fails: whatever the inputs, the result
    is [SUCCEEDED] with the message [Unknown capability] and no fact,
    artifact or source, and no file is written. *)
Theorem unregistered_capability_falls_through files task_id req cq ce :
  ~ registered req ->
  exists r,
    run_task files task_id req cq ce = (files, Return r)
    /\ TaskResult.status r = lit "SUCCEEDED"
    /\ TaskResult.capability r = TaskRequest.capability req
    /\ TaskResult.facts r = []
    /\ TaskResult.artifacts r = []
    /\ TaskResult.sources r = []
    /\ TaskResult.message r = Some (lit "Unknown capability").
Proof.
  intros Hno. destruct (not_registered_neither _ Hno) as [E1 E2].
  unfold run_task. rewrite E1, E2. eexists. split; [reflexivity|].
  repeat split.
Qed.

(** X4.  [create_task] answers 400 exactly for the capabilities that
    [GET /capabilities] does not list; the list has the two names, without
    repetition, and asking for it changes nothing. *)
Theorem bad_request_iff_capability_unlisted st req uuid cq ce :
  exists caps,
    capabilities st = (st, Return caps)
    /\ List.map Capability.name caps = [lit "code_quality"; lit "summarize_code"]
    /\ NoDup (List.map Capability.name caps)
    /\ (status_code_of (snd (create_task st req uuid cq ce)) = 400
        <-> ~ In (TaskRequest.capability req) (List.map Capability.name caps)).
Proof.
  exists CAPABILITIES. split; [reflexivity|]. split; [reflexivity|]. split.
  { apply NoDup_cons. split.
    - intros H. apply list_elem_of_In in H. destruct H as [H | []]. discriminate H.
    - apply NoDup_singleton. }
  fold (registered req). split.
  - intros H400 Hreg. revert H400.
    rewrite (create_task_registered _ _ _ _ _ Hreg).
    destruct (run_task _ _ _ _ _) as [files [r | e]] eqn:Hrun;
      cbn [snd status_code_of].
    + destruct (renders _); discriminate.
    + apply run_task_raises in Hrun
        as (_ & [(_ & _ & [-> | ->]) | (_ & _ & _ & _ & ->)]); discriminate.
  - intros Hno. rewrite (create_task_unknown _ _ _ _ _ Hno). reflexivity.
Qed.

(** X5.  The facts and the message of a run depend on the capability and
    on the text of the code only: not on the task id, the clock, the files
    already there, the other fields of the request or the file name, as
    long as the report can be written under it. *)
Theorem facts_depend_on_capability_and_code
    files files' task_id task_id' req req' cq cq' ce ce' code :
  TaskRequest.capability req = TaskRequest.capability req' ->
  code_text req = Some code -> code_text req' = Some code ->
  filename_encodable req -> filename_encodable req' ->
  exists out out' r r',
    run_task files task_id req cq ce = (out, Return r)
    /\ run_task files' task_id' req' cq' ce' = (out', Return r')
    /\ TaskResult.facts r = TaskResult.facts r'
    /\ TaskResult.message r = TaskResult.message r'.
Proof.
  intros Hcap Hcode Hcode' Hfile Hfile'.
  destruct (str_eqb (TaskRequest.capability req) (lit "code_quality")) eqn:E1.
  { apply str_eqb_eq in E1.
    destruct (run_task_code_quality files task_id req cq ce code E1 Hcode Hfile)
      as (content & _ & ->).
    rewrite Hcap in E1.
    destruct (run_task_code_quality files' task_id' req' cq' ce' code E1 Hcode' Hfile')
      as (content' & _ & ->).
    eexists _, _, _, _. repeat split. }
  destruct (str_eqb (TaskRequest.capability req) (lit "summarize_code")) eqn:E2.
  { apply str_eqb_eq in E2.
    rewrite (run_task_summarize_code files task_id req cq ce code E2 Hcode).
    rewrite Hcap in E2.
    rewrite (run_task_summarize_code files' task_id' req' cq' ce' code E2 Hcode').
    eexists _, _, _, _. repeat split. }
  unfold run_task. rewrite <- Hcap, E1, E2.
  eexists _, _, _, _. repeat split.
Qed.

(** X6.  A submit changes no file but the report of its own task: every
    other path reads as before, and a submit that is not [code_quality]
    leaves all the files as they were. *)
Theorem submit_writes_its_own_report_only st req uuid cq ce (p : str) :
  p <> artifact_path ((lit "t-" ++ firstn 8 (hex uuid)) ++ lit "_lint_report.json") ->
  FILES (fst (create_task st req uuid cq ce)) !! p = FILES st !! p
  /\ (TaskRequest.capability req <> lit "code_quality" ->
      FILES (fst (create_task st req uuid cq ce)) = FILES st).
Proof.
  intros Hp. unfold create_task.
  destruct (existsb _ _); cbn [negb]; [|auto].
  destruct (run_task _ _ _ _ _) as [files [r | e]] eqn:Hrun; cbn [fst FILES];
    (apply run_task_files in Hrun as [-> | (Hcap & content & ->)];
     [ auto
     | split; [|contradiction]; cbn [FILES mark_scheduled];
       rewrite lookup_insert_ne by congruence; reflexivity ]).
Qed.

Lemma os_path_join_inj (a b b' : str) :
  starts_with (lit "/") b = false -> starts_with (lit "/") b' = false ->
  os_path_join a b = os_path_join a b' -> b = b'.
Proof.
  intros Hb Hb'. unfold os_path_join. rewrite Hb, Hb'.
  destruct (last a) as [c|]; [|auto].
  destruct (c =? 47)%N; intros H.
  - apply app_inv_head in H. exact H.
  - apply app_inv_head in H. injection H as H. exact H.
Qed.

(** X7.  Tasks with different ids have different report paths, when
    neither id starts with a slash, as the ids of [create_task] never
    do. *)
Theorem distinct_task_ids_have_distinct_reports (task_id task_id' : str) :
  starts_with (lit "/") task_id = false ->
  starts_with (lit "/") task_id' = false ->
  task_id <> task_id' ->
  artifact_path (task_id ++ lit "_lint_report.json")
  <> artifact_path (task_id' ++ lit "_lint_report.json").
Proof.
  intros H1 H2 Hne Heq. apply Hne. unfold artifact_path in Heq.
  apply os_path_join_inj in Heq.
  - apply app_inv_tail in Heq. exact Heq.
  - destruct task_id; [reflexivity | exact H1].
  - destruct task_id'; [reflexivity | exact H2].
Qed.

(** *** The task table *)

(** What a registered capability returns carries its name and a message
    of its own. *)
Lemma run_task_registered_result files task_id req cq ce files' r :
  registered req ->
  run_task files task_id req cq ce = (files', Return r) ->
  TaskResult.capability r = TaskRequest.capability req
  /\ TaskResult.message r <> Some (lit "Unknown capability").
Proof.
  intros Hreg.
  run_task_by_cases files task_id req cq ce; rewrite Hrun; intros Heq;
    try discriminate Heq; try contradiction; injection Heq as <- <-;
    cbn [TaskResult.capability TaskResult.message];
    (split; [symmetry; exact Hcap|]).
  - intros [= H]. apply (f_equal (@length N)) in H.
    rewrite length_app in H. vm_compute (length (lit _)) in H. lia.
  - intros [=].
Qed.

Lemma create_task_keeps_records_well_formed st req uuid cq ce :
  (forall k rec, TASKS st !! k = Some rec -> well_formed_record k rec) ->
  forall k rec,
    TASKS (fst (create_task st req uuid cq ce)) !! k = Some rec ->
    well_formed_record k rec.
Proof.
  intros Hwf k rec. unfold create_task.
  destruct (existsb _ _) eqn:Hreg; cbn [negb]; [|apply Hwf].
  apply registered_existsb in Hreg.
  set (task_id := lit "t-" ++ firstn 8 (hex uuid)).
  assert (Hid : exists u, task_id = lit "t-" ++ u /\ length u <= 8).
  { exists (firstn 8 (hex uuid)). split; [reflexivity | apply firstn_le_length]. }
  destruct (run_task _ _ _ _ _) as [files [r | e]] eqn:Hrun;
    cbn [fst TASKS mark_scheduled].
  - destruct (decide (task_id = k)) as [<- | Hne].
    + rewrite lookup_insert_eq. intros [= <-].
      pose proof (run_task_result _ _ _ _ _ _ _ Hrun) as (H1 & H2 & H3).
      pose proof (run_task_registered_result _ _ _ _ _ _ _ Hreg Hrun) as (H4 & H5).
      split; [reflexivity|]. split; [exact Hid|]. right.
      split; [reflexivity|]. exists r. cbn [TaskStatus.result].
      repeat split; auto. rewrite H4. exact Hreg.
    + rewrite !lookup_insert_ne by exact Hne. apply Hwf.
  - destruct (decide (task_id = k)) as [<- | Hne].
    + rewrite lookup_insert_eq. intros [= <-].
      split; [reflexivity|]. split; [exact Hid|]. left. auto.
    + rewrite lookup_insert_ne by exact Hne. apply Hwf.
Qed.

Lemma serve_all_keeps_records_well_formed st calls :
  (forall k rec, TASKS st !! k = Some rec -> well_formed_record k rec) ->
  forall k rec,
    TASKS (serve_all st calls) !! k = Some rec -> well_formed_record k rec.
Proof.
  revert st. induction calls as [|c calls IH]; intros st Hwf; [exact Hwf|].
  unfold serve_all in *. simpl. apply IH.
  destruct c as [| req uuid cq ce | task_id |]; cbn [serve].
  - exact Hwf.
  - apply create_task_keeps_records_well_formed, Hwf.
  - unfold task_status. destruct (TASKS st !! task_id); exact Hwf.
  - exact Hwf.
Qed.

(** X8.  In a process started with an empty table, after any calls, every
    record of the table is stored under its own task id, which is [t-]
    and at most eight characters; it is [SCHEDULED] without a result or
    [SUCCEEDED] with one, and then the result carries the same id, the
    status [SUCCEEDED], the stable id [run_] followed by the id and a
    registered capability, never the message of the fallback branch. *)
Theorem stored_records_are_well_formed files calls (k : str) rec :
  TASKS (serve_all (startup files) calls) !! k = Some rec ->
  well_formed_record k rec.
Proof.
  apply serve_all_keeps_records_well_formed.
  intros k' rec' H. unfold startup in H. simpl in H.
  rewrite lookup_empty in H. discriminate.
Qed.

(** X9.  The table holds one record per id.  A submit under a registered
    capability stores one record under its id and touches no other key;
    when the id is new the table grows by one, and when the id is already
    there (the same eight characters drawn again) the record that was
    there is replaced and the table keeps its size. *)
Theorem repeated_id_replaces_record st req uuid cq ce :
  registered req ->
  let task_id := lit "t-" ++ firstn 8 (hex uuid) in
  let st' := fst (create_task st req uuid cq ce) in
  exists rec,
    TASKS st' = <[task_id := rec]> (TASKS st)
    /\ TaskStatus.task_id rec = task_id
    /\ (forall old, TASKS st !! task_id = Some old ->
        size (TASKS st') = size (TASKS st))
    /\ (TASKS st !! task_id = None -> size (TASKS st') = S (size (TASKS st))).
Proof.
  intros Hreg task_id st'. subst st'. unfold create_task.
  rewrite (proj2 (registered_existsb req) Hreg). cbn [negb]. fold task_id.
  destruct (run_task _ _ _ _ _) as [files [r | e]];
    cbn [fst TASKS mark_scheduled]; rewrite ?insert_insert_eq;
    eexists; (split; [reflexivity|]); (split; [reflexivity|]); split.
  all: try (intros old Hold; apply map_size_insert_Some; eauto).
  all: intros Hnone; apply map_size_insert_None; exact Hnone.
Qed.

(** *** The facts of [code_quality] *)

Lemma line_facts_elems (start : nat) (lines : list str) f :
  In f (flat_map line_facts (enumerate start lines)) ->
  exists n m, f = lint_fact n m /\ start <= n /\ n < start + length lines
              /\ (m = TODO_FOUND \/ m = LINE_TOO_LONG).
Proof.
  clear float_renders.
  revert start. induction lines as [|x lines IH]; intros start; simpl; [tauto|].
  intros H. apply in_app_or in H as [H | H].
  - unfold line_facts in H. cbn [fst snd] in H. apply in_app_or in H.
    destruct H as [H | H];
      [destruct (contains (lit "TODO") x) | destruct (100 <? length x)];
      try (destruct H; fail); destruct H as [<- | []];
      eexists _, _; (split; [reflexivity|]); repeat split; auto; lia.
  - apply IH in H as (n & m & -> & H1 & H2 & H3).
    exists n, m. repeat split; auto; lia.
Qed.

Lemma line_facts_length (start : nat) (lines : list str) :
  length (flat_map line_facts (enumerate start lines)) <= 2 * length lines.
Proof.
  revert start. induction lines as [|x lines IH]; intros start; simpl; [lia|].
  rewrite length_app. specialize (IH (S start)).
  assert (Hx : length (line_facts (start, x)) <= 2).
  { unfold line_facts. cbn [fst snd].
    destruct (contains (lit "TODO") x), (100 <? length x); simpl; lia. }
  lia.
Qed.

Lemma line_facts_nil (start : nat) (lines : list str) :
  flat_map line_facts (enumerate start lines) = [] <->
  Forall (fun line => contains (lit "TODO") line = false
                      /\ (100 <? length line) = false) lines.
Proof.
  revert start. induction lines as [|x lines IH]; intros start; simpl.
  - split; [constructor | reflexivity].
  - split.
    + intros H. apply app_eq_nil in H as [Hx Hrest].
      apply List.Forall_cons; [|apply (IH (S start)), Hrest].
      unfold line_facts in Hx. cbn [fst snd] in Hx.
      destruct (contains (lit "TODO") x), (100 <? length x);
        try discriminate; auto.
    + intros H. inversion H as [|? ? [H1 H2] Hrest]; subst.
      unfold line_facts. cbn [fst snd]. rewrite H1, H2. simpl.
      apply (IH (S start)), Hrest.
Qed.

Lemma splitlines_from_length (n : nat) (s cur : str) :
  length s <= n ->
  length (splitlines_from cur s)
  <= length s + match cur with [] => 0 | _ => 1 end.
Proof.
  revert s cur. induction n as [|n IH]; intros s cur Hn.
  - destruct s; [|simpl in Hn; lia]. destruct cur; simpl; lia.
  - destruct s as [|c s]; [destruct cur; simpl; lia|].
    simpl in Hn. cbn [splitlines_from].
    destruct (is_linebreak c).
    + destruct s as [|c' s'].
      * simpl. lia.
      * destruct ((c =? CR)%N && (c' =? LF)%N).
        -- pose proof (IH s' [] ltac:(simpl in Hn; lia)) as H. simpl in *. lia.
        -- pose proof (IH (c' :: s') [] ltac:(lia)) as H. simpl in *. lia.
    + pose proof (IH s (c :: cur) ltac:(lia)) as H. simpl in *. lia.
Qed.

(** X10.  The facts of a [code_quality] run, which completes when the
    report can be written, are within bounds: each is a
    lint fact with one of the three messages and a line number from 1 to
    the number of lines of the text (1 for the docstring fact), there are
    at most two per line and one more, and the text has at most as many
    lines as characters. *)
Theorem lint_facts_within_bounds req files task_id cq ce code :
  TaskRequest.capability req = lit "code_quality" ->
  code_text req = Some code ->
  filename_encodable req ->
  exists files' r,
    run_task files task_id req cq ce = (files', Return r)
    /\ Forall (fun f =>
                 exists n m,
                   f = lint_fact n m /\ 1 <= n
                   /\ n <= Nat.max 1 (length (splitlines code))
                   /\ (m = TODO_FOUND \/ m = LINE_TOO_LONG \/ m = NO_DOCSTRING))
         (TaskResult.facts r)
    /\ length (TaskResult.facts r) <= 2 * length (splitlines code) + 1
    /\ length (splitlines code) <= length code.
Proof.
  clear float_renders.
  intros Hcap Hcode Hfile.
  destruct (run_task_code_quality files task_id req cq ce code Hcap Hcode Hfile)
    as (content & _ & Hrun).
  eexists _, _. split; [exact Hrun|].
  cbn [TaskResult.facts].
  assert (Hper : Forall (fun f =>
                 exists n m,
                   f = lint_fact n m /\ 1 <= n
                   /\ n <= Nat.max 1 (length (splitlines code))
                   /\ (m = TODO_FOUND \/ m = LINE_TOO_LONG \/ m = NO_DOCSTRING))
            (flat_map line_facts (enumerate 1 (splitlines code)))).
  { apply Forall_forall. intros f Hf. apply list_elem_of_In in Hf.
    apply line_facts_elems in Hf as (n & m & -> & H1 & H2 & H3).
    exists n, m. repeat split; auto; [lia | tauto]. }
  pose proof (line_facts_length 1 (splitlines code)) as Hlen.
  split; [|split].
  - destruct (lint_facts_cases code) as [[_ ->] | [_ ->]]; [exact Hper|].
    apply Forall_app. split; [exact Hper|].
    apply List.Forall_cons; [|constructor].
    exists 1, NO_DOCSTRING. repeat split; auto; lia.
  - destruct (lint_facts_cases code) as [[_ ->] | [_ ->]];
      rewrite ?length_app; cbn [length]; lia.
  - pose proof (splitlines_from_length (length code) code [] (Nat.le_refl _)) as H.
    cbv iota in H. unfold splitlines. lia.
Qed.

(** X11.  A [code_quality] run, which completes when the report can be
    written, reports nothing exactly for a clean text:
    there is no fact if and only if no line holds [TODO], no line has
    more than 100 characters and the docstring pattern is found; the
    message is then [0 potential issues found.] *)
Theorem no_issue_iff_clean req files task_id cq ce code :
  TaskRequest.capability req = lit "code_quality" ->
  code_text req = Some code ->
  filename_encodable req ->
  exists files' r,
    run_task files task_id req cq ce = (files', Return r)
    /\ (TaskResult.facts r = [] <->
        Forall (fun line => ~ has_TODO line /\ length line <= 100)
          (splitlines code)
        /\ def_with_docstring code)
    /\ (TaskResult.facts r = [] ->
        TaskResult.message r = Some (lit "0 potential issues found.")).
Proof.
  clear float_renders.
  intros Hcap Hcode Hfile.
  destruct (run_task_code_quality files task_id req cq ce code Hcap Hcode Hfile)
    as (content & _ & Hrun).
  eexists _, _. split; [exact Hrun|].
  cbn [TaskResult.facts TaskResult.message].
  assert (Hclean : Forall (fun line => ~ has_TODO line /\ length line <= 100)
                     (splitlines code)
                   <-> flat_map line_facts (enumerate 1 (splitlines code)) = []).
  { rewrite line_facts_nil.
    split; apply List.Forall_impl; intros line [H1 H2]; split.
    - destruct (contains (lit "TODO") line) eqn:E; [|reflexivity].
      apply contains_spec in E. contradiction.
    - apply Nat.ltb_ge. exact H2.
    - intros H. apply contains_spec in H. congruence.
    - apply Nat.ltb_ge. exact H2. }
  split.
  - rewrite Hclean.
    destruct (lint_facts_cases code) as [[Hdoc ->] | [Hno ->]].
    + tauto.
    + split; [intros H; apply app_eq_nil in H as [_ H]; discriminate | tauto].
  - intros H. apply map_eq_nil in H. rewrite H. reflexivity.
Qed.

(** *** The names of [summarize_code] *)

Lemma def_names_in_text prev (s : str) names :
  DefNames prev s names ->
  Forall (fun name =>
            name <> [] /\ all_in is_word name
            /\ exists a b, s = a ++ name ++ lit "(" ++ b) names.
Proof.
  induction 1 as [prev s _ | prev pre w name post names _ Hhead _ IH].
  - constructor.
  - destruct Hhead as (_ & ws & ws' & -> & _ & _ & _ & Hne & Hname).
    apply List.Forall_cons.
    + split; [exact Hne|]. split; [exact Hname|].
      exists (pre ++ ws ++ lit "def" ++ ws'), post.
      repeat rewrite <- app_assoc. reflexivity.
    + eapply List.Forall_impl; [|exact IH].
      intros n (H1 & H2 & a & b & ->). split; [exact H1|]. split; [exact H2|].
      exists (pre ++ (ws ++ lit "def" ++ ws' ++ name ++ lit "(") ++ a), b.
      repeat rewrite <- app_assoc. reflexivity.
Qed.

(** X12.  Every name that [summarize_code] reports is an identifier of
    the text: it is not empty, it is made of word characters only, and it
    stands in the text right before an opening parenthesis.  No name is
    reported exactly when no line of the text starts a function
    definition. *)
Theorem reported_names_are_identifiers req files task_id cq ce code :
  TaskRequest.capability req = lit "summarize_code" ->
  code_text req = Some code ->
  exists r names,
    run_task files task_id req cq ce = (files, Return r)
    /\ TaskResult.facts r
       = [Fact.mk (lit "functions") [(lit "names", VList (List.map VStr names))]]
    /\ Forall (fun name =>
                 name <> [] /\ all_in is_word name
                 /\ exists a b, code = a ++ name ++ lit "(" ++ b) names
    /\ (names = [] <-> no_def_head None code).
Proof.
  intros Hcap Hcode. eexists _, (findall def_pattern code).
  split; [apply run_task_summarize_code; eassumption|].
  cbn [TaskResult.facts]. split; [reflexivity|].
  pose proof (findall_def_names (length code) code None (Nat.le_refl _)) as Hnames.
  fold (findall def_pattern code) in Hnames.
  split; [apply (def_names_in_text None), Hnames|].
  split.
  - intros Hnil. rewrite Hnil in Hnames. inversion Hnames; subst. assumption.
  - intros Hno. destruct (findall def_pattern code) as [|name names] eqn:E;
      [reflexivity | exfalso].
    inversion Hnames as [| prev pre w name' post names' _ Hhead _ Hs]; subst.
    exact (Hno _ _ _ _ eq_refl Hhead).
Qed.

(** *** Line endings *)

Lemma every_newline_after_cr_spec prev (s : str) :
  every_newline_after_cr prev s = true ->
  forall a b, s = a ++ LF :: b -> after prev a = Some CR.
Proof.
  revert prev. induction s as [|c s IH]; intros prev H a b Hs.
  - destruct a; discriminate.
  - simpl in H. apply andb_true_iff in H as [Hc Hrest].
    destruct a as [|x a].
    + simpl in Hs. injection Hs as -> ->. rewrite N.eqb_refl in Hc.
      destruct prev as [p|]; [|discriminate].
      apply N.eqb_eq in Hc. subst p. reflexivity.
    + simpl in Hs. injection Hs as -> ->. rewrite after_cons.
      exact (IH _ Hrest _ _ eq_refl).
Qed.

(** X13.  On a text with CRLF line endings the docstring pattern is never
    found, since it wants the newline right after the colon of the [def]
    line: a [code_quality] run on a text in which every newline follows a
    carriage return, when the report can be written, always emits the
    docstring fact, whatever docstrings the functions have. *)
Theorem crlf_text_always_gets_docstring_fact req files task_id cq ce code :
  TaskRequest.capability req = lit "code_quality" ->
  code_text req = Some code ->
  filename_encodable req ->
  every_newline_after_cr None code = true ->
  exists files' r,
    run_task files task_id req cq ce = (files', Return r)
    /\ ~ def_with_docstring code
    /\ search docstring_pattern code = None
    /\ TaskResult.facts r
       = flat_map line_facts (enumerate 1 (splitlines code))
         ++ [lint_fact 1 NO_DOCSTRING].
Proof.
  intros Hcap Hcode Hfile Hcrlf.
  assert (Hno : ~ def_with_docstring code).
  { intros (pre & ws & ws' & name & args & gap & post & Hs & _).
    pose proof (every_newline_after_cr_spec None code Hcrlf
                  ((pre ++ ws ++ lit "def" ++ ws' ++ name ++ lit "(" ++ args)
                   ++ lit "):")
                  (gap ++ TRIPLE_QUOTE ++ post)) as H.
    rewrite after_app in H.
    assert (Hlast : Some 58%N = Some CR); [|discriminate Hlast].
    apply H. rewrite Hs. repeat rewrite <- app_assoc. reflexivity. }
  destruct (run_task_code_quality files task_id req cq ce code Hcap Hcode Hfile)
    as (content & _ & Hrun).
  eexists _, _. split; [exact Hrun|].
  cbn [TaskResult.facts]. split; [exact Hno|]. split.
  - destruct (search docstring_pattern code) eqn:E; [|reflexivity].
    exfalso. apply Hno, docstring_pattern_occurs, search_spec. eauto.
  - destruct (lint_facts_cases code) as [[Hdoc _] | [_ ->]];
      [contradiction | reflexivity].
Qed.

(** X14.  The per-line checks go line by line and do not see the line
    terminator: the facts of a text that starts with the line [a], ended
    by LF or by CRLF alike, are the facts of [a] as the first line
    followed by the facts of the rest of the text, numbered from the next
    line on. *)
Theorem first_line_then_the_rest (a b : str) :
  unbroken a ->
  flat_map line_facts (enumerate 1 (splitlines (a ++ [LF] ++ b)))
  = line_facts (1, a) ++ flat_map line_facts (enumerate 2 (splitlines b))
  /\ flat_map line_facts (enumerate 1 (splitlines (a ++ [CR; LF] ++ b)))
     = line_facts (1, a) ++ flat_map line_facts (enumerate 2 (splitlines b)).
Proof.
  intros Ha. unfold splitlines at 1 3. simpl app.
  rewrite (splitlines_from_lf [] a b Ha), (splitlines_from_crlf [] a b Ha).
  split; reflexivity.
Qed.

(** *** The client *)

Lemma basename_from_spec cur (p : str) :
  ~ In 47%N cur ->
  exists dir,
    rev cur ++ p = dir ++ basename_from cur p
    /\ (dir = [] \/ last dir = Some 47%N)
    /\ ~ In 47%N (basename_from cur p).
Proof.
  revert cur. induction p as [|c p IH]; intros cur Hcur.
  - exists []. simpl. rewrite app_nil_r. split; [reflexivity|].
    split; [auto|]. intros H. apply in_rev in H. contradiction.
  - simpl. destruct (N.eqb_spec c 47) as [-> | Hc].
    + destruct (IH [] ltac:(intros [])) as (dir & Hp & Hdir & Hno).
      simpl in Hp. exists (rev cur ++ 47%N :: dir).
      split; [rewrite <- app_assoc; simpl; do 2 f_equal; exact Hp|].
      split; [|exact Hno]. right.
      change (47%N :: dir) with ([47%N] ++ dir). rewrite !last_app.
      destruct Hdir as [-> | ->]; reflexivity.
    + destruct (IH (c :: cur)) as (dir & Hp & Hdir & Hno).
      { intros [H | H]; [congruence | contradiction]. }
      exists dir. simpl in Hp. rewrite <- app_assoc in Hp. auto.
Qed.

(** X15.  The file name that the agent sends is the last component of the
    path it was given: the path is a directory part, empty or ended by a
    slash, followed by that name, and the name has no slash in it. *)
Theorem basename_is_last_component (p : str) :
  exists dir,
    p = dir ++ os_path_basename p
    /\ (dir = [] \/ last dir = Some 47%N)
    /\ ~ In 47%N (os_path_basename p).
Proof.
  destruct (basename_from_spec [] p) as (dir & Hp & H); [intros []|].
  exists dir. auto.
Qed.

Lemma in_choices_existsb capability :
  existsb (str_eqb capability) CHOICES = true <-> In capability CHOICES.
Proof.
  rewrite existsb_exists. split.
  - intros (x & Hin & Heq). apply str_eqb_eq in Heq as ->. exact Hin.
  - intros Hin. exists capability. split; [exact Hin | apply str_eqb_refl].
Qed.

Lemma encodable_os_path_join (a b : str) :
  encodable a = true -> encodable b = true ->
  encodable (os_path_join a b) = true.
Proof.
  intros Ha Hb. unfold os_path_join.
  destruct (starts_with _ b); [exact Hb|].
  destruct (last a) as [c|]; [|exact Hb].
  destruct (c =? 47)%N; rewrite ?encodable_app, Ha, Hb; reflexivity.
Qed.

Lemma encodable_part (a b c : str) :
  encodable (a ++ b ++ c) = true -> encodable b = true.
Proof.
  rewrite !encodable_app. intros H.
  apply andb_true_iff in H as [_ H]. apply andb_true_iff in H as [H _]. exact H.
Qed.

(** The names that [summarize_code] finds in a text that can be encoded
    can be encoded. *)
Lemma encodable_names (text : str) :
  encodable text = true ->
  forallb encodable (findall def_pattern text) = true.
Proof.
  intros Htext.
  pose proof (findall_def_names (length text) text None (Nat.le_refl _)) as Hnames.
  fold (findall def_pattern text) in Hnames.
  apply def_names_in_text in Hnames.
  apply forallb_forall. apply List.Forall_forall.
  eapply List.Forall_impl; [|exact Hnames].
  intros name (_ & _ & a & b & Heq). rewrite Heq in Htext.
  exact (encodable_part _ _ _ Htext).
Qed.

Lemma renders_lint_facts code :
  forallb (value_encodable float_renders)
    (List.map to_json (List.map (Fact.mk (lit "lint_issue")) (lint code))) = true.
Proof.
  apply forallb_forall. apply List.Forall_forall.
  rewrite List.map_map. apply Forall_map. apply lint_issues.
  intros n m [-> | [-> | ->]]; reflexivity.
Qed.

(** The result of a registered capability can be rendered, in a plain
    environment, when the task id, the code and the file name can be
    encoded. *)
Lemma renders_result files task_id req cq ce files' r (text : str) :
  plain_environment cq ce -> registered req ->
  run_task files task_id req cq ce = (files', Return r) ->
  encodable task_id = true ->
  code_text req = Some text -> encodable text = true ->
  renders (inputs_get req (lit "filename") (VStr (lit "unknown.py"))) = true ->
  renders (to_json r) = true.
Proof.
  intros (Hdir & Hsha & Hcq & Hce) Hreg Hr Hid Htext Hok Hname.
  assert (Hrun_id : encodable (lit "run_" ++ task_id) = true)
    by (rewrite encodable_app, Hid; reflexivity).
  assert (Hfile_id : encodable (task_id ++ lit "_lint_report.json") = true)
    by (rewrite encodable_app, Hid; reflexivity).
  unfold renders in Hname.
  run_task_by_cases files task_id req cq ce; rewrite Hrun in Hr;
    try discriminate Hr; try contradiction;
    assert (Hr' := f_equal snd Hr); cbn [snd] in Hr';
    assert (Heq : r = match @Return TaskResult.t r with Return x => x | Raise _ => r end)
      by reflexivity;
    rewrite <- Hr' in Heq; rewrite Heq; clear Heq Hr' Hr.
  - unfold renders, to_json, result_json.
    cbn [TaskResult.task_id TaskResult.status TaskResult.capability
         TaskResult.facts TaskResult.artifacts TaskResult.sources
         TaskResult.timestamps TaskResult.stable_id TaskResult.message
         value_encodable forallb fst snd option_json].
    rewrite renders_lint_facts, Hid, Hrun_id.
    unfold to_json, artifact_json, texts_json, in_memory_source, artifact_path.
    cbn [List.map value_encodable forallb fst snd option_json
         Artifact.name Artifact.path Artifact.sha256].
    rewrite Hname, Hsha, Hfile_id, (encodable_os_path_join _ _ Hdir Hfile_id).
    rewrite !encodable_app, Hcq, Hce, encodable_of_nat.
    reflexivity.
  - unfold renders, to_json, result_json.
    cbn [TaskResult.task_id TaskResult.status TaskResult.capability
         TaskResult.facts TaskResult.artifacts TaskResult.sources
         TaskResult.timestamps TaskResult.stable_id TaskResult.message
         value_encodable forallb fst snd option_json].
    rewrite Hid, Hrun_id.
    unfold to_json, fact_json, texts_json, in_memory_source.
    cbn [List.map value_encodable forallb fst snd option_json Fact.type Fact.data].
    assert (Hnames : forallb encodable (findall def_pattern code) = true).
    { apply encodable_names. congruence. }
    rewrite Hname. rewrite !encodable_app, Hcq, Hce.
    rewrite (forallb_map_ext VStr _ encodable)
      by (apply List.Forall_forall; reflexivity).
    rewrite Hnames.
    replace (encodable match findall def_pattern code with
                       | [] => lit "no functions detected"
                       | _ :: _ => join (lit ", ") (findall def_pattern code)
                       end) with true.
    + reflexivity.
    + destruct (findall def_pattern code) eqn:E; [reflexivity|].
      rewrite encodable_join by reflexivity. symmetry. exact Hnames.
Qed.

Lemma renders_succeeded task_id r :
  renders (to_json (TaskStatus.mk task_id (lit "SUCCEEDED") (Some r)))
  = encodable task_id && renders (to_json r).
Proof.
  unfold renders at 1. unfold to_json at 1. unfold status_json.
  cbn [value_encodable forallb fst snd TaskStatus.task_id TaskStatus.status
       TaskStatus.result].
  change (encodable (lit "task_id")) with true.
  change (encodable (lit "status")) with true.
  change (encodable (lit "SUCCEEDED")) with true.
  change (encodable (lit "result")) with true.
  cbn [andb]. rewrite andb_true_r. reflexivity.
Qed.

Lemma run_task_sources files task_id req cq ce files' r :
  registered req ->
  run_task files task_id req cq ce = (files', Return r) ->
  TaskResult.sources r
  = [in_memory_source (inputs_get req (lit "filename") (VStr (lit "unknown.py")))].
Proof.
  intros Hreg.
  run_task_by_cases files task_id req cq ce; rewrite Hrun;
    intros Heq; try discriminate Heq; try contradiction;
    injection Heq as _ <-; reflexivity.
Qed.

(** The request that [main] posts. *)
Lemma agent_request capability (code file : str) :
  let req := request capability (code_inputs code (os_path_basename file)) in
  code_text req = Some code
  /\ inputs_get req (lit "filename") (VStr (lit "unknown.py"))
     = VStr (os_path_basename file).
Proof.
  unfold code_text, inputs_get, request, code_inputs. cbn [TaskRequest.inputs].
  rewrite lookup_insert_eq. split; [reflexivity|].
  rewrite lookup_insert_ne by discriminate. rewrite lookup_insert_eq.
  reflexivity.
Qed.

(** What [main] does once its arguments are accepted and its file is
    read: it submits; a submit that fails is answered 500; otherwise it
    polls, and a record that cannot be rendered is answered 500, whose
    body is not JSON. *)
Lemma main_submits disk st capability file uuid cq ce (fuel : nat) code :
  In capability CHOICES -> disk !! file = Some code ->
  let req := request capability (code_inputs code (os_path_basename file)) in
  let task_id := lit "t-" ++ firstn 8 (hex uuid) in
  let st' := fst (create_task st req uuid cq ce) in
  main disk st capability file uuid cq ce fuel
  = match run_task (FILES st) task_id req cq ce with
    | (_, Raise _) => (st', [], Raises (HTTPError 500))
    | (_, Return r) =>
        match fuel with
        | O => (st', [Submitted task_id], StillPolling)
        | S _ =>
            if renders (to_json (TaskStatus.mk task_id (lit "SUCCEEDED") (Some r)))
            then (st', [Submitted task_id; Result (Some r)], Exits)
            else (st', [Submitted task_id], Raises JSONDecodeError)
        end
    end.
Proof.
  intros Hin Hfile req task_id st'. subst st'.
  assert (Hreg : registered req) by exact Hin.
  unfold main. rewrite (proj2 (in_choices_existsb capability) Hin), Hfile.
  cbn [negb].
  change (TaskRequest.mk capability _ None (Some (lit "safe-readonly")) None)
    with req.
  rewrite (create_task_registered _ _ _ _ _ Hreg). fold task_id.
  destruct (run_task (FILES st) task_id req cq ce) as [files [r | e]] eqn:Hrun.
  - cbn [status_code_of fst]. unfold task_id at 1. rewrite renders_submit_body.
    cbn [Nat.leb]. fold task_id.
    change (dict_get _ (lit "task_id")) with (Some (VStr task_id)). cbv iota.
    destruct fuel as [|fuel]; [reflexivity|].
    cbn [poll]. unfold task_status. cbn [TASKS]. rewrite lookup_insert_eq.
    destruct (renders _); reflexivity.
  - apply run_task_raises in Hrun
      as (_ & [(_ & _ & [-> | ->]) | (_ & _ & _ & _ & ->)]); reflexivity.
Qed.



End Server.

(** ** The theorems at work on the examples *)

(** C1, the claim as the specification has it, fails on
    [blank_line_example]: the text is a [def] line, a blank line and the
    line of the docstring, the docstring pattern is found in it, and the
    run emits no fact at all, so no docstring fact. *)
Lemma blank_line_example_emits_no_docstring_fact :
  splitlines blank_line_example
  = [lit "def f():"; lit ""; lit "    " ++ TRIPLE_QUOTE ++ lit "doc" ++ TRIPLE_QUOTE]
  /\ is_Some (search (docstring_pattern ascii_table) blank_line_example)
  /\ exists r,
       snd (run_task ascii_table example_digest example_dir ∅ (lit "t-0a1b2c3d")
              (request (lit "code_quality")
                 (code_inputs blank_line_example (lit "f.py")))
              example_queued example_ended)
       = Return r
       /\ TaskResult.facts r = []
       /\ ~ In (lint_fact 1 NO_DOCSTRING) (TaskResult.facts r)
       /\ TaskResult.message r = Some (lit "0 potential issues found.").
Proof.
  split; [vm_compute; reflexivity|].
  split; [vm_compute; eauto|].
  eexists. split; [vm_compute; reflexivity|].
  split; [reflexivity|]. split; [intros []|]. reflexivity.
Defined.

Lemma blank_lines_witness :
  filename_encodable
    (request (lit "code_quality") (code_inputs blank_line_example (lit "f.py")))
  /\ exists files' r,
       run_task ascii_table example_digest example_dir ∅ (lit "t-0a1b2c3d")
         (request (lit "code_quality") (code_inputs blank_line_example (lit "f.py")))
         example_queued example_ended
       = (files', Return r)
       /\ TaskResult.facts r = [].
Proof.
  split; [vm_compute; reflexivity|].
  destruct (blank_lines_before_docstring_do_not_warn
              ascii_table example_digest example_dir (request (lit "code_quality")
                 (code_inputs blank_line_example (lit "f.py")))
              ∅ (lit "t-0a1b2c3d") example_queued example_ended
              [] [] (lit " ") (lit "f") [] ([LF] ++ lit "    ")
              (lit "doc" ++ TRIPLE_QUOTE ++ [LF]))
    as (files' & r & Hrun & _ & Hfacts & _).
  - reflexivity.
  - vm_compute. reflexivity.
  - reflexivity.
  - reflexivity.
  - discriminate.
  - reflexivity.
  - discriminate.
  - reflexivity.
  - reflexivity.
  - reflexivity.
  - left. reflexivity.
  - vm_compute. reflexivity.
  - exists files', r. split; [exact Hrun|]. rewrite Hfacts. vm_compute. reflexivity.
Defined.

Lemma docstring_fact_witness :
  code_text example_request = Some todo_example
  /\ filename_encodable example_request
  /\ exists files' r extra,
       run_task ascii_table example_digest example_dir ∅ (lit "t-0a1b2c3d")
         example_request example_queued example_ended
       = (files', Return r)
       /\ TaskResult.facts r
          = flat_map line_facts (enumerate 1 (splitlines todo_example)) ++ extra
       /\ extra = [lint_fact 1 NO_DOCSTRING].
Proof.
  split; [vm_compute; reflexivity|]. split; [vm_compute; reflexivity|].
  destruct (docstring_fact_iff_pattern_absent
              ascii_table example_digest example_dir
              example_request ∅ (lit "t-0a1b2c3d") example_queued example_ended
              todo_example)
    as (files' & r & extra & Hrun & Hfacts & _ & _ & _ & _ & Hnodef & _).
  - reflexivity.
  - vm_compute. reflexivity.
  - vm_compute. reflexivity.
  - exists files', r, extra. split; [exact Hrun|]. split; [exact Hfacts|].
    apply Hnodef. intros (a & b & Hab).
    assert (H : contains (lit "def") todo_example = true)
      by (apply contains_spec; eauto).
    vm_compute in H. discriminate.
Defined.

Lemma one_fact_per_line_witness :
  code_text (request (lit "code_quality") (code_inputs two_lines_example (lit "demo.py")))
  = Some two_lines_example
  /\ filename_encodable
       (request (lit "code_quality") (code_inputs two_lines_example (lit "demo.py")))
  /\ Lines two_lines_example [lit "a = 1"; lit "b = 2  # TODO TODO"]
  /\ exists files' r,
       run_task ascii_table example_digest example_dir ∅ (lit "t-0a1b2c3d")
         (request (lit "code_quality") (code_inputs two_lines_example (lit "demo.py")))
         example_queued example_ended
       = (files', Return r)
       /\ times 1 TODO_FOUND (TaskResult.facts r) = 0
       /\ times 2 TODO_FOUND (TaskResult.facts r) = 1
       /\ times 2 LINE_TOO_LONG (TaskResult.facts r) = 0.
Proof.
  assert (Hlines : Lines two_lines_example [lit "a = 1"; lit "b = 2  # TODO TODO"]).
  { apply (Lines_next (lit "a = 1") [LF] (lit "b = 2  # TODO TODO" ++ [LF]));
      [reflexivity | | ].
    - right. exists LF. split; [reflexivity|]. split; [reflexivity|].
      intros [H _]. discriminate H.
    - apply (Lines_next (lit "b = 2  # TODO TODO") [LF] []);
        [reflexivity | | constructor].
      right. exists LF. split; [reflexivity|]. split; [reflexivity|].
      intros [H _]. discriminate H. }
  split; [vm_compute; reflexivity|]. split; [vm_compute; reflexivity|].
  split; [exact Hlines|].
  destruct (one_fact_per_line_and_kind
              ascii_table example_digest example_dir (request (lit "code_quality")
                 (code_inputs two_lines_example (lit "demo.py")))
              ∅ (lit "t-0a1b2c3d") example_queued example_ended
              two_lines_example)
    as (files' & r & extra & lines & Hrun & _ & Hunique & _ & _ & _ & Hper & _).
  - reflexivity.
  - vm_compute. reflexivity.
  - vm_compute. reflexivity.
  - apply Hunique in Hlines. subst lines.
    exists files', r. split; [exact Hrun|].
    destruct (Hper 0 (lit "a = 1") eq_refl) as (_ & Hno & _).
    destruct (Hper 1 (lit "b = 2  # TODO TODO") eq_refl) as (Htodo & _ & _ & Hshort & _).
    split; [|split].
    + apply Hno. intros Hhas. apply contains_spec in Hhas.
      vm_compute in Hhas. discriminate.
    + apply Htodo. exists (lit "b = 2  # "), (lit " TODO"). reflexivity.
    + apply Hshort. vm_compute. lia.
Defined.

Lemma summarize_code_witness :
  code_text (request (lit "summarize_code") (code_inputs two_defs_example (lit "demo.py")))
  = Some two_defs_example
  /\ exists r,
       run_task ascii_table example_digest example_dir ∅ (lit "t-0a1b2c3d")
         (request (lit "summarize_code") (code_inputs two_defs_example (lit "demo.py")))
         example_queued example_ended
       = (∅, Return r)
       /\ TaskResult.message r = Some (lit "This file defines: foo, bar").
Proof.
  split; [vm_compute; reflexivity|].
  destruct (summarize_code_lists_def_names
              ascii_table example_digest example_dir
              (request (lit "summarize_code")
                 (code_inputs two_defs_example (lit "demo.py")))
              ∅ (lit "t-0a1b2c3d") example_queued example_ended
              two_defs_example)
    as (r & names & Hrun & _ & _ & _ & _ & _ & _ & _ & Hex & _).
  - reflexivity.
  - vm_compute. reflexivity.
  - exists r. split; [exact Hrun|]. apply Hex. reflexivity.
Defined.

Lemma report_counts_witness :
  code_text example_request = Some todo_example
  /\ filename_encodable example_request
  /\ exists files' r content,
       run_task ascii_table example_digest example_dir ∅ (lit "t-0a1b2c3d")
         example_request example_queued example_ended
       = (files', Return r)
       /\ files' !! lit "/srv/app/artifacts/t-0a1b2c3d_lint_report.json"
          = Some content
       /\ utf8_decode content
          = Some (report_text (quoted (lit "demo.py"))
                    [lint_fact 1 TODO_FOUND; lint_fact 1 NO_DOCSTRING])
       /\ TaskResult.message r = Some (lit "2 potential issues found.").
Proof.
  split; [vm_compute; reflexivity|]. split; [vm_compute; reflexivity|].
  destruct (report_counts_agree
              ascii_table example_digest example_dir
              example_request ∅ (lit "t-0a1b2c3d") example_queued example_ended
              todo_example)
    as (files' & r & issues & content & Hrun & Hfile & _ & Hback & _ & _ & _ & Hmsg).
  - reflexivity.
  - vm_compute. reflexivity.
  - vm_compute. reflexivity.
  - assert (Hfacts : TaskResult.facts r
                     = [lint_fact 1 TODO_FOUND; lint_fact 1 NO_DOCSTRING]).
    { apply (f_equal snd) in Hrun. cbn [snd] in Hrun.
      vm_compute in Hrun. injection Hrun as <-. reflexivity. }
    exists files', r, content. split; [exact Hrun|]. split; [exact Hfile|].
    rewrite Hback, Hmsg, Hfacts. split; reflexivity.
Defined.

Lemma artifact_digest_witness :
  code_text example_request = Some todo_example
  /\ filename_encodable example_request
  /\ exists files' r a content,
       run_task ascii_table example_digest example_dir ∅ (lit "t-0a1b2c3d")
         example_request example_queued example_ended
       = (files', Return r)
       /\ TaskResult.artifacts r = [a]
       /\ Artifact.path a = lit "/srv/app/artifacts/t-0a1b2c3d_lint_report.json"
       /\ files' !! Artifact.path a = Some content
       /\ utf8_decode content
          = Some (report_text (quoted (lit "demo.py"))
                    [lint_fact 1 TODO_FOUND; lint_fact 1 NO_DOCSTRING])
       /\ Artifact.sha256 a = Some (example_digest content).
Proof.
  split; [vm_compute; reflexivity|]. split; [vm_compute; reflexivity|].
  destruct (artifact_digest_of_written_content
              ascii_table example_digest example_dir
              example_request ∅ (lit "t-0a1b2c3d") example_queued example_ended
              todo_example)
    as (files' & r & a & content & Hrun & Hone & Hname & Hpath & _ & _
        & Hread & _ & _ & Hplain & Hsha & _).
  - reflexivity.
  - vm_compute. reflexivity.
  - vm_compute. reflexivity.
  - assert (Hfacts : TaskResult.facts r
                     = [lint_fact 1 TODO_FOUND; lint_fact 1 NO_DOCSTRING]).
    { apply (f_equal snd) in Hrun. cbn [snd] in Hrun.
      vm_compute in Hrun. injection Hrun as <-. reflexivity. }
    exists files', r, a, content. split; [exact Hrun|]. split; [exact Hone|].
    split; [rewrite Hpath, Hname; vm_compute; reflexivity|].
    split; [exact Hread|]. split; [|exact Hsha].
    rewrite (Hplain (lit "demo.py")), Hfacts; reflexivity.
Defined.

(** C7, the claim as the specification has it, fails on
    [number_code_request]: its capability is registered, and its code
    is the number 5; the submit is answered 500, not 200, and has left a
    [SCHEDULED] record in the task table. *)
Lemma registered_capability_answered_500 :
  registered number_code_request
  /\ status_code_of any_float
       (snd (create_task ascii_table example_digest example_dir (startup ∅)
               number_code_request example_uuid example_queued example_ended))
     = 500
  /\ TASKS (fst (create_task ascii_table example_digest example_dir (startup ∅)
                   number_code_request example_uuid example_queued example_ended))
       !! lit "t-0a1b2c3d"
     = Some (TaskStatus.mk (lit "t-0a1b2c3d") (lit "SCHEDULED") None).
Proof.
  split; [left; reflexivity|]. split; vm_compute; reflexivity.
Defined.

Lemma unknown_capability_witness :
  ~ registered (request (lit "translate") (code_inputs todo_example (lit "demo.py")))
  /\ create_task ascii_table example_digest example_dir (startup ∅)
       (request (lit "translate") (code_inputs todo_example (lit "demo.py")))
       example_uuid example_queued example_ended
     = (startup ∅, Raise (HTTPException 400 (lit "Unknown capability")))
  /\ registered example_request
  /\ status_code_of any_float
       (snd (create_task ascii_table example_digest example_dir (startup ∅)
               example_request example_uuid example_queued example_ended))
     = 200.
Proof.
  assert (Hno : ~ registered
                  (request (lit "translate") (code_inputs todo_example (lit "demo.py")))).
  { intros [H | [H | []]]; discriminate H. }
  assert (Hreg : registered example_request) by (left; reflexivity).
  split; [exact Hno|]. split.
  - exact (proj1 (proj1 (unknown_capability_rejected_before_any_write
                           ascii_table example_digest example_dir any_float
                           (startup ∅)
                           (request (lit "translate")
                              (code_inputs todo_example (lit "demo.py")))
                           example_uuid example_queued example_ended)
                    Hno)).
  - split; [exact Hreg|].
    destruct (proj2 (unknown_capability_rejected_before_any_write
                       ascii_table example_digest example_dir any_float
                       (startup ∅) example_request
                       example_uuid example_queued example_ended)
                Hreg) as (_ & Hiff & _).
    apply Hiff. split.
    + exists todo_example. vm_compute. reflexivity.
    + intros _. vm_compute. reflexivity.
Defined.

Lemma submit_witness :
  snd (create_task ascii_table example_digest example_dir (startup ∅)
         example_request example_uuid example_queued example_ended)
  = Return [(lit "task_id", VStr (lit "t-0a1b2c3d"));
            (lit "status", VStr (lit "SCHEDULED"))]
  /\ exists r,
       TASKS (fst (create_task ascii_table example_digest example_dir (startup ∅)
                     example_request example_uuid example_queued example_ended))
         !! lit "t-0a1b2c3d"
       = Some (TaskStatus.mk (lit "t-0a1b2c3d") (lit "SUCCEEDED") (Some r))
       /\ TaskResult.stable_id r = lit "run_t-0a1b2c3d".
Proof.
  split; [vm_compute; reflexivity|].
  destruct (submit_answers_scheduled_and_stores_succeeded
              ascii_table example_digest example_dir (startup ∅)
              (fst (create_task ascii_table example_digest example_dir (startup ∅)
                      example_request example_uuid example_queued example_ended))
              example_request example_uuid example_queued example_ended
              [(lit "task_id", VStr (lit "t-0a1b2c3d"));
               (lit "status", VStr (lit "SCHEDULED"))])
    as (_ & _ & _ & (r & _ & Hstored & _ & _ & Hstable) & _).
  - vm_compute. reflexivity.
  - exists r. split; [exact Hstored | exact Hstable].
Defined.



(** C10, the claim as the specification has it, fails on
    [number_code_request]: its capability is registered and its inputs
    lack the [filename] key, yet the run raises, since its code is the
    number 5. *)
Lemma missing_filename_with_number_code_raises :
  registered number_code_request
  /\ TaskRequest.inputs number_code_request !! lit "filename" = None
  /\ run_task ascii_table example_digest example_dir ∅ (lit "t-0a1b2c3d")
       number_code_request example_queued example_ended
     = (∅, Raise AttributeError).
Proof.
  split; [left; reflexivity|]. split; vm_compute; reflexivity.
Defined.

Lemma missing_inputs_witness :
  registered (request (lit "code_quality") ∅)
  /\ exists files' r content,
       run_task ascii_table example_digest example_dir ∅ (lit "t-0a1b2c3d")
         (request (lit "code_quality") ∅) example_queued example_ended
       = (files', Return r)
       /\ TaskResult.status r = lit "SUCCEEDED"
       /\ TaskResult.facts r = [lint_fact 1 NO_DOCSTRING]
       /\ files' !! lit "/srv/app/artifacts/t-0a1b2c3d_lint_report.json"
          = Some content
       /\ utf8_decode content
          = Some (report_text (quoted (lit "unknown.py")) [lint_fact 1 NO_DOCSTRING]).
Proof.
  assert (Hreg : registered (request (lit "code_quality") ∅)) by (left; reflexivity).
  split; [exact Hreg|].
  destruct (missing_inputs_take_defaults
              ascii_table example_digest example_dir
              (request (lit "code_quality") ∅) ∅ (lit "t-0a1b2c3d")
              example_queued example_ended Hreg)
    as (_ & _ & _ & _ & Hempty & _).
  apply Hempty; reflexivity.
Defined.

(** ** The further properties at work on the examples *)

Lemma non_text_code_witness :
  code_text number_code_request = None
  /\ run_task ascii_table example_digest example_dir ∅ (lit "t-0a1b2c3d")
       number_code_request example_queued example_ended
     = (∅, Raise AttributeError).
Proof.
  assert (Hcode : code_text number_code_request = None) by (vm_compute; reflexivity).
  split; [exact Hcode|].
  apply (proj1 (non_text_code_raises ascii_table example_digest example_dir ∅
                  (lit "t-0a1b2c3d") number_code_request
                  example_queued example_ended Hcode)).
  reflexivity.
Defined.

Lemma failed_submit_witness :
  registered number_code_request
  /\ code_text number_code_request = None
  /\ status_code_of any_float
       (snd (create_task ascii_table example_digest example_dir (startup ∅)
               number_code_request example_uuid example_queued example_ended))
     = 500.
Proof.
  assert (Hreg : registered number_code_request) by (left; reflexivity).
  assert (Hcode : code_text number_code_request = None) by (vm_compute; reflexivity).
  split; [exact Hreg|]. split; [exact Hcode|].
  exact (proj1 (failed_submit_leaves_scheduled_record
                  ascii_table example_digest example_dir any_float (startup ∅)
                  number_code_request example_uuid example_queued example_ended
                  Hreg Hcode)).
Defined.

Lemma fallback_witness :
  ~ registered (request (lit "translate") ∅)
  /\ exists r,
       run_task ascii_table example_digest example_dir ∅ (lit "t-0a1b2c3d")
         (request (lit "translate") ∅) example_queued example_ended
       = (∅, Return r)
       /\ TaskResult.message r = Some (lit "Unknown capability").
Proof.
  assert (Hno : ~ registered (request (lit "translate") ∅)).
  { intros [H | [H | []]]; discriminate H. }
  split; [exact Hno|].
  destruct (unregistered_capability_falls_through
              ascii_table example_digest example_dir ∅ (lit "t-0a1b2c3d")
              (request (lit "translate") ∅) example_queued example_ended Hno)
    as (r & Hrun & _ & _ & _ & _ & _ & Hmsg).
  exists r. auto.
Defined.

Lemma facts_depend_witness :
  code_text example_request = Some todo_example
  /\ code_text (request (lit "code_quality") (code_inputs todo_example (lit "other.py")))
     = Some todo_example
  /\ filename_encodable example_request
  /\ filename_encodable
       (request (lit "code_quality") (code_inputs todo_example (lit "other.py")))
  /\ exists out out' r r',
       run_task ascii_table example_digest example_dir ∅ (lit "t-0a1b2c3d")
         example_request example_queued example_ended = (out, Return r)
       /\ run_task ascii_table example_digest example_dir ∅ (lit "t-ffffffff")
            (request (lit "code_quality") (code_inputs todo_example (lit "other.py")))
            example_ended example_queued = (out', Return r')
       /\ TaskResult.facts r = TaskResult.facts r'
       /\ TaskResult.message r = TaskResult.message r'.
Proof.
  split; [vm_compute; reflexivity|]. split; [vm_compute; reflexivity|].
  split; [vm_compute; reflexivity|]. split; [vm_compute; reflexivity|].
  apply (facts_depend_on_capability_and_code
           ascii_table example_digest example_dir ∅ ∅
           (lit "t-0a1b2c3d") (lit "t-ffffffff") example_request
           (request (lit "code_quality") (code_inputs todo_example (lit "other.py")))
           example_queued example_ended example_ended example_queued
           todo_example).
  - reflexivity.
  - vm_compute. reflexivity.
  - vm_compute. reflexivity.
  - vm_compute. reflexivity.
  - vm_compute. reflexivity.
Defined.

Lemma submit_writes_witness :
  lit "/srv/app/artifacts/t-ffffffff_lint_report.json"
  <> artifact_path example_dir
       ((lit "t-" ++ firstn 8 (hex example_uuid)) ++ lit "_lint_report.json")
  /\ FILES (fst (create_task ascii_table example_digest example_dir (startup ∅)
                   example_request example_uuid example_queued example_ended))
       !! lit "/srv/app/artifacts/t-ffffffff_lint_report.json"
     = None.
Proof.
  assert (Hp : lit "/srv/app/artifacts/t-ffffffff_lint_report.json"
               <> artifact_path example_dir
                    ((lit "t-" ++ firstn 8 (hex example_uuid))
                     ++ lit "_lint_report.json")).
  { intros H. vm_compute in H. discriminate H. }
  split; [exact Hp|].
  rewrite (proj1 (submit_writes_its_own_report_only
                    ascii_table example_digest example_dir (startup ∅)
                    example_request example_uuid example_queued example_ended
                    _ Hp)).
  reflexivity.
Defined.

Lemma distinct_reports_witness :
  lit "t-0a1b2c3d" <> lit "t-ffffffff"
  /\ artifact_path example_dir (lit "t-0a1b2c3d" ++ lit "_lint_report.json")
     <> artifact_path example_dir (lit "t-ffffffff" ++ lit "_lint_report.json").
Proof.
  assert (Hne : lit "t-0a1b2c3d" <> lit "t-ffffffff")
    by (intros H; vm_compute in H; discriminate H).
  split; [exact Hne|].
  apply (distinct_task_ids_have_distinct_reports example_dir
           (lit "t-0a1b2c3d") (lit "t-ffffffff"));
    [reflexivity | reflexivity | exact Hne].
Defined.

Lemma stored_records_witness :
  TASKS (serve_all ascii_table example_digest example_dir (startup ∅)
           [PostTasks number_code_request example_uuid example_queued example_ended])
    !! lit "t-0a1b2c3d"
  = Some (TaskStatus.mk (lit "t-0a1b2c3d") (lit "SCHEDULED") None)
  /\ well_formed_record (lit "t-0a1b2c3d")
       (TaskStatus.mk (lit "t-0a1b2c3d") (lit "SCHEDULED") None).
Proof.
  assert (H : TASKS (serve_all ascii_table example_digest example_dir (startup ∅)
                       [PostTasks number_code_request example_uuid
                          example_queued example_ended])
                !! lit "t-0a1b2c3d"
              = Some (TaskStatus.mk (lit "t-0a1b2c3d") (lit "SCHEDULED") None))
    by (vm_compute; reflexivity).
  split; [exact H|].
  exact (stored_records_are_well_formed ascii_table example_digest example_dir ∅
           [PostTasks number_code_request example_uuid example_queued example_ended]
           (lit "t-0a1b2c3d") _ H).
Defined.

(** Two tasks are in the table, [t-0a1b2c3d] and [t-ffffffff]; a third
    submit draws the eight characters [0a1b2c3d] again. *)
Lemma repeated_id_witness :
  let st := serve_all ascii_table example_digest example_dir (startup ∅)
              [PostTasks example_request example_uuid example_queued example_ended;
               PostTasks example_request other_uuid example_queued example_ended] in
  let st' := fst (create_task ascii_table example_digest example_dir st
                    surrogate_name_request example_uuid'
                    example_queued example_ended) in
  registered surrogate_name_request
  /\ lit "t-" ++ firstn 8 (hex example_uuid') = lit "t-0a1b2c3d"
  /\ is_Some (TASKS st !! lit "t-0a1b2c3d")
  /\ is_Some (TASKS st !! lit "t-ffffffff")
  /\ size (TASKS st) = 2
  /\ size (TASKS st') = 2
  /\ TASKS st' !! lit "t-0a1b2c3d" <> TASKS st !! lit "t-0a1b2c3d"
  /\ TASKS st' !! lit "t-ffffffff" = TASKS st !! lit "t-ffffffff".
Proof.
  intros st st'.
  assert (Hreg : registered surrogate_name_request) by (right; left; reflexivity).
  assert (Hid : lit "t-" ++ firstn 8 (hex example_uuid') = lit "t-0a1b2c3d")
    by (vm_compute; reflexivity).
  assert (Hold : is_Some (TASKS st !! lit "t-0a1b2c3d"))
    by (vm_compute; eauto).
  assert (Hsize : size (TASKS st) = 2) by (vm_compute; reflexivity).
  split; [exact Hreg|]. split; [exact Hid|]. split; [exact Hold|].
  split; [vm_compute; eauto|]. split; [exact Hsize|].
  destruct (repeated_id_replaces_record
              ascii_table example_digest example_dir st
              surrogate_name_request example_uuid' example_queued example_ended
              Hreg) as (rec & Htable & _ & Hsame & _).
  fold st' in Htable, Hsame. rewrite Hid in Htable, Hsame.
  destruct Hold as [old Hold].
  split; [rewrite (Hsame old Hold); exact Hsize|].
  split.
  - vm_compute. discriminate.
  - rewrite Htable. apply lookup_insert_ne.
    intros H. vm_compute in H. discriminate H.
Defined.

Lemma lint_bounds_witness :
  code_text example_request = Some todo_example
  /\ filename_encodable example_request
  /\ exists files' r,
       run_task ascii_table example_digest example_dir ∅ (lit "t-0a1b2c3d")
         example_request example_queued example_ended = (files', Return r)
       /\ length (TaskResult.facts r) <= 2 * length (splitlines todo_example) + 1.
Proof.
  split; [vm_compute; reflexivity|]. split; [vm_compute; reflexivity|].
  destruct (lint_facts_within_bounds ascii_table example_digest example_dir
              example_request ∅ (lit "t-0a1b2c3d")
              example_queued example_ended
              todo_example) as (files' & r & Hrun & _ & Hlen & _).
  - reflexivity.
  - vm_compute. reflexivity.
  - vm_compute. reflexivity.
  - exists files', r. auto.
Defined.

Lemma no_issue_witness :
  code_text (request (lit "code_quality") (code_inputs blank_line_example (lit "f.py")))
  = Some blank_line_example
  /\ filename_encodable
       (request (lit "code_quality") (code_inputs blank_line_example (lit "f.py")))
  /\ exists files' r,
       run_task ascii_table example_digest example_dir ∅ (lit "t-0a1b2c3d")
         (request (lit "code_quality") (code_inputs blank_line_example (lit "f.py")))
         example_queued example_ended = (files', Return r)
       /\ (TaskResult.facts r = [] ->
           TaskResult.message r = Some (lit "0 potential issues found.")).
Proof.
  split; [vm_compute; reflexivity|]. split; [vm_compute; reflexivity|].
  destruct (no_issue_iff_clean ascii_table example_digest example_dir
              (request (lit "code_quality")
                 (code_inputs blank_line_example (lit "f.py")))
              ∅ (lit "t-0a1b2c3d") example_queued example_ended
              blank_line_example) as (files' & r & Hrun & _ & Hmsg).
  - reflexivity.
  - vm_compute. reflexivity.
  - vm_compute. reflexivity.
  - exists files', r. auto.
Defined.

Lemma reported_names_witness :
  code_text (request (lit "summarize_code") (code_inputs two_defs_example (lit "demo.py")))
  = Some two_defs_example
  /\ exists r names,
       run_task ascii_table example_digest example_dir ∅ (lit "t-0a1b2c3d")
         (request (lit "summarize_code") (code_inputs two_defs_example (lit "demo.py")))
         example_queued example_ended = (∅, Return r)
       /\ Forall (fun name => name <> [] /\ all_in (is_word ascii_table) name
                              /\ exists a b,
                                   two_defs_example = a ++ name ++ lit "(" ++ b)
            names.
Proof.
  split; [vm_compute; reflexivity|].
  destruct (reported_names_are_identifiers ascii_table example_digest example_dir
              (request (lit "summarize_code")
                 (code_inputs two_defs_example (lit "demo.py")))
              ∅ (lit "t-0a1b2c3d") example_queued example_ended
              two_defs_example) as (r & names & Hrun & _ & Hnames & _).
  - reflexivity.
  - vm_compute. reflexivity.
  - exists r, names. auto.
Defined.

Lemma crlf_witness :
  code_text (request (lit "code_quality") (code_inputs crlf_example (lit "f.py")))
  = Some crlf_example
  /\ filename_encodable
       (request (lit "code_quality") (code_inputs crlf_example (lit "f.py")))
  /\ every_newline_after_cr None crlf_example = true
  /\ exists files' r,
       run_task ascii_table example_digest example_dir ∅ (lit "t-0a1b2c3d")
         (request (lit "code_quality") (code_inputs crlf_example (lit "f.py")))
         example_queued example_ended = (files', Return r)
       /\ TaskResult.facts r = [lint_fact 1 NO_DOCSTRING].
Proof.
  split; [vm_compute; reflexivity|]. split; [vm_compute; reflexivity|].
  split; [reflexivity|].
  destruct (crlf_text_always_gets_docstring_fact
              ascii_table example_digest example_dir
              (request (lit "code_quality") (code_inputs crlf_example (lit "f.py")))
              ∅ (lit "t-0a1b2c3d") example_queued example_ended crlf_example)
    as (files' & r & Hrun & _ & _ & Hfacts).
  - reflexivity.
  - vm_compute. reflexivity.
  - vm_compute. reflexivity.
  - reflexivity.
  - exists files', r. split; [exact Hrun|]. rewrite Hfacts. vm_compute. reflexivity.
Defined.

Lemma first_line_witness :
  unbroken (lit "x = 1  # TODO")
  /\ flat_map line_facts
       (enumerate 1 (splitlines (lit "x = 1  # TODO" ++ [CR; LF] ++ lit "y = 2")))
     = line_facts (1, lit "x = 1  # TODO")
       ++ flat_map line_facts (enumerate 2 (splitlines (lit "y = 2"))).
Proof.
  split; [reflexivity|].
  apply (first_line_then_the_rest (lit "x = 1  # TODO") (lit "y = 2")).
  reflexivity.
Defined.

Lemma plain_example_environment :
  plain_environment example_digest example_dir example_queued example_ended.
Proof.
  split; [reflexivity|]. split; [|split; reflexivity].
  intros content. apply encodable_of_nat.
Qed.


